(** * Energy-grid survival dashboard: data pipeline and view recomputation

    A shallow embedding of [dashboardBetav1.py].  The program loads a table of
    grid equipment, fits a Cox model through [lifelines], and redraws a set of
    views for the selected row.

    Conventions of the embedding:
    - a pandas column is a [Series], tagged with its dtype; a frame is an
      ordered list of named columns;
    - Python floats are read as exact rationals ([Q]);
    - calls into pandas' [qcut], lifelines and the few Python builtins whose
      result is a formatting or parsing matter are fields of a [Library]
      record, so every statement holds for whatever those libraries return;
      the module [Pandas] gives [qcut] as pandas computes it, read in exact
      arithmetic, for the statements that depend on what it returns;
    - exceptions are values ([result]); the GUI callbacks run in a state and
      exception monad over the session, in which the widgets and the shared
      frame [df] live. *)

From Stdlib Require Import String Ascii List ZArith QArith Qabs Qminmax Lia Bool.
From Stdlib Require Import Permutation Sorted DecimalString Lqa Qround.
Import ListNotations.
Local Open Scope list_scope.
Local Open Scope string_scope.

(* ================================================================== *)
(** ** Exceptions and fallible computations *)
(* ================================================================== *)

Inductive ExcType : Type :=
| ValueError | KeyError | IndexError | TypeError | TclError | OSError | LibraryError.

(** An exception value: its class and the text [str(e)] yields. *)
Record PyExc : Type := mkExc { exc_type : ExcType; exc_str : string }.

Inductive result (A : Type) : Type :=
| Ok (a : A)
| Raise (e : PyExc).
Arguments Ok {A} a.
Arguments Raise {A} e.

Definition rbind {A B} (r : result A) (k : A -> result B) : result B :=
  match r with
  | Ok a => k a
  | Raise e => Raise e
  end.

Declare Scope result_scope.
Delimit Scope result_scope with res.
Notation "x <- r ;; k" := (rbind r (fun x => k))
  (at level 61, r at next level, right associativity) : result_scope.

Fixpoint rmap {A B} (f : A -> result B) (l : list A) : result (list B) :=
  match l with
  | [] => Ok []
  | x :: t => (y <- f x ;; ys <- rmap f t ;; Ok (y :: ys))%res
  end.

Definition is_ok {A} (r : result A) : bool :=
  match r with Ok _ => true | Raise _ => false end.

(* ================================================================== *)
(** ** Column names (module constants of the source) *)
(* ================================================================== *)

Definition DURATION_COL : string := "тривалість".
Definition EVENT_COL : string := "подія".
Definition FEATURE_COLUMNS : list string :=
  [ "навантаження_мвт"; "потужність_мвт"; "завантаженість";
    "температура_с"; "вітер_м_с"; "свято"; "вік_років" ].

Definition ID_COL : string := "ід".
Definition NAME_COL : string := "назва".
Definition TYPE_COL : string := "тип".
Definition LOAD_COL : string := "навантаження_мвт".
Definition POWER_COL : string := "потужність_мвт".
Definition UTIL_COL : string := "завантаженість".
Definition GROUP_COL : string := "_group".

Definition nl : string := String (ascii_of_nat 10) EmptyString.

(* ================================================================== *)
(** ** Series and frames *)
(* ================================================================== *)

(** A scalar taken out of a column. *)
Inductive Cell : Type :=
| VInt (z : Z)
| VFloat (q : Q)
| VBool (b : bool)
| VStr (s : string).

(** A column with its dtype: [int64], [float64], [bool], [object] (text, as
    [read_csv] and the list comprehensions of the source produce it) and the
    ordered categorical that [qcut] returns. *)
Inductive Series : Type :=
| SInt (xs : list Z)
| SFloat (xs : list Q)
| SBool (xs : list bool)
| SStr (xs : list string)
| SCat (cats : list string) (xs : list string).

Definition series_cells (s : Series) : list Cell :=
  match s with
  | SInt xs => map VInt xs
  | SFloat xs => map VFloat xs
  | SBool xs => map VBool xs
  | SStr xs => map VStr xs
  | SCat _ xs => map VStr xs
  end.

Definition series_len (s : Series) : nat := length (series_cells s).

Definition is_numeric_dtype (s : Series) : bool :=
  match s with
  | SInt _ | SFloat _ | SBool _ => true
  | SStr _ | SCat _ _ => false
  end.

Definition dtype_is_object (s : Series) : bool :=
  match s with
  | SStr _ => true
  | _ => false
  end.

Definition cell_eqb (a b : Cell) : bool :=
  match a, b with
  | VInt x, VInt y => Z.eqb x y
  | VFloat x, VFloat y => Qeq_bool x y
  | VBool x, VBool y => Bool.eqb x y
  | VStr x, VStr y => String.eqb x y
  | _, _ => false
  end.

(** Distinct values in order of first appearance ([Series.unique]). *)
Fixpoint uniq {A} (eqb : A -> A -> bool) (l : list A) : list A :=
  match l with
  | [] => []
  | x :: t => x :: filter (fun y => negb (eqb x y)) (uniq eqb t)
  end.

Definition nunique (s : Series) : nat := length (uniq cell_eqb (series_cells s)).

(** Boolean mask selection, [s[mask]]. *)
Fixpoint select_mask {A} (mask : list bool) (l : list A) : list A :=
  match mask, l with
  | m :: ms, x :: t => if m then x :: select_mask ms t else select_mask ms t
  | _, _ => []
  end.

Definition series_mask (mask : list bool) (s : Series) : Series :=
  match s with
  | SInt xs => SInt (select_mask mask xs)
  | SFloat xs => SFloat (select_mask mask xs)
  | SBool xs => SBool (select_mask mask xs)
  | SStr xs => SStr (select_mask mask xs)
  | SCat c xs => SCat c (select_mask mask xs)
  end.

(** Keep only position [i] ([s.iloc[[i]]]). *)
Definition series_at (i : nat) (s : Series) : Series :=
  match s with
  | SInt xs => SInt (firstn 1 (skipn i xs))
  | SFloat xs => SFloat (firstn 1 (skipn i xs))
  | SBool xs => SBool (firstn 1 (skipn i xs))
  | SStr xs => SStr (firstn 1 (skipn i xs))
  | SCat c xs => SCat c (firstn 1 (skipn i xs))
  end.

Record DataFrame : Type := mkDF {
  nrows : nat;                         (* len(df) *)
  cols : list (string * Series)        (* columns, in order *)
}.

Definition columns (df : DataFrame) : list string := map fst (cols df).

Definition has_col (c : string) (df : DataFrame) : bool :=
  existsb (String.eqb c) (columns df).

Fixpoint lookup_col (c : string) (l : list (string * Series)) : option Series :=
  match l with
  | [] => None
  | (k, s) :: t => if String.eqb c k then Some s else lookup_col c t
  end.

Fixpoint store_col (c : string) (s : Series) (l : list (string * Series))
  : list (string * Series) :=
  match l with
  | [] => [(c, s)]
  | (k, s0) :: t => if String.eqb c k then (k, s) :: t else (k, s0) :: store_col c s t
  end.

(** [df[c] = s]: overwrite the column in place, or append it. *)
Definition setitem (df : DataFrame) (c : string) (s : Series) : DataFrame :=
  mkDF (nrows df) (store_col c s (cols df)).

(** Every column has one cell per row and names are not repeated. *)
Definition wf_df (df : DataFrame) : Prop :=
  Forall (fun cs => series_len (snd cs) = nrows df) (cols df) /\ NoDup (columns df).

(** [df[c]]; of pandas' [KeyError] only the column name is kept. *)
Definition getitem (df : DataFrame) (c : string) : result Series :=
  match lookup_col c (cols df) with
  | Some s => Ok s
  | None => Raise (mkExc KeyError c)
  end.

(** [df[cs]] for a list of names: the named columns, in the order asked. *)
Definition select_cols (df : DataFrame) (cs : list string) : result DataFrame :=
  (l <- rmap (fun c => s <- getitem df c ;; Ok (c, s)) cs ;;
   Ok (mkDF (nrows df) l))%res.

(** [df.iloc[[i]]]: the one-row frame at position [i]. *)
Definition iloc_rows (df : DataFrame) (i : nat) : result DataFrame :=
  if Nat.ltb i (nrows df)
  then Ok (mkDF 1 (map (fun cs => (fst cs, series_at i (snd cs))) (cols df)))
  else Raise (mkExc IndexError "positional indexers are out-of-bounds").

Definition series_nth (s : Series) (i : nat) : result Cell :=
  match nth_error (series_cells s) i with
  | Some v => Ok v
  | None => Raise (mkExc IndexError "index out of bounds")
  end.

(** [df.iloc[i][c]] *)
Definition iloc_cell (df : DataFrame) (i : nat) (c : string) : result Cell :=
  if Nat.ltb i (nrows df)
  then (s <- getitem df c ;; series_nth s i)%res
  else Raise (mkExc IndexError "single positional indexer is out-of-bounds").

(** [df.iloc[i].to_dict()]: every column of the row, in column order. *)
Definition iloc_to_dict (df : DataFrame) (i : nat) : result (list (string * Cell)) :=
  if Nat.ltb i (nrows df)
  then rmap (fun cs => (v <- series_nth (snd cs) i ;; Ok (fst cs, v))%res) (cols df)
  else Raise (mkExc IndexError "single positional indexer is out-of-bounds").

(* ================================================================== *)
(** ** The libraries the program calls *)
(* ================================================================== *)

(** A curve as lifelines returns it: the index (times) with one value each. *)
Definition Curve : Type := list (Q * Q).

(** One line of [cph.summary]. *)
Record SummaryRow : Type := mkSummaryRow {
  sr_feature : string;
  sr_exp_coef : Q;
  sr_lower95 : Q;
  sr_upper95 : Q
}.

(** A fitted [CoxPHFitter]: the queries the dashboard makes of it. *)
Record CoxPHFitter : Type := mkCox {
  predict_survival_function : DataFrame -> result Curve;
  predict_cumulative_hazard : DataFrame -> result Curve;
  predict_partial_hazard : DataFrame -> result Q;
  summary : list SummaryRow
}.

Record Library : Type := mkLibrary {
  (* Python builtins *)
  py_repr : string -> string;            (* repr(s) of a str *)
  py_str_float : Q -> string;            (* str(x) of a float *)
  py_format_f : nat -> Q -> string;      (* format(x, ".Nf") *)
  py_int_str : string -> option Z;       (* int(s), None when it raises *)
  py_float_str : string -> option Q;     (* float(s), None when it raises *)
  py_blank : string -> bool;             (* not s.strip() *)
  (* pandas: qcut(s, q, labels=..., duplicates="drop"), the label of each row *)
  qcut_drop : Series -> nat -> list string -> result (list string);
  (* lifelines *)
  cox_fit : DataFrame -> string -> string -> result CoxPHFitter;
  km_fit : Series -> Series -> result Curve
}.

Definition string_of_Z (z : Z) : string := NilZero.string_of_int (Z.to_int z).

Section Builtins.
Variable L : Library.

(** [str(v)] *)
Definition py_str (v : Cell) : string :=
  match v with
  | VInt z => string_of_Z z
  | VFloat q => py_str_float L q
  | VBool b => if b then "True" else "False"
  | VStr s => s
  end.

(** [float(v)] *)
Definition py_float (v : Cell) : result Q :=
  match v with
  | VInt z => Ok (inject_Z z)
  | VFloat q => Ok q
  | VBool b => Ok (if b then 1 else 0)
  | VStr s =>
      match py_float_str L s with
      | Some q => Ok q
      | None => Raise (mkExc ValueError ("could not convert string to float: " ++ py_repr L s))
      end
  end.

(** [int(v)]; a float is truncated toward zero. *)
Definition py_int (v : Cell) : result Z :=
  match v with
  | VInt z => Ok z
  | VFloat q => Ok (Z.quot (Qnum q) (Zpos (Qden q)))
  | VBool b => Ok (if b then 1%Z else 0%Z)
  | VStr s =>
      match py_int_str L s with
      | Some z => Ok z
      | None => Raise (mkExc ValueError
                  ("invalid literal for int() with base 10: " ++ py_repr L s))
      end
  end.

(** [s.astype(str)] *)
Definition astype_str (s : Series) : Series :=
  SStr (map py_str (series_cells s)).

(** [s.astype(int)] *)
Definition astype_int (s : Series) : result Series :=
  (zs <- rmap py_int (series_cells s) ;; Ok (SInt zs))%res.

(** [repr] of a list of str, as an f-string interpolates it. *)
Definition repr_list (l : list string) : string :=
  "[" ++ String.concat ", " (map (py_repr L) l) ++ "]".

End Builtins.

(* ================================================================== *)
(** ** Module-level functions *)
(* ================================================================== *)

Section Pipeline.
Variable L : Library.

(** [ensure_columns(df, required_cols)] *)
Definition missing_columns (df : DataFrame) (required_cols : list string) : list string :=
  filter (fun c => negb (has_col c df)) required_cols.

Definition schema_message (missing present : list string) : string :=
  "У CSV відсутні колонки: " ++ repr_list L missing ++ nl ++
  "Є колонки: " ++ repr_list L present.

Definition ensure_columns (df : DataFrame) (required_cols : list string) : result unit :=
  let missing := missing_columns df required_cols in
  match missing with
  | [] => Ok tt
  | _ :: _ => Raise (mkExc ValueError (schema_message missing (columns df)))
  end.

Definition fit_columns : list string := [DURATION_COL; EVENT_COL] ++ FEATURE_COLUMNS.

(** Lines 29-30 of [train_cox_model]: the event column is rewritten only
    when its dtype is [object]. *)
Definition coerce_event (df : DataFrame) : result DataFrame :=
  (ev <- getitem df EVENT_COL ;;
   if dtype_is_object ev
   then (ev' <- astype_int L ev ;; Ok (setitem df EVENT_COL ev'))
   else Ok df)%res.

(** The frame handed to [CoxPHFitter.fit]. *)
Definition fit_frame (df : DataFrame) : result DataFrame :=
  (df' <- coerce_event df ;; select_cols df' fit_columns)%res.

(** [train_cox_model(df)]; callers pass [df.copy()], so the caller's frame
    is not touched. *)
Definition train_cox_model (df : DataFrame) : result CoxPHFitter :=
  (x <- fit_frame df ;; cox_fit L x DURATION_COL EVENT_COL)%res.

End Pipeline.

(* ================================================================== *)
(** ** The session: closure variables and widgets of [run_dashboard] *)
(* ================================================================== *)

(** A [tk.IntVar] bound to the spinbox: either content that [get()] reads as
    an integer, or text on which [get()] raises. *)
Inductive IntVar : Type :=
| IntVal (z : Z)
| IntText (s : string).

Inductive Dialog : Type :=
| ShowWarning (title message : string)
| ShowError (title message : string).

(** What a matplotlib axes holds between [clear()] and the next [clear()]. *)
Record Axes : Type := mkAxes {
  ax_lines : list (string * Curve);      (* plot(...): label and points *)
  ax_vlines : list (Q * string);         (* axvline(x, label=...) *)
  ax_bars : list (string * Q * string);  (* barh: name, width, colour *)
  ax_texts : list string;                (* text(...) *)
  ax_title : string
}.

Definition empty_axes : Axes := mkAxes [] [] [] [] EmptyString.

Definition ax_plot (l : string * Curve) (a : Axes) : Axes :=
  mkAxes (ax_lines a ++ [l]) (ax_vlines a) (ax_bars a) (ax_texts a) (ax_title a).
Definition ax_axvline (l : Q * string) (a : Axes) : Axes :=
  mkAxes (ax_lines a) (ax_vlines a ++ [l]) (ax_bars a) (ax_texts a) (ax_title a).
Definition ax_barh (l : list (string * Q * string)) (a : Axes) : Axes :=
  mkAxes (ax_lines a) (ax_vlines a) l (ax_texts a) (ax_title a).
Definition ax_text (t : string) (a : Axes) : Axes :=
  mkAxes (ax_lines a) (ax_vlines a) (ax_bars a) (ax_texts a ++ [t]) (ax_title a).
Definition ax_set_title (t : string) (a : Axes) : Axes :=
  mkAxes (ax_lines a) (ax_vlines a) (ax_bars a) (ax_texts a) t.

(** The four axes and what their canvases last drew. *)
Record Plots : Type := mkPlots {
  ax_surv : Axes;
  ax_hr : Axes;
  ax_ch : Axes;
  ax_groups : Axes;
  canvas_surv : Axes;
  canvas_hr : Axes;
  canvas_ch : Axes;
  canvas_groups : Axes
}.

Definition set_ax_surv (v : Axes) (x : Plots) : Plots :=
  mkPlots v (ax_hr x) (ax_ch x) (ax_groups x) (canvas_surv x) (canvas_hr x) (canvas_ch x) (canvas_groups x).
Definition set_ax_hr (v : Axes) (x : Plots) : Plots :=
  mkPlots (ax_surv x) v (ax_ch x) (ax_groups x) (canvas_surv x) (canvas_hr x) (canvas_ch x) (canvas_groups x).
Definition set_ax_ch (v : Axes) (x : Plots) : Plots :=
  mkPlots (ax_surv x) (ax_hr x) v (ax_groups x) (canvas_surv x) (canvas_hr x) (canvas_ch x) (canvas_groups x).
Definition set_ax_groups (v : Axes) (x : Plots) : Plots :=
  mkPlots (ax_surv x) (ax_hr x) (ax_ch x) v (canvas_surv x) (canvas_hr x) (canvas_ch x) (canvas_groups x).
Definition set_canvas_surv (v : Axes) (x : Plots) : Plots :=
  mkPlots (ax_surv x) (ax_hr x) (ax_ch x) (ax_groups x) v (canvas_hr x) (canvas_ch x) (canvas_groups x).
Definition set_canvas_hr (v : Axes) (x : Plots) : Plots :=
  mkPlots (ax_surv x) (ax_hr x) (ax_ch x) (ax_groups x) (canvas_surv x) v (canvas_ch x) (canvas_groups x).
Definition set_canvas_ch (v : Axes) (x : Plots) : Plots :=
  mkPlots (ax_surv x) (ax_hr x) (ax_ch x) (ax_groups x) (canvas_surv x) (canvas_hr x) v (canvas_groups x).
Definition set_canvas_groups (v : Axes) (x : Plots) : Plots :=
  mkPlots (ax_surv x) (ax_hr x) (ax_ch x) (ax_groups x) (canvas_surv x) (canvas_hr x) (canvas_ch x) v.

(** Labels, text boxes and the other widgets the callbacks write to. *)
Record Widgets : Type := mkWidgets {
  title : string;
  root_title : string;
  spin_to : Z;
  id_menu_values : list string;
  group_menu_values : list string;
  risk_label : string * string;
  load_bar : Q;
  load_val_label : string;
  record_summary_label : string;
  details_text : string;
  report_text : string;
  details_btn : string;
  details_frame_packed : bool
}.

Definition set_title (v : string) (x : Widgets) : Widgets :=
  mkWidgets v (root_title x) (spin_to x) (id_menu_values x) (group_menu_values x) (risk_label x) (load_bar x) (load_val_label x) (record_summary_label x) (details_text x) (report_text x) (details_btn x) (details_frame_packed x).
Definition set_root_title (v : string) (x : Widgets) : Widgets :=
  mkWidgets (title x) v (spin_to x) (id_menu_values x) (group_menu_values x) (risk_label x) (load_bar x) (load_val_label x) (record_summary_label x) (details_text x) (report_text x) (details_btn x) (details_frame_packed x).
Definition set_spin_to (v : Z) (x : Widgets) : Widgets :=
  mkWidgets (title x) (root_title x) v (id_menu_values x) (group_menu_values x) (risk_label x) (load_bar x) (load_val_label x) (record_summary_label x) (details_text x) (report_text x) (details_btn x) (details_frame_packed x).
Definition set_id_menu_values (v : list string) (x : Widgets) : Widgets :=
  mkWidgets (title x) (root_title x) (spin_to x) v (group_menu_values x) (risk_label x) (load_bar x) (load_val_label x) (record_summary_label x) (details_text x) (report_text x) (details_btn x) (details_frame_packed x).
Definition set_group_menu_values (v : list string) (x : Widgets) : Widgets :=
  mkWidgets (title x) (root_title x) (spin_to x) (id_menu_values x) v (risk_label x) (load_bar x) (load_val_label x) (record_summary_label x) (details_text x) (report_text x) (details_btn x) (details_frame_packed x).
Definition set_risk_label (v : string * string) (x : Widgets) : Widgets :=
  mkWidgets (title x) (root_title x) (spin_to x) (id_menu_values x) (group_menu_values x) v (load_bar x) (load_val_label x) (record_summary_label x) (details_text x) (report_text x) (details_btn x) (details_frame_packed x).
Definition set_load_bar (v : Q) (x : Widgets) : Widgets :=
  mkWidgets (title x) (root_title x) (spin_to x) (id_menu_values x) (group_menu_values x) (risk_label x) v (load_val_label x) (record_summary_label x) (details_text x) (report_text x) (details_btn x) (details_frame_packed x).
Definition set_load_val_label (v : string) (x : Widgets) : Widgets :=
  mkWidgets (title x) (root_title x) (spin_to x) (id_menu_values x) (group_menu_values x) (risk_label x) (load_bar x) v (record_summary_label x) (details_text x) (report_text x) (details_btn x) (details_frame_packed x).
Definition set_record_summary_label (v : string) (x : Widgets) : Widgets :=
  mkWidgets (title x) (root_title x) (spin_to x) (id_menu_values x) (group_menu_values x) (risk_label x) (load_bar x) (load_val_label x) v (details_text x) (report_text x) (details_btn x) (details_frame_packed x).
Definition set_details_text (v : string) (x : Widgets) : Widgets :=
  mkWidgets (title x) (root_title x) (spin_to x) (id_menu_values x) (group_menu_values x) (risk_label x) (load_bar x) (load_val_label x) (record_summary_label x) v (report_text x) (details_btn x) (details_frame_packed x).
Definition set_report_text (v : string) (x : Widgets) : Widgets :=
  mkWidgets (title x) (root_title x) (spin_to x) (id_menu_values x) (group_menu_values x) (risk_label x) (load_bar x) (load_val_label x) (record_summary_label x) (details_text x) v (details_btn x) (details_frame_packed x).
Definition set_details_btn (v : string) (x : Widgets) : Widgets :=
  mkWidgets (title x) (root_title x) (spin_to x) (id_menu_values x) (group_menu_values x) (risk_label x) (load_bar x) (load_val_label x) (record_summary_label x) (details_text x) (report_text x) v (details_frame_packed x).
Definition set_details_frame_packed (v : bool) (x : Widgets) : Widgets :=
  mkWidgets (title x) (root_title x) (spin_to x) (id_menu_values x) (group_menu_values x) (risk_label x) (load_bar x) (load_val_label x) (record_summary_label x) (details_text x) (report_text x) (details_btn x) v.

(** The variables the nested callbacks share. *)
Record Session : Type := mkSession {
  df : DataFrame;
  cph : CoxPHFitter;
  source_label : string;
  groupable_vars : list string;
  obj_var : IntVar;
  id_var : string;
  group_var : string;
  show_details : bool;
  widgets : Widgets;
  plots : Plots;
  dialogs : list Dialog
}.

Definition set_df (v : DataFrame) (x : Session) : Session :=
  mkSession v (cph x) (source_label x) (groupable_vars x) (obj_var x) (id_var x) (group_var x) (show_details x) (widgets x) (plots x) (dialogs x).
Definition set_cph (v : CoxPHFitter) (x : Session) : Session :=
  mkSession (df x) v (source_label x) (groupable_vars x) (obj_var x) (id_var x) (group_var x) (show_details x) (widgets x) (plots x) (dialogs x).
Definition set_source_label (v : string) (x : Session) : Session :=
  mkSession (df x) (cph x) v (groupable_vars x) (obj_var x) (id_var x) (group_var x) (show_details x) (widgets x) (plots x) (dialogs x).
Definition set_groupable_vars (v : list string) (x : Session) : Session :=
  mkSession (df x) (cph x) (source_label x) v (obj_var x) (id_var x) (group_var x) (show_details x) (widgets x) (plots x) (dialogs x).
Definition set_obj_var (v : IntVar) (x : Session) : Session :=
  mkSession (df x) (cph x) (source_label x) (groupable_vars x) v (id_var x) (group_var x) (show_details x) (widgets x) (plots x) (dialogs x).
Definition set_id_var (v : string) (x : Session) : Session :=
  mkSession (df x) (cph x) (source_label x) (groupable_vars x) (obj_var x) v (group_var x) (show_details x) (widgets x) (plots x) (dialogs x).
Definition set_group_var (v : string) (x : Session) : Session :=
  mkSession (df x) (cph x) (source_label x) (groupable_vars x) (obj_var x) (id_var x) v (show_details x) (widgets x) (plots x) (dialogs x).
Definition set_show_details (v : bool) (x : Session) : Session :=
  mkSession (df x) (cph x) (source_label x) (groupable_vars x) (obj_var x) (id_var x) (group_var x) v (widgets x) (plots x) (dialogs x).
Definition set_widgets (v : Widgets) (x : Session) : Session :=
  mkSession (df x) (cph x) (source_label x) (groupable_vars x) (obj_var x) (id_var x) (group_var x) (show_details x) v (plots x) (dialogs x).
Definition set_plots (v : Plots) (x : Session) : Session :=
  mkSession (df x) (cph x) (source_label x) (groupable_vars x) (obj_var x) (id_var x) (group_var x) (show_details x) (widgets x) v (dialogs x).
Definition set_dialogs (v : list Dialog) (x : Session) : Session :=
  mkSession (df x) (cph x) (source_label x) (groupable_vars x) (obj_var x) (id_var x) (group_var x) (show_details x) (widgets x) (plots x) v.

(* ================================================================== *)
(** ** Callbacks: state that survives an exception *)
(* ================================================================== *)

Definition M (A : Type) : Type := Session -> Session * result A.

Definition ret {A} (a : A) : M A := fun s => (s, Ok a).
Definition throw {A} (e : PyExc) : M A := fun s => (s, Raise e).
Definition bind {A B} (m : M A) (k : A -> M B) : M B :=
  fun s => match m s with
           | (s', Ok a) => k a s'
           | (s', Raise e) => (s', Raise e)
           end.
Definition lift {A} (r : result A) : M A := fun s => (s, r).
Definition gets {A} (f : Session -> A) : M A := fun s => (s, Ok (f s)).
Definition modify (f : Session -> Session) : M unit := fun s => (f s, Ok tt).

(** [try: m except Exception: h] *)
Definition try_except {A} (m : M A) (h : M A) : M A :=
  fun s => match m s with
           | (s', Ok a) => (s', Ok a)
           | (s', Raise _) => h s'
           end.

Declare Scope dash_scope.
Delimit Scope dash_scope with dash.
Notation "x <- m ;; k" := (bind m (fun x => k))
  (at level 61, m at next level, right associativity) : dash_scope.
Notation "m ;; k" := (bind m (fun _ => k))
  (at level 61, right associativity) : dash_scope.

Definition modify_widgets (f : Widgets -> Widgets) : M unit :=
  modify (fun s => set_widgets (f (widgets s)) s).
Definition modify_plots (f : Plots -> Plots) : M unit :=
  modify (fun s => set_plots (f (plots s)) s).
Definition when (b : bool) (m : M unit) : M unit := if b then m else ret tt.

(* ================================================================== *)
(** ** Numeric and list helpers *)
(* ================================================================== *)

Definition Qltb (x y : Q) : bool := negb (Qle_bool y x).

(** Python's two-argument [min] and [max]: the first argument wins a tie. *)
Definition py_min (a b : Q) : Q := if Qltb b a then b else a.
Definition py_max (a b : Q) : Q := if Qltb a b then b else a.

(** [sorted(l)]: stable insertion into an ordered list. *)
Fixpoint insert_by {A} (leb : A -> A -> bool) (x : A) (l : list A) : list A :=
  match l with
  | [] => [x]
  | y :: t => if leb x y then x :: y :: t else y :: insert_by leb x t
  end.

Definition sort_by {A} (leb : A -> A -> bool) (l : list A) : list A :=
  fold_right (insert_by leb) [] l.

(** Order of the values of one column; cells of different kinds never meet
    in a column. *)
Definition cell_leb (a b : Cell) : bool :=
  match a, b with
  | VInt x, VInt y => Z.leb x y
  | VFloat x, VFloat y => Qle_bool x y
  | VBool x, VBool y => implb x y
  | VStr x, VStr y => String.leb x y
  | _, _ => false
  end.

(** [np.argmax(mask)]: position of the first [True], 0 when there is none. *)
Fixpoint argmax (mask : list bool) : nat :=
  match mask with
  | [] => 0
  | true :: _ => 0
  | false :: t => if existsb (fun b => b) t then S (argmax t) else 0
  end.

(** [s.min()] and [s.max()] of a column that has at least one cell. *)
Definition list_min {A} (leb : A -> A -> bool) (x : A) (l : list A) : A :=
  fold_left (fun m y => if leb m y then m else y) l x.
Definition list_max {A} (leb : A -> A -> bool) (x : A) (l : list A) : A :=
  fold_left (fun m y => if leb y m then m else y) l x.

Definition empty_reduction : PyExc := mkExc ValueError "reduction of an empty column".

Definition series_min (s : Series) : result Cell :=
  match s with
  | SCat cats xs =>
      match find (fun c => existsb (String.eqb c) xs) cats with
      | Some c => Ok (VStr c)
      | None => Raise empty_reduction
      end
  | _ =>
      match series_cells s with
      | [] => Raise empty_reduction
      | v :: t => Ok (list_min cell_leb v t)
      end
  end.

Definition series_max (s : Series) : result Cell :=
  match s with
  | SCat cats xs =>
      match find (fun c => existsb (String.eqb c) xs) (rev cats) with
      | Some c => Ok (VStr c)
      | None => Raise empty_reduction
      end
  | _ =>
      match series_cells s with
      | [] => Raise empty_reduction
      | v :: t => Ok (list_max cell_leb v t)
      end
  end.

(* ================================================================== *)
(** ** Derived views: the pure parts of [update_dashboard] *)
(* ================================================================== *)

(** Lines 266-268: the index entry at the first value that is [<= 0.5]. *)
Definition median_survival_time (surv : Curve) : option Q :=
  let yvals := map snd surv in
  let mask := map (fun y => Qle_bool y (1 # 2)) yvals in
  if existsb (fun b => b) mask
  then nth_error (map fst surv) (argmax mask)
  else None.

Inductive RiskBucket : Type := Low | Moderate | High.

(** Lines 342-347. *)
Definition risk_bucket (risk_score : Q) : RiskBucket :=
  if Qltb risk_score (8 # 10) then Low
  else if Qltb risk_score (12 # 10) then Moderate
  else High.

Definition risk_text (b : RiskBucket) : string * string :=
  match b with
  | Low => ("🟢 Низьке навантаження", "green")
  | Moderate => ("🟡 Помірне навантаження", "orange")
  | High => ("🔴 Високе навантаження", "red")
  end.

(** Lines 353-357. *)
Definition load_pct (curr_load min_load max_load : Q) : Q :=
  let pct := if Qltb min_load max_load
             then (curr_load - min_load) / (max_load - min_load) * 100
             else 0 in
  py_max 0 (py_min 100 pct).

Definition infer_type_by_power (p : Q) : string :=
  if Qltb 6000 p then "Генератор"
  else if Qltb 5200 p then "Підстанція"
  else "Лінія".

(* ================================================================== *)
(** ** Synthetic data *)
(* ================================================================== *)

(** A fresh [np.random.default_rng()]: the value drawn by the [k]-th call on
    the generator, at position [i] of the array it returns. *)
Record Rng : Type := mkRng {
  integers : nat -> Z -> Z -> nat -> Z;
  uniform : nat -> Q -> Q -> nat -> Q
}.

Definition rng_integers (g : Rng) (k : nat) (lo hi : Z) (n : nat) : Series :=
  SInt (map (integers g k lo hi) (seq 0 n)).
Definition rng_uniform (g : Rng) (k : nat) (lo hi : Q) (n : nat) : Series :=
  SFloat (map (uniform g k lo hi) (seq 0 n)).

Definition series_floats (s : Series) : list Q :=
  match s with
  | SFloat xs => xs
  | SInt xs => map inject_Z xs
  | _ => []
  end.

(** [generate_random_data(n)] *)
Definition generate_random_data (g : Rng) (n : nat) : DataFrame :=
  let ids := map Z.of_nat (seq 1 n) in
  let power := rng_uniform g 3 4000 7000 n in
  let df := mkDF n
    [ (ID_COL, SInt ids);
      (DURATION_COL, rng_integers g 0 10 200 n);
      (EVENT_COL, rng_integers g 1 0 2 n);
      ("навантаження_мвт", rng_uniform g 2 3000 6000 n);
      ("потужність_мвт", power);
      ("завантаженість", rng_uniform g 4 (5 # 10) (9 # 10) n);
      ("температура_с", rng_uniform g 5 (-20) 35 n);
      ("вітер_м_с", rng_uniform g 6 0 15 n);
      ("свято", rng_integers g 7 0 2 n);
      ("вік_років", rng_integers g 8 1 50 n) ] in
  let df := setitem df NAME_COL (SStr (map (fun i => "Елемент-" ++ string_of_Z i) ids)) in
  setitem df TYPE_COL (SStr (map infer_type_by_power (series_floats power))).

(* ================================================================== *)
(** ** [update_dashboard] *)
(* ================================================================== *)

Fixpoint forM_ {A} (l : list A) (f : A -> M unit) : M unit :=
  match l with
  | [] => ret tt
  | x :: t => bind (f x) (fun _ => forM_ t f)
  end.

Definition on_ax_surv (f : Axes -> Axes) : M unit :=
  modify_plots (fun p => set_ax_surv (f (ax_surv p)) p).
Definition on_ax_hr (f : Axes -> Axes) : M unit :=
  modify_plots (fun p => set_ax_hr (f (ax_hr p)) p).
Definition on_ax_ch (f : Axes -> Axes) : M unit :=
  modify_plots (fun p => set_ax_ch (f (ax_ch p)) p).
Definition on_ax_groups (f : Axes -> Axes) : M unit :=
  modify_plots (fun p => set_ax_groups (f (ax_groups p)) p).
Definition ax_clear (_ : Axes) : Axes := empty_axes.

Definition showerror (t msg : string) : M unit :=
  modify (fun s => set_dialogs (dialogs s ++ [ShowError t msg]) s).

(** [list.insert(i, x)] *)
Definition list_insert {A} (i : nat) (x : A) (l : list A) : list A :=
  firstn i l ++ x :: skipn i l.

Definition count_true (mask : list bool) : nat := length (filter (fun b => b) mask).

Definition GROUP_LABELS : list string := ["Низьке"; "Середнє"; "Високе"].

Section Dashboard.
Variable L : Library.
Local Open Scope dash_scope.

(** Lines 238-242: the selected index, 0 (written back) when the control
    holds no integer. *)
Definition read_index : M Z :=
  try_except
    (v <- gets obj_var ;;
     match v with
     | IntVal z => ret z
     | IntText t => throw (mkExc TclError ("expected integer but got " ++ t))
     end)
    (modify (set_obj_var (IntVal 0)) ;; ret 0%Z).

(** Lines 251-257. *)
Definition sync_id_var (i : nat) : M unit :=
  try_except
    (d <- gets df ;;
     when (has_col ID_COL d)
       (v <- lift (iloc_cell d i ID_COL) ;;
        let current_id := py_str L v in
        cur <- gets id_var ;;
        when (negb (String.eqb cur current_id)) (modify (set_id_var current_id))))
    (ret tt).

(** Lines 260-276. *)
Definition step_survival (idx : Z) (row : DataFrame) : M unit :=
  c <- gets cph ;;
  surv <- lift (predict_survival_function c row) ;;
  on_ax_surv ax_clear ;;
  on_ax_surv (ax_plot ("Ймовірність виживання", surv)) ;;
  try_except
    (match median_survival_time surv with
     | Some t50 => on_ax_surv (ax_axvline (t50, "Медіана ≈ " ++ py_format_f L 0 t50))
     | None => ret tt
     end)
    (ret tt) ;;
  on_ax_surv (ax_set_title ("Крива виживаності для елемента #" ++ string_of_Z idx)) ;;
  modify_plots (fun p => set_canvas_surv (ax_surv p) p).

(** Lines 279-289; returns [summary], which the report reuses. *)
Definition step_hazard_ratios : M (list SummaryRow) :=
  on_ax_hr ax_clear ;;
  c <- gets cph ;;
  let summary := summary c in
  match summary with
  | _ :: _ =>
      let hr := sort_by (fun a b => Qle_bool (sr_exp_coef a) (sr_exp_coef b)) summary in
      on_ax_hr (ax_barh (map (fun r => (sr_feature r, sr_exp_coef r,
                                        if Qltb 1 (sr_exp_coef r) then "red" else "green")) hr)) ;;
      on_ax_hr (ax_set_title "Hazard Ratios")
  | [] => on_ax_hr (ax_text "Немає коефіцієнтів")
  end ;;
  modify_plots (fun p => set_canvas_hr (ax_hr p) p) ;;
  ret summary.

(** Lines 292-298. *)
Definition step_cumulative_hazard (idx : Z) (row : DataFrame) : M unit :=
  c <- gets cph ;;
  ch <- lift (predict_cumulative_hazard c row) ;;
  on_ax_ch ax_clear ;;
  on_ax_ch (ax_plot (EmptyString, ch)) ;;
  on_ax_ch (ax_set_title ("Кумулятивний ризик для елемента #" ++ string_of_Z idx)) ;;
  modify_plots (fun p => set_canvas_ch (ax_ch p) p).

(** Lines 303-313: the grouping variable, or [None] after the "nothing to
    group by" placeholder has been drawn. *)
Definition choose_group_var : M (option string) :=
  var <- gets group_var ;;
  d <- gets df ;;
  if has_col var d then ret (Some var)
  else
    gv <- gets groupable_vars ;;
    match gv with
    | v0 :: _ => modify (set_group_var v0) ;; ret (Some v0)
    | [] =>
        on_ax_groups (ax_text "Немає змінних для групування") ;;
        modify_plots (fun p => set_canvas_groups (ax_groups p) p) ;;
        ret None
    end.

(** Lines 315-323: the value assigned to [df["_group"]]. *)
Definition group_series (d : DataFrame) (var : string) : result Series :=
  (col <- getitem d var ;;
   let unique_vals := nunique col in
   if is_numeric_dtype col && Nat.ltb 3 unique_vals
   then (labels <- qcut_drop L col 3 GROUP_LABELS ;; Ok (SCat GROUP_LABELS labels))
   else Ok (astype_str L col))%res.

(** Lines 326-331: one pass of the loop over the group values. *)
Definition plot_group (var : string) (val : Cell) : M unit :=
  d <- gets df ;;
  g <- lift (getitem d GROUP_COL) ;;
  let mask := map (fun x => cell_eqb x val) (series_cells g) in
  if Nat.eqb (count_true mask) 0 then ret tt
  else
    dur <- lift (getitem d DURATION_COL) ;;
    ev <- lift (getitem d EVENT_COL) ;;
    km <- lift (km_fit L (series_mask mask dur) (series_mask mask ev)) ;;
    on_ax_groups (ax_plot (var ++ "=" ++ py_str L val, km)).

(** Lines 301-337; [false] when the callback returns at line 313. *)
Definition step_groups : M bool :=
  on_ax_groups ax_clear ;;
  ov <- choose_group_var ;;
  match ov with
  | None => ret false
  | Some var =>
      d <- gets df ;;
      g <- lift (group_series d var) ;;
      modify (fun s => set_df (setitem (df s) GROUP_COL g) s) ;;
      d' <- gets df ;;
      g' <- lift (getitem d' GROUP_COL) ;;
      forM_ (sort_by cell_leb (uniq cell_eqb (series_cells g'))) (plot_group var) ;;
      on_ax_groups (ax_set_title ("Крива виживаності по групах (" ++ var ++ ")")) ;;
      modify_plots (fun p => set_canvas_groups (ax_groups p) p) ;;
      ret true
  end.

(** Lines 340-347. *)
Definition step_risk (row : DataFrame) : M unit :=
  c <- gets cph ;;
  risk_score <- lift (predict_partial_hazard c row) ;;
  modify_widgets (set_risk_label (risk_text (risk_bucket risk_score))).

(** [float(row[c])] and [float(row[c].values[0])] on the one-row frame. *)
Definition row_float (row : DataFrame) (c : string) : result Q :=
  (s <- getitem row c ;; v <- series_nth s 0 ;; py_float L v)%res.

(** Lines 351-357: the current load and its percentage. *)
Definition load_gauge (d row : DataFrame) : result (Q * Q) :=
  (curr_load <- row_float row LOAD_COL ;;
   col <- getitem d LOAD_COL ;;
   mn <- series_min col ;;
   min_load <- py_float L mn ;;
   mx <- series_max col ;;
   max_load <- py_float L mx ;;
   Ok (curr_load, load_pct curr_load min_load max_load))%res.

(** Lines 350-362. *)
Definition step_load (row : DataFrame) : M unit :=
  try_except
    (d <- gets df ;;
     cp <- lift (load_gauge d row) ;;
     modify_widgets (set_load_bar (snd cp)) ;;
     modify_widgets (set_load_val_label
       (py_format_f L 0 (fst cp) ++ " МВт  (" ++ py_format_f L 0 (snd cp) ++ "%)")))
    (modify_widgets (set_load_bar 0) ;;
     modify_widgets (set_load_val_label "— МВт")).

(** Lines 366-379: [info_parts]. *)
Definition card_parts (d row : DataFrame) (i : nat) : result (list string) :=
  (p0 <- (if has_col ID_COL d
          then (v <- iloc_cell d i ID_COL ;; Ok ["ID: " ++ py_str L v])
          else Ok []) ;;
   p1 <- (if has_col NAME_COL d
          then (v <- iloc_cell d i NAME_COL ;; Ok (list_insert 0 (py_str L v) p0))
          else Ok p0) ;;
   p2 <- (if has_col TYPE_COL d
          then (v <- iloc_cell d i TYPE_COL ;;
                Ok (list_insert 1 ("(" ++ py_str L v ++ ")") p1))
          else Ok p1) ;;
   p3 <- (if has_col LOAD_COL row
          then (x <- row_float row LOAD_COL ;;
                Ok (app p2 ["Навантаження: " ++ py_format_f L 0 x ++ " МВт"]))
          else Ok p2) ;;
   p4 <- (if has_col POWER_COL row
          then (x <- row_float row POWER_COL ;;
                Ok (app p3 ["Потужність: " ++ py_format_f L 0 x ++ " МВт"]))
          else Ok p3) ;;
   if has_col UTIL_COL row
   then (x <- row_float row UTIL_COL ;;
         Ok (app p4 ["Завантаженість: " ++ py_format_f L 2 x]))
   else Ok p4)%res.

(** Lines 365-382. *)
Definition step_card (i : nat) (row : DataFrame) : M unit :=
  try_except
    (d <- gets df ;;
     info_parts <- lift (card_parts d row i) ;;
     modify_widgets (set_record_summary_label
       (match info_parts with
        | [] => "Елемент: —"
        | _ :: _ => String.concat "  • " info_parts
        end)))
    (modify_widgets (set_record_summary_label "Елемент: —")).

Definition details_insert (t : string) : M unit :=
  modify_widgets (fun w => set_details_text (details_text w ++ t) w).

Fixpoint dict_get (k : string) (l : list (string * Cell)) : option Cell :=
  match l with
  | [] => None
  | (k', v) :: t => if String.eqb k k' then Some v else dict_get k t
  end.

(** Lines 385-397.  [infer_type_row] is local to [run_dashboard], never a
    module global, so the interpretation shown is always the placeholder. *)
Definition step_details (i : nat) : M unit :=
  try_except
    (modify_widgets (set_details_text EmptyString) ;;
     d <- gets df ;;
     full_row <- lift (iloc_to_dict d i) ;;
     details_insert ("Повні дані елемента:" ++ nl) ;;
     forM_ full_row
       (fun kv => details_insert ("  " ++ fst kv ++ ": " ++ py_str L (snd kv) ++ nl)) ;;
     when (negb (has_col TYPE_COL d) ||
           match dict_get TYPE_COL full_row with
           | Some v => py_blank L (py_str L v)
           | None => py_blank L "None"
           end)
       (details_insert (nl ++ "Інтерпретація типу: " ++ "Н/д" ++ nl)))
    (ret tt).

Definition report_insert (t : string) : M unit :=
  modify_widgets (fun w => set_report_text (report_text w ++ t) w).

Definition report_line (r : SummaryRow) : string :=
  let hr_val := sr_exp_coef r in
  let percent := (hr_val - 1) * 100 in
  let effect :=
    if Qltb (11 # 10) hr_val
    then "підвищує ризик приблизно на " ++ py_format_f L 1 percent ++ "%"
    else if Qltb hr_val (9 # 10)
    then "знижує ризик приблизно на " ++ py_format_f L 1 (Qabs percent) ++ "%"
    else "майже не впливає на ризик" in
  "• " ++ sr_feature r ++ ": " ++ effect ++ " (HR=" ++ py_format_f L 2 hr_val ++
  ", CI " ++ py_format_f L 2 (sr_lower95 r) ++ "–" ++ py_format_f L 2 (sr_upper95 r) ++
  ")" ++ nl.

(** Lines 400-424.  Rows are ordered by [|HR - 1|], largest first (rows of
    equal weight keep their order in the summary). *)
Definition step_report (idx : Z) (summary : list SummaryRow) : M unit :=
  modify_widgets (set_report_text EmptyString) ;;
  match summary with
  | _ :: _ =>
      report_insert ("📊 Звіт моніторингу завантаженості (модель Кокса)" ++ nl ++ nl) ;;
      let sorted_summary :=
        sort_by (fun a b => Qle_bool (Qabs (sr_exp_coef b - 1)) (Qabs (sr_exp_coef a - 1)))
                summary in
      forM_ sorted_summary (fun r => report_insert (report_line r)) ;;
      report_insert (nl ++ "Найбільший вплив має: " ++
                     match sorted_summary with
                     | r :: _ => sr_feature r
                     | [] => EmptyString
                     end ++ nl) ;;
      w <- gets widgets ;;
      report_insert ("Індивідуальний стан навантаження елемента #" ++ string_of_Z idx ++
                     ": " ++ fst (risk_label w) ++ nl)
  | [] => report_insert "⚠️ Немає коефіцієнтів для формування звіту"
  end.

(** Lines 244-424: the range check and the views for index [idx]. *)
Definition update_views (idx : Z) : M unit :=
  d <- gets df ;;
  if (idx <? 0)%Z || (Z.of_nat (nrows d) <=? idx)%Z
  then showerror "Помилка" ("Немає елемента мережі з індексом " ++ string_of_Z idx)
  else
    let i := Z.to_nat idx in
    row <- lift (r <- iloc_rows d i ;; select_cols r FEATURE_COLUMNS)%res ;;
    sync_id_var i ;;
    step_survival idx row ;;
    summary <- step_hazard_ratios ;;
    step_cumulative_hazard idx row ;;
    go_on <- step_groups ;;
    if go_on
    then
      step_risk row ;;
      step_load row ;;
      step_card i row ;;
      step_details i ;;
      step_report idx summary
    else ret tt.

(** [update_dashboard()], lines 236-424. *)
Definition update_dashboard : M unit :=
  idx <- read_index ;;
  update_views idx.

End Dashboard.

(* ================================================================== *)
(** ** The other callbacks and start-up *)
(* ================================================================== *)

Fixpoint positions_from (k : nat) (mask : list bool) : list nat :=
  match mask with
  | [] => []
  | b :: t => if b then k :: positions_from (S k) t else positions_from (S k) t
  end.

Definition window_title (source_label : string) : string :=
  "Система моніторингу завантаженості енергосистеми — " ++ source_label.
Definition heading (source_label : string) : string :=
  "Система моніторингу завантаженості енергосистеми (" ++ source_label ++ ")".

Section Callbacks.
Variable L : Library.
Local Open Scope dash_scope.

(** [on_id_change], lines 153-162. *)
Definition on_id_change : M unit :=
  try_except
    (sel <- gets id_var ;;
     d <- gets df ;;
     idxs <- (if has_col ID_COL d
              then (ids <- lift (getitem d ID_COL) ;;
                    ret (positions_from 0
                           (map (fun v => String.eqb (py_str L v) sel) (series_cells ids))))
              else ret []) ;;
     match idxs with
     | i :: _ => modify (set_obj_var (IntVal (Z.of_nat i)))
     | [] => ret tt
     end)
    (ret tt).

(** [toggle_details], lines 465-473. *)
Definition toggle_details : M unit :=
  shown <- gets show_details ;;
  if shown
  then
    modify_widgets (set_details_frame_packed false) ;;
    modify (set_show_details false) ;;
    modify_widgets (set_details_btn "Показати деталі")
  else
    modify_widgets (set_details_frame_packed true) ;;
    modify (set_show_details true) ;;
    modify_widgets (set_details_btn "Сховати деталі").

(** [str(i)] for the combobox of identifiers. *)
Definition id_list (d : DataFrame) : result (list string) :=
  if has_col ID_COL d
  then (ids <- getitem d ID_COL ;; Ok (map (py_str L) (series_cells ids)))%res
  else Ok (map (fun i => string_of_Z (Z.of_nat i)) (seq 0 (nrows d))).

(** [df["ід"].astype(str).apply(lambda x: f"Елемент-{x}")] *)
Definition default_names (d : DataFrame) : result Series :=
  (ids <- getitem d ID_COL ;;
   Ok (SStr (map (fun v => "Елемент-" ++ py_str L v) (series_cells ids))))%res.

(** Line 454: the lambda compares each cell with the thresholds; text
    does not compare with a number. *)
Definition types_by_power (d : DataFrame) : result Series :=
  (pw <- getitem d POWER_COL ;;
   ts <- rmap (fun v => match v with
                        | VStr _ => Raise (mkExc TypeError "'>' not supported between str and int")
                        | _ => (p <- py_float L v ;; Ok (infer_type_by_power p))
                        end) (series_cells pw) ;;
   Ok (SStr ts))%res.

(** [regenerate_data], lines 426-456; [g] is the generator the call to
    [generate_random_data] creates. *)
Definition regenerate_data (g : Rng) : M unit :=
  modify (set_df (generate_random_data g 150)) ;;
  d <- gets df ;;
  c <- lift (train_cox_model L d) ;;
  modify (set_cph c) ;;
  modify (set_obj_var (IntVal 0)) ;;
  modify (set_source_label "випадкові дані") ;;
  lbl <- gets source_label ;;
  modify_widgets (set_title (heading lbl)) ;;
  modify_widgets (set_root_title (window_title lbl)) ;;
  d <- gets df ;;
  modify (set_groupable_vars (filter (fun c => has_col c d) FEATURE_COLUMNS)) ;;
  gv <- gets groupable_vars ;;
  modify_widgets (set_group_menu_values gv) ;;
  match gv with
  | v0 :: _ => modify (set_group_var v0)
  | [] => ret tt
  end ;;
  try_except
    (new_ids <- lift (id_list d) ;;
     modify_widgets (set_id_menu_values new_ids) ;;
     match new_ids with
     | i0 :: _ => modify (set_id_var i0)
     | [] => ret tt
     end)
    (ret tt) ;;
  when (negb (has_col NAME_COL d))
    (d <- gets df ;;
     names <- lift (default_names d) ;;
     modify (set_df (setitem d NAME_COL names))) ;;
  d <- gets df ;;
  when (negb (has_col TYPE_COL d))
    (ts <- lift (types_by_power d) ;;
     modify (set_df (setitem d TYPE_COL ts))) ;;
  d <- gets df ;;
  modify_widgets (set_spin_to (Z.max 0 (Z.of_nat (nrows d) - 1))) ;;
  update_dashboard L.

(** Lines 65-67, the body of the [try]; [csv] is what [pd.read_csv]
    produced. *)
Definition run_dashboard_try (csv : result DataFrame) : result (DataFrame * CoxPHFitter) :=
(d <- csv ;;
 _ <- ensure_columns L d ([DURATION_COL; EVENT_COL] ++ FEATURE_COLUMNS)%list ;;
 c <- train_cox_model L d ;;
 Ok (d, c))%res.

(** Lines 74-77: the warning that reports why the file was not used. *)
Definition fallback_warning (e : PyExc) : Dialog :=
ShowWarning "⚠️ Дані — Система моніторингу"
  ("CSV не завантажено для Системи моніторингу завантаженості енергосистеми, використані випадкові дані."
   ++ nl ++ "Причина:" ++ nl ++ exc_str e).

(** Lines 64-77: the frame and model the session starts from, the label of
    their source and the warning shown, if any; [g] is the generator of the
    fallback. *)
Definition run_dashboard_load (csv : result DataFrame) (g : Rng)
  : result (DataFrame * CoxPHFitter * string * list Dialog) :=
match run_dashboard_try csv with
| Ok (d, c) => Ok (d, c, "cox_energy_dataset.csv", [])
| Raise e =>
    let d := generate_random_data g 120 in
    (c <- train_cox_model L d ;;
     Ok (d, c, "випадкові дані", [fallback_warning e]))%res
end.

(** [infer_type_row], lines 83-92. *)
Definition infer_type_row (r : list (string * Cell)) : string :=
  match (match dict_get POWER_COL r with
         | Some v => py_float L v
         | None => Ok 0
         end) with
  | Ok p => infer_type_by_power p
  | Raise _ => "Лінія"
  end.

(** Lines 79-93. *)
Definition run_dashboard_backfill (d : DataFrame) : result DataFrame :=
  (d1 <- (if has_col NAME_COL d then Ok d
          else (names <- default_names d ;; Ok (setitem d NAME_COL names))) ;;
   if has_col TYPE_COL d1 then Ok d1
   else (ts <- rmap (fun i => r <- iloc_to_dict d1 i ;; Ok (infer_type_row r))
                    (seq 0 (nrows d1)) ;;
         Ok (setitem d1 TYPE_COL (SStr ts))))%res.

(** The widgets as lines 95-234 and 459-480 create them. *)
Definition initial_session (d : DataFrame) (c : CoxPHFitter) (source_label : string)
    (warnings : list Dialog) (ids : list string) : Session :=
  let gv := filter (fun c => has_col c d) FEATURE_COLUMNS in
  mkSession d c source_label gv
    (IntVal 0)
    (match ids with i0 :: _ => i0 | [] => EmptyString end)
    (match gv with v0 :: _ => v0 | [] => "навантаження_мвт" end)
    false
    (mkWidgets (heading source_label) (window_title source_label)
       (Z.max 0 (Z.of_nat (nrows d) - 1)) ids gv
       (EmptyString, EmptyString) 0 "— МВт" "Елемент: —" EmptyString EmptyString
       "Показати деталі" false)
    (mkPlots empty_axes empty_axes empty_axes empty_axes
             empty_axes empty_axes empty_axes empty_axes)
    warnings.

(** [run_dashboard] up to the event loop: the session after the first
    [update_dashboard], or the exception that ends the process. *)
Definition run_dashboard (csv : result DataFrame) (g : Rng) : result Session :=
  (loaded <- run_dashboard_load csv g ;;
   let '(d, c, source_label, warnings) := loaded in
   d <- run_dashboard_backfill d ;;
   ids <- id_list d ;;
   match update_dashboard L (initial_session d c source_label warnings ids) with
   | (s, Ok _) => Ok s
   | (_, Raise e) => Raise e
   end)%res.

(** The callbacks bound to the buttons and the combobox. *)
Inductive Callback : Type :=
| CbUpdate
| CbRegenerate (g : Rng)
| CbIdChange
| CbToggleDetails.

Definition run_callback (cb : Callback) : M unit :=
  match cb with
  | CbUpdate => update_dashboard L
  | CbRegenerate g => regenerate_data g
  | CbIdChange => on_id_change
  | CbToggleDetails => toggle_details
  end.

End Callbacks.

(* ================================================================== *)
(** ** A concrete library and session, to run the model on *)
(* ================================================================== *)

Module Demo.

(** Stand-ins for the Python builtins. *)
Definition repr (s : string) : string := "'" ++ s ++ "'".

Definition pad_left (n : nat) (s : string) : string :=
  String.concat EmptyString (repeat "0" (n - String.length s)) ++ s.

(** Decimal rendering of [q] with [k] digits after the point, rounded down
    in absolute value after adding one half. *)
Definition format_f (k : nat) (q : Q) : string :=
  let scale := (10 ^ Z.of_nat k)%Z in
  let n := (Z.abs (Qnum q) * scale * 2 + Zpos (Qden q))%Z in
  let r := (n / (2 * Zpos (Qden q)))%Z in
  let sign := if (Qnum q <? 0)%Z && negb (r =? 0)%Z then "-" else EmptyString in
  let ip := string_of_Z (r / scale) in
  match k with
  | O => sign ++ ip
  | _ => sign ++ ip ++ "." ++ pad_left k (string_of_Z (r mod scale))
  end.

Definition str_float (q : Q) : string := format_f 1 q.

Fixpoint digits_value (s : string) (acc : Z) : option Z :=
  match s with
  | EmptyString => Some acc
  | String c t =>
      let n := nat_of_ascii c in
      if Nat.leb 48 n && Nat.leb n 57
      then digits_value t (acc * 10 + Z.of_nat (n - 48))
      else None
  end.

Definition int_str (s : string) : option Z :=
  match s with
  | EmptyString => None
  | String "-" (String c t) => option_map Z.opp (digits_value (String c t) 0)
  | _ => digits_value s 0
  end.

Definition float_str (s : string) : option Q := option_map inject_Z (int_str s).

Fixpoint blank (s : string) : bool :=
  match s with
  | EmptyString => true
  | String c t => Ascii.eqb c " " && blank t
  end.

(** A stand-in for [qcut]: rank each value among the sorted values and cut
    the ranks in [q] equal runs. *)
Definition rank (xs : list Q) (x : Q) : nat :=
  length (filter (fun y => Qltb y x) xs).

Definition qcut (s : Series) (q : nat) (labels : list string) : result (list string) :=
  let xs := series_floats s in
  Ok (map (fun x => nth ((rank xs x * q) / length xs) labels EmptyString) xs).

(** A stand-in for the Kaplan-Meier estimate: at each observed duration the
    share of records that last longer. *)
Definition km (durations events : Series) : result Curve :=
  let ds := series_floats durations in
  Ok ((0, 1) :: map (fun t => (t, inject_Z (Z.of_nat (length (filter (Qltb t) ds)))
                                  / inject_Z (Z.of_nat (length ds))))
                    (sort_by Qle_bool (uniq Qeq_bool ds))).

Definition cox_summary : list SummaryRow :=
  [ mkSummaryRow "навантаження_мвт" (13 # 10) (11 # 10) (15 # 10);
    mkSummaryRow "потужність_мвт" (95 # 100) (8 # 10) (11 # 10);
    mkSummaryRow "завантаженість" (2 # 1) (12 # 10) (3 # 1);
    mkSummaryRow "температура_с" (1 # 1) (9 # 10) (11 # 10);
    mkSummaryRow "вітер_м_с" (7 # 10) (5 # 10) (9 # 10);
    mkSummaryRow "свято" (105 # 100) (9 # 10) (12 # 10);
    mkSummaryRow "вік_років" (12 # 10) (1 # 1) (14 # 10) ].

(** A stand-in for a fitted model: the risk score is the load over 4000. *)
Definition cox_model : CoxPHFitter :=
  mkCox
    (fun _ => Ok [(0, 1); (10, 9 # 10); (50, 6 # 10); (100, 45 # 100); (150, 3 # 10)])
    (fun _ => Ok [(0, 0); (10, 1 # 10); (50, 5 # 10); (100, 8 # 10); (150, 12 # 10)])
    (fun row => match getitem row LOAD_COL with
                | Ok s => match series_floats s with
                          | x :: _ => Ok (x / 4000)
                          | [] => Ok 1
                          end
                | Raise _ => Ok 1
                end)
    cox_summary.

Definition lib : Library :=
  mkLibrary repr str_float format_f int_str float_str blank qcut
            (fun _ _ _ => Ok cox_model) km.

(** A table as [read_csv] would return it: three rows, no name or type
    column, the event given as True/False. *)
Definition csv_frame : DataFrame :=
  mkDF 3
    [ (ID_COL, SInt [1; 2; 3]%Z);
      (DURATION_COL, SInt [30; 80; 120]%Z);
      (EVENT_COL, SBool [true; false; true]);
      ("навантаження_мвт", SInt [3000; 4000; 5000]%Z);
      ("потужність_мвт", SInt [5000; 5500; 6500]%Z);
      ("завантаженість", SFloat [6 # 10; 7 # 10; 8 # 10]);
      ("температура_с", SInt [-5; 10; 25]%Z);
      ("вітер_м_с", SInt [3; 7; 12]%Z);
      ("свято", SInt [0; 1; 0]%Z);
      ("вік_років", SInt [5; 20; 40]%Z) ].

(** The frame after the back-filling of lines 79-93, and the session as
    the widgets are created, before the first [update_dashboard]. *)
Definition frame : DataFrame :=
  match run_dashboard_backfill lib csv_frame with
  | Ok d => d
  | Raise _ => csv_frame
  end.

Definition session : Session :=
  initial_session frame cox_model "cox_energy_dataset.csv" [] ["1"; "2"; "3"].

Definition rng : Rng :=
  mkRng (fun k lo hi i => (lo + (Z.of_nat (k + 7 * i)) mod (hi - lo))%Z)
        (fun k lo hi i => lo + (hi - lo) * (inject_Z (Z.of_nat ((3 * k + 5 * i) mod 11)) / 11)).

End Demo.

(* ================================================================== *)
(** ** Vocabulary of the statements *)
(* ================================================================== *)

(** [keeps proj m]: running [m] does not change the part [proj] of the
    session, whether [m] returns or raises. *)
Definition keeps {B A} (proj : Session -> B) (m : M A) : Prop :=
  forall s, proj (fst (m s)) = proj s.

(** A curve point whose probability is still above one half. *)
Definition above_half (x : Q * Q) : Prop := ~ snd x <= 1 # 2.

(** The dialog of line 245. *)
Definition index_error_dialog (idx : Z) : Dialog :=
  ShowError "Помилка" ("Немає елемента мережі з індексом " ++ string_of_Z idx).

(** The number a numeric cell stands for. *)
Definition cell_num (v : Cell) : Q :=
  match v with
  | VInt z => inject_Z z
  | VFloat q => q
  | VBool b => if b then 1 else 0
  | VStr _ => 0
  end.

(** Cells of one numeric dtype. *)
Definition same_numeric_kind (a b : Cell) : Prop :=
  match a, b with
  | VInt _, VInt _ | VFloat _, VFloat _ | VBool _, VBool _ => True
  | _, _ => False
  end.

(** The rows whose group value is [val] ([df["_group"] == val]). *)
Definition group_mask (g : Series) (val : Cell) : list bool :=
  map (fun x => cell_eqb x val) (series_cells g).

(** The group values the loop visits, in its order. *)
Definition group_labels (g : Series) : list Cell :=
  sort_by cell_leb (uniq cell_eqb (series_cells g)).

(** In the words of the specification: the Kaplan-Meier curve of one group,
    fitted on the durations and events of the records in it, and the curves
    of all groups of the chosen covariate. *)
Definition fit_group (L : Library) (d : DataFrame) (g : Series) (var : string) (val : Cell)
  : result (string * Curve) :=
  (dur <- getitem d DURATION_COL ;;
   ev <- getitem d EVENT_COL ;;
   km <- km_fit L (series_mask (group_mask g val) dur) (series_mask (group_mask g val) ev) ;;
   Ok (var ++ "=" ++ py_str L val, km))%res.

(** The group column and one labelled curve per group value. *)
Definition group_curves (L : Library) (d : DataFrame) (var : string)
  : result (Series * list (string * Curve)) :=
  (g <- group_series L d var ;;
   lines <- rmap (fit_group L d g var) (group_labels g) ;;
   Ok (g, lines))%res.

(** Several [plot] calls in a row. *)
Definition ax_plots (lines : list (string * Curve)) (a : Axes) : Axes :=
  fold_left (fun a l => ax_plot l a) lines a.

(** A text cell. *)
Definition is_str (v : Cell) : Prop := exists s, v = VStr s.

(** The columns of a frame other than [c], in order. *)
Definition drop_col (c : string) (l : list (string * Series)) : list (string * Series) :=
  filter (fun kv => negb (String.eqb c (fst kv))) l.

(** The dataset proper: its length and every column but the scratch one. *)
Definition dataset_of (s : Session) : nat * list (string * Series) :=
  (nrows (df s), drop_col GROUP_COL (cols (df s))).

(** What lines 386-395 write into the detail panel for the row [full_row]. *)
Definition details_render (L : Library) (d : DataFrame) (full_row : list (string * Cell))
  : string :=
  ("Повні дані елемента:" ++ nl) ++
  fold_right String.append EmptyString
    (map (fun kv => "  " ++ fst kv ++ ": " ++ py_str L (snd kv) ++ nl) full_row) ++
  (if negb (has_col TYPE_COL d) ||
      match dict_get TYPE_COL full_row with
      | Some v => py_blank L (py_str L v)
      | None => py_blank L "None"
      end
   then nl ++ "Інтерпретація типу: " ++ "Н/д" ++ nl
   else EmptyString).

(** The prediction calls of a fitted model return. *)
Definition model_returns (c : CoxPHFitter) : Prop :=
  (forall row, is_ok (predict_survival_function c row) = true) /\
  (forall row, is_ok (predict_cumulative_hazard c row) = true) /\
  (forall row, is_ok (predict_partial_hazard c row) = true).

(** [qcut], the Kaplan-Meier fit and the predictions of every fitted model
    return. *)
Definition library_returns (L : Library) : Prop :=
  (forall s q labels, is_ok (qcut_drop L s q labels) = true) /\
  (forall a b, is_ok (km_fit L a b) = true) /\
  (forall d a b c, cox_fit L d a b = Ok c -> model_returns c).

(** The session has what the callbacks take for granted: the columns the
    model was fitted on, and grouping variables that are columns. *)
Definition session_ready (s : Session) : Prop :=
  model_returns (cph s) /\
  (forall c, In c fit_columns -> has_col c (df s) = true) /\
  (forall v, In v (groupable_vars s) -> has_col v (df s) = true).

(** The demonstration library with a fitter that raises [e] on every
    table. *)
Definition lib_fit_raises (e : PyExc) : Library :=
  mkLibrary Demo.repr Demo.str_float Demo.format_f Demo.int_str Demo.float_str Demo.blank
            Demo.qcut (fun _ _ _ => Raise e) Demo.km.

(** [preserves P m]: a property of the session that holds before [m] holds
    after it, whether [m] returns or raises. *)
Definition preserves {A} (P : Session -> Prop) (m : M A) : Prop :=
  forall s, P s -> P (fst (m s)).

(** What every callback relies on and re-establishes: a session that is
    ready, names and types in the table, and grouping variables, offered and
    chosen, that are covariates. *)
Definition session_sound (s : Session) : Prop :=
  session_ready s /\
  has_col NAME_COL (df s) = true /\ has_col TYPE_COL (df s) = true /\
  incl (groupable_vars s) FEATURE_COLUMNS /\
  incl (group_menu_values (widgets s)) FEATURE_COLUMNS /\
  In (group_var s) FEATURE_COLUMNS.

(** What the user does between two redraws: press a button, type into the
    index control, or pick in one of the two menus.  Both menus are read-only
    comboboxes, so only a value they offer can be picked; picking an
    identifier fires [on_id_change]. *)
Inductive Event : Type :=
| Press (cb : Callback)
| TypeIndex (v : IntVar)
| PickId (sel : string)
| PickGroup (var : string).

Definition offered (v : string) (values : list string) : bool :=
  existsb (String.eqb v) values.

Definition run_event (L : Library) (ev : Event) : M unit :=
  match ev with
  | Press cb => run_callback L cb
  | TypeIndex v => modify (set_obj_var v)
  | PickId sel =>
      bind (gets widgets) (fun w =>
      when (offered sel (id_menu_values w))
           (bind (modify (set_id_var sel)) (fun _ => on_id_change L)))
  | PickGroup var =>
      bind (gets widgets) (fun w =>
      when (offered var (group_menu_values w)) (modify (set_group_var var)))
  end.

(** The session after a sequence of events; an exception that leaves a
    callback is reported by the toolkit and the loop goes on. *)
Definition run_events (L : Library) (evs : list Event) (s : Session) : Session :=
  fold_left (fun s ev => fst (run_event L ev s)) evs s.

(* ================================================================== *)
(** ** The quantile cut as pandas computes it *)
(* ================================================================== *)

Module Pandas.

(** [Series.quantile(p)] on the sorted values: linear interpolation between
    the two values around position [(n - 1) * p]. *)
Definition quantile (sorted : list Q) (p : Q) : Q :=
  let h := inject_Z (Z.of_nat (length sorted - 1)) * p in
  let i := Z.to_nat (Qfloor h) in
  let lo := nth i sorted 0 in
  let hi := nth (S i) sorted lo in
  lo + (h - inject_Z (Qfloor h)) * (hi - lo).

(** The [q + 1] bin edges [quantile(0), quantile(1/q), ..., quantile(1)]. *)
Definition edges (xs : list Q) (q : nat) : list Q :=
  map (fun k => quantile (sort_by Qle_bool xs)
                         (inject_Z (Z.of_nat k) / inject_Z (Z.of_nat q)))
      (seq 0 (S q)).

(** [duplicates="drop"]: repeated edges are removed (two edges are left as
    they are). *)
Definition drop_duplicates (bins : list Q) : list Q :=
  if Nat.ltb (length (uniq Qeq_bool bins)) (length bins) && negb (Nat.eqb (length bins) 2)
  then uniq Qeq_bool bins
  else bins.

(** The bin of [x], counted from 1: bins are closed on the right and the
    lowest edge belongs to the first one. *)
Definition bucket (bins : list Q) (x : Q) : nat :=
  match bins with
  | b0 :: _ =>
      if Qeq_bool x b0 then 1%nat else length (filter (fun b => Qltb b x) bins)
  | [] => 0%nat
  end.

(** [pd.qcut(s, q=q, labels=labels, duplicates="drop")] on a column without
    missing values: the labels are checked against the edges that are left
    once the repeated ones are dropped, and the check raises. *)
Definition qcut (s : Series) (q : nat) (labels : list string) : result (list string) :=
  let xs := map cell_num (series_cells s) in
  let bins := drop_duplicates (edges xs q) in
  if Nat.eqb (length labels) (length bins - 1)
  then Ok (map (fun x => nth (bucket bins x - 1) labels EmptyString) xs)
  else Raise (mkExc ValueError
                "Bin labels must be one fewer than the number of bin edges").

(** The demonstration library with this [qcut]. *)
Definition lib : Library :=
  mkLibrary Demo.repr Demo.str_float Demo.format_f Demo.int_str Demo.float_str Demo.blank
            qcut (fun _ _ _ => Ok Demo.cox_model) Demo.km.

(** A table as [read_csv] would return it, with every required column: ten
    elements, seven of which carry the same load, so that the load's
    quantiles at 0, 1/3 and 2/3 coincide. *)
Definition crowded_csv : DataFrame :=
  mkDF 10
    [ (ID_COL, SInt [1; 2; 3; 4; 5; 6; 7; 8; 9; 10]%Z);
      (DURATION_COL, SInt [30; 45; 60; 80; 95; 110; 120; 135; 150; 170]%Z);
      (EVENT_COL, SInt [1; 0; 1; 1; 0; 1; 0; 1; 1; 0]%Z);
      ("навантаження_мвт",
         SInt [3000; 3000; 3000; 3000; 3000; 3000; 3000; 4000; 5000; 6000]%Z);
      ("потужність_мвт",
         SInt [5000; 5200; 5400; 5600; 5800; 6000; 6200; 6400; 6600; 6800]%Z);
      ("завантаженість",
         SFloat [60 # 100; 58 # 100; 56 # 100; 54 # 100; 52 # 100;
                 50 # 100; 48 # 100; 62 # 100; 76 # 100; 88 # 100]);
      ("температура_с", SInt [-5; 0; 5; 10; 15; 20; 25; 30; -10; 12]%Z);
      ("вітер_м_с", SInt [3; 7; 12; 5; 9; 1; 14; 6; 8; 10]%Z);
      ("свято", SInt [0; 1; 0; 0; 1; 0; 0; 0; 1; 0]%Z);
      ("вік_років", SInt [5; 12; 20; 27; 33; 38; 41; 44; 47; 49]%Z) ].

(** That table after the back-filling of lines 79-93, and the session the
    widgets start in. *)
Definition crowded_frame : DataFrame :=
  match run_dashboard_backfill lib crowded_csv with
  | Ok d => d
  | Raise _ => crowded_csv
  end.

Definition crowded_session : Session :=
  initial_session crowded_frame Demo.cox_model "cox_energy_dataset.csv" []
    ["1"; "2"; "3"; "4"; "5"; "6"; "7"; "8"; "9"; "10"].

End Pandas.


(* ================================================================== *)
(** * Properties *)
(* ================================================================== *)

(** ** Comparisons on rationals *)

Lemma Qltb_lt (x y : Q) : Qltb x y = true <-> x < y.
Proof.
  unfold Qltb. rewrite negb_true_iff, <- not_true_iff_false, Qle_bool_iff.
  split; [apply Qnot_le_lt | apply Qlt_not_le].
Qed.

Lemma Qltb_ge (x y : Q) : Qltb x y = false <-> y <= x.
Proof.
  unfold Qltb. rewrite negb_false_iff. apply Qle_bool_iff.
Qed.

Lemma Qle_bool_false (x y : Q) : Qle_bool x y = false <-> y < x.
Proof.
  rewrite <- not_true_iff_false, Qle_bool_iff.
  split; [apply Qnot_le_lt | apply Qlt_not_le].
Qed.

(** ** Risk bucket *)

(** C5. The bucket depends on the partial hazard alone, through the two
    fixed thresholds: Low exactly below 0.8, High exactly from 1.2 on,
    Moderate exactly in between; equal scores get equal buckets, and the four
    boundary samples fall as listed. *)
Theorem risk_bucket_thresholds (x : Q) :
  (risk_bucket x = Low <-> x < 8 # 10) /\
  (risk_bucket x = High <-> 12 # 10 <= x) /\
  (risk_bucket x = Moderate <-> 8 # 10 <= x /\ x < 12 # 10) /\
  (forall y, x == y -> risk_bucket y = risk_bucket x) /\
  risk_bucket (79 # 100) = Low /\
  risk_bucket (8 # 10) = Moderate /\
  risk_bucket (119 # 100) = Moderate /\
  risk_bucket (12 # 10) = High.
Proof.
  assert (Hlow : forall z, risk_bucket z = Low <-> z < 8 # 10).
  { intro z. unfold risk_bucket.
    destruct (Qltb z (8 # 10)) eqn:E1.
    - apply Qltb_lt in E1. tauto.
    - apply Qltb_ge in E1. destruct (Qltb z (12 # 10)); split; try discriminate;
        intro H; exfalso; apply (Qlt_irrefl z); eapply Qlt_le_trans; eauto. }
  assert (Hhigh : forall z, risk_bucket z = High <-> 12 # 10 <= z).
  { intro z. unfold risk_bucket.
    destruct (Qltb z (8 # 10)) eqn:E1.
    - apply Qltb_lt in E1. split; [discriminate|]. intro H. exfalso.
      apply (Qlt_irrefl z). eapply Qlt_le_trans; [exact E1|].
      eapply Qle_trans; [|exact H]. discriminate.
    - destruct (Qltb z (12 # 10)) eqn:E2.
      + apply Qltb_lt in E2. split; [discriminate|]. intro H. exfalso.
        apply (Qlt_irrefl z). eapply Qlt_le_trans; eauto.
      + apply Qltb_ge in E2. tauto. }
  assert (Hmod : forall z, risk_bucket z = Moderate <-> 8 # 10 <= z /\ z < 12 # 10).
  { intro z. unfold risk_bucket.
    destruct (Qltb z (8 # 10)) eqn:E1.
    - apply Qltb_lt in E1. split; [discriminate|]. intros [H _]. exfalso.
      apply (Qlt_irrefl z). eapply Qlt_le_trans; eauto.
    - apply Qltb_ge in E1. destruct (Qltb z (12 # 10)) eqn:E2.
      + apply Qltb_lt in E2. tauto.
      + apply Qltb_ge in E2. split; [discriminate|]. intros [_ H]. exfalso.
        apply (Qlt_irrefl z). eapply Qlt_le_trans; eauto. }
  split; [apply Hlow|]. split; [apply Hhigh|]. split; [apply Hmod|].
  split; [|repeat split].
  intros y Hxy.
  destruct (risk_bucket x) eqn:Ex.
  - apply Hlow. rewrite <- Hxy. now apply Hlow.
  - apply Hmod. rewrite <- Hxy. now apply Hmod.
  - apply Hhigh. rewrite <- Hxy. now apply Hhigh.
Qed.

(** ** Median survival time *)

Lemma median_survival_time_cons (t p : Q) (c : Curve) :
  median_survival_time ((t, p) :: c) =
  if Qle_bool p (1 # 2) then Some t else median_survival_time c.
Proof.
  unfold median_survival_time. cbn [map fst snd existsb argmax].
  destruct (Qle_bool p (1 # 2)); cbn [orb]; [reflexivity|].
  destruct (existsb _ _); reflexivity.
Qed.

Lemma median_none (c : Curve) :
  median_survival_time c = None <-> Forall above_half c.
Proof.
  induction c as [|[t p] c IH].
  - split; [constructor | reflexivity].
  - rewrite median_survival_time_cons.
    destruct (Qle_bool p (1 # 2)) eqn:E.
    + split; [discriminate|]. intro H. inversion H as [|? ? Hp _]; subst.
      apply Qle_bool_iff in E. contradiction.
    + rewrite IH. split.
      * intro H. constructor; [|exact H].
        unfold above_half; cbn. apply Qlt_not_le. now apply Qle_bool_false.
      * intro H. now inversion H.
Qed.

Lemma median_some (c : Curve) (t : Q) :
  median_survival_time c = Some t <->
  exists pre p post, c = (pre ++ (t, p) :: post)%list /\ p <= 1 # 2 /\ Forall above_half pre.
Proof.
  revert t. induction c as [|[t0 p0] c IH]; intro t.
  - split; [discriminate|]. intros (pre & p & post & H & _). now destruct pre.
  - rewrite median_survival_time_cons.
    destruct (Qle_bool p0 (1 # 2)) eqn:E.
    + split.
      * intro H. injection H as <-. exists [], p0, c.
        repeat split; [now apply Qle_bool_iff | constructor].
      * intros (pre & p & post & H & Hp & Hpre).
        destruct pre as [|x pre]; cbn in H.
        -- now injection H as -> _ _.
        -- injection H as <- _. inversion Hpre as [|? ? Hx _]; subst.
           apply Qle_bool_iff in E. contradiction.
    + rewrite IH. split.
      * intros (pre & p & post & -> & Hp & Hpre).
        exists ((t0, p0) :: pre), p, post. repeat split; [exact Hp|].
        constructor; [|exact Hpre].
        unfold above_half; cbn. apply Qlt_not_le. now apply Qle_bool_false.
      * intros (pre & p & post & H & Hp & Hpre).
        destruct pre as [|x pre]; cbn in H.
        -- injection H as -> -> _. apply Qle_bool_iff in Hp. congruence.
        -- injection H as _ ->. exists pre, p, post.
           repeat split; [exact Hp | now inversion Hpre].
Qed.

(** C4. On a curve given in increasing time order, the median survival time
    is the time of the first point whose probability is at most 0.5, hence
    the least such time; it is [None] exactly when no point is that low; and
    computing it again on the same curve gives the same answer. *)
Theorem median_survival_time_first_crossing (curve : Curve)
    (Hsorted : StronglySorted Qle (map fst curve)) :
  (forall t, median_survival_time curve = Some t <->
     exists pre p post, curve = (pre ++ (t, p) :: post)%list /\ p <= 1 # 2 /\
                        Forall above_half pre) /\
  (median_survival_time curve = None <-> Forall above_half curve) /\
  (forall t, median_survival_time curve = Some t ->
     forall t' p', In (t', p') curve -> p' <= 1 # 2 -> t <= t') /\
  (forall curve', curve' = curve ->
     median_survival_time curve' = median_survival_time curve).
Proof.
  split; [intro t; apply median_some|].
  split; [apply median_none|].
  split; [|intros ? ->; reflexivity].
  intros t Ht t' p' Hin Hp'.
  apply median_some in Ht. destruct Ht as (pre & p & post & -> & Hp & Hpre).
  apply in_app_or in Hin. destruct Hin as [Hin|Hin].
  - exfalso. rewrite Forall_forall in Hpre. apply (Hpre _ Hin). exact Hp'.
  - rewrite map_app in Hsorted. cbn in Hsorted.
    assert (Hs : StronglySorted Qle (t :: map fst post)).
    { clear -Hsorted. induction (map fst pre) as [|a l IH]; cbn in Hsorted.
      - exact Hsorted.
      - apply IH. now inversion Hsorted. }
    destruct Hin as [Heq|Hin].
    + injection Heq as -> _. apply Qle_refl.
    + inversion Hs as [|? ? _ Hall]; subst.
      rewrite Forall_forall in Hall. apply Hall.
      change t' with (fst (t', p')). now apply in_map.
Qed.

Lemma median_survival_time_first_crossing_witness :
  median_survival_time [(0, 1); (10, 9 # 10); (50, 1 # 2); (100, 45 # 100)] = Some 50 /\
  (forall t' p', In (t', p') [(0, 1); (10, 9 # 10); (50, 1 # 2); (100, 45 # 100)] ->
                 p' <= 1 # 2 -> 50 <= t').
Proof.
  assert (Hs : StronglySorted Qle
                 (map fst [(0, 1); (10, 9 # 10); (50, 1 # 2); (100, 45 # 100)])).
  { cbn. repeat (constructor; try discriminate). }
  split; [reflexivity|].
  apply (proj1 (proj2 (proj2
           (median_survival_time_first_crossing
              [(0, 1); (10, 9 # 10); (50, 1 # 2); (100, 45 # 100)] Hs)))).
  reflexivity.
Defined.

(** ** Frames: lookup, store and selection *)

Lemma has_col_In (c : string) (df : DataFrame) :
  has_col c df = true <-> In c (columns df).
Proof.
  unfold has_col. rewrite existsb_exists. split.
  - intros (k & Hk & E). apply String.eqb_eq in E. now subst.
  - intro H. exists c. split; [exact H | apply String.eqb_refl].
Qed.

Lemma has_col_false (c : string) (df : DataFrame) :
  has_col c df = false <-> ~ In c (columns df).
Proof.
  rewrite <- has_col_In. destruct (has_col c df); split; congruence.
Qed.

Lemma lookup_col_Some_In (c : string) (l : list (string * Series)) :
  In c (map fst l) <-> exists s, lookup_col c l = Some s.
Proof.
  induction l as [|[k s0] l IH]; cbn.
  - split; [tauto | intros [s H]; discriminate].
  - destruct (String.eqb c k) eqn:E.
    + apply String.eqb_eq in E. subst. split; eauto.
    + apply String.eqb_neq in E. rewrite <- IH. split; [|tauto].
      intros [H|H]; [congruence | exact H].
Qed.

Lemma lookup_store_same (c : string) (s : Series) (l : list (string * Series)) :
  lookup_col c (store_col c s l) = Some s.
Proof.
  induction l as [|[k s0] l IH]; cbn.
  - now rewrite String.eqb_refl.
  - destruct (String.eqb c k) eqn:E; cbn; rewrite E; [reflexivity | exact IH].
Qed.

Lemma lookup_store_other (c c' : string) (s : Series) (l : list (string * Series)) :
  c <> c' -> lookup_col c' (store_col c s l) = lookup_col c' l.
Proof.
  intro Hne. induction l as [|[k s0] l IH]; cbn.
  - apply String.eqb_neq in Hne. rewrite String.eqb_sym in Hne. now rewrite Hne.
  - destruct (String.eqb c k) eqn:E; cbn.
    + apply String.eqb_eq in E. subst k.
      destruct (String.eqb c' c) eqn:E'; [|reflexivity].
      apply String.eqb_eq in E'. congruence.
    + now rewrite IH.
Qed.

Lemma getitem_setitem_same (df : DataFrame) (c : string) (s : Series) :
  getitem (setitem df c s) c = Ok s.
Proof. unfold getitem, setitem; cbn. now rewrite lookup_store_same. Qed.

Lemma getitem_setitem_other (df : DataFrame) (c c' : string) (s : Series) :
  c <> c' -> getitem (setitem df c s) c' = getitem df c'.
Proof. intro H. unfold getitem, setitem; cbn. now rewrite lookup_store_other. Qed.

Lemma columns_store_col (c : string) (s : Series) (l : list (string * Series)) :
  map fst (store_col c s l) =
  if existsb (String.eqb c) (map fst l) then map fst l else (map fst l ++ [c])%list.
Proof.
  induction l as [|[k s0] l IH]; cbn; [reflexivity|].
  destruct (String.eqb c k) eqn:E; cbn; [reflexivity|].
  rewrite IH. now destruct (existsb _ _).
Qed.

Lemma has_col_setitem_same (df : DataFrame) (c : string) (s : Series) :
  has_col c (setitem df c s) = true.
Proof.
  apply has_col_In. unfold columns, setitem; cbn.
  apply lookup_col_Some_In. exists s. apply lookup_store_same.
Qed.

Lemma select_cols_spec (df x : DataFrame) (cs : list string) :
  select_cols df cs = Ok x ->
  columns x = cs /\ nrows x = nrows df /\
  forall c, In c cs -> lookup_col c (cols x) = lookup_col c (cols df).
Proof.
  unfold select_cols.
  destruct (rmap _ cs) as [l|e] eqn:E; cbn; [|discriminate].
  intro H. injection H as <-. unfold columns; cbn.
  revert l E. induction cs as [|c cs IH]; cbn; intros l E.
  - injection E as <-. repeat split. intros c [].
  - unfold getitem in E at 1.
    destruct (lookup_col c (cols df)) as [s|] eqn:Ec; cbn in E; [|discriminate].
    destruct (rmap _ cs) as [l'|e'] eqn:E'; cbn in E; [|discriminate].
    injection E as <-. destruct (IH l' eq_refl) as (H1 & H2 & H3).
    cbn. rewrite H1. repeat split.
    intros c0 Hin. destruct (String.eqb c0 c) eqn:E0.
    + apply String.eqb_eq in E0. now subst.
    + apply H3. destruct Hin as [->|Hin]; [|exact Hin].
      now rewrite String.eqb_refl in E0.
Qed.

Lemma getitem_select_cols (df x : DataFrame) (cs : list string) (c : string) :
  select_cols df cs = Ok x -> In c cs -> getitem x c = getitem df c.
Proof.
  intros H Hin. unfold getitem.
  now rewrite (proj2 (proj2 (select_cols_spec _ _ _ H)) c Hin).
Qed.

(** ** Column check *)

Lemma missing_columns_In (df : DataFrame) (required : list string) (c : string) :
  In c (missing_columns df required) <-> In c required /\ ~ In c (columns df).
Proof.
  unfold missing_columns. rewrite filter_In, negb_true_iff, has_col_false. tauto.
Qed.

(** C9. [ensure_columns] raises exactly when some required column is not
    among the frame's columns.  The error is a [ValueError] whose text is
    the heading of the missing columns, the list of the required columns
    that are absent (each of them once per mention in the required list, in
    that order, and no other name), a line break, the heading of the
    present columns and the list of all the columns of the frame in their
    order; both lists are written as Python writes a list of strings.  With
    every required column present it returns normally and, returning
    nothing, hands back no altered frame.  At start-up the check runs on the
    loaded table with the duration, the event and the seven covariates as the
    required columns.  The last part shows the text for a table that lacks
    two of them. *)
Theorem ensure_columns_schema_error (L : Library) (df : DataFrame) (required : list string) :
  (ensure_columns L df required = Ok tt <->
     forall c, In c required -> In c (map fst (cols df))) /\
  ((exists e, ensure_columns L df required = Raise e) <->
     exists c, In c required /\ ~ In c (map fst (cols df))) /\
  (forall e, ensure_columns L df required = Raise e ->
     exists missing,
       missing = filter (fun c => negb (existsb (String.eqb c) (map fst (cols df))))
                        required /\
       (forall c, In c missing <-> In c required /\ ~ In c (map fst (cols df))) /\
       exc_type e = ValueError /\
       exc_str e =
         "У CSV відсутні колонки: " ++
         ("[" ++ String.concat ", " (map (py_repr L) missing) ++ "]") ++
         String (ascii_of_nat 10)
           ("Є колонки: " ++
            ("[" ++ String.concat ", " (map (py_repr L) (map fst (cols df))) ++ "]"))) /\
  (forall d, run_dashboard_try L (Ok d) =
     (_ <- ensure_columns L d
             ["тривалість"; "подія"; "навантаження_мвт"; "потужність_мвт";
              "завантаженість"; "температура_с"; "вітер_м_с"; "свято"; "вік_років"] ;;
      c <- train_cox_model L d ;;
      Ok (d, c))%res) /\
  ensure_columns Demo.lib
    (mkDF 2 [ ("ід", SInt [1; 2]%Z); ("тривалість", SInt [30; 80]%Z);
              ("навантаження_мвт", SInt [3000; 4000]%Z) ])
    ["тривалість"; "подія"; "навантаження_мвт"; "свято"]
  = Raise (mkExc ValueError
             ("У CSV відсутні колонки: ['подія', 'свято']" ++
              String (ascii_of_nat 10)
                "Є колонки: ['ід', 'тривалість', 'навантаження_мвт']")).
Proof.
  assert (Hmiss : forall c, In c (missing_columns df required) <->
                            In c required /\ ~ In c (map fst (cols df)))
    by (intro c; apply missing_columns_In).
  split; [|split; [|split; [|split]]].
  - unfold ensure_columns.
    destruct (missing_columns df required) as [|m ms] eqn:E.
    + split; [|reflexivity]. intros _ c Hc.
      destruct (has_col c df) eqn:Hh; [now apply has_col_In|].
      exfalso. apply (proj2 (Hmiss c)). split; [exact Hc | now apply has_col_false].
    + split; [discriminate|]. intro H. exfalso.
      destruct (proj1 (Hmiss m) (or_introl eq_refl)) as [H1 H2]. auto.
  - unfold ensure_columns.
    destruct (missing_columns df required) as [|m ms] eqn:E.
    + split; [intros [e H]; discriminate|].
      intros (c & Hc & Hn). destruct (proj2 (Hmiss c) (conj Hc Hn)).
    + split; [|intros _; eexists; reflexivity].
      intros _. exists m. apply Hmiss. now left.
  - intros e He. exists (missing_columns df required).
    split; [reflexivity|]. split; [exact Hmiss|].
    unfold ensure_columns in He.
    destruct (missing_columns df required) as [|m ms]; [discriminate|].
    injection He as <-. cbn [exc_type exc_str]. split; [reflexivity|].
    reflexivity.
  - reflexivity.
  - reflexivity.
Qed.

(** ** Model fitting *)

Lemma dtype_is_object_SStr (ev : Series) :
  dtype_is_object ev = true <-> exists xs, ev = SStr xs.
Proof.
  destruct ev; cbn; split; try discriminate; eauto; intros [? H]; discriminate.
Qed.

Lemma EVENT_COL_in_fit_columns : In EVENT_COL fit_columns.
Proof. cbn. auto. Qed.

(** C8, as the code has it. The event column is rewritten only when its dtype
    is [object]: then every cell goes through [int()], and the call raises if
    one of them has no integer reading; an event column of any other dtype,
    [bool] included, reaches the fitter as it is; whether the integers are 0
    or 1 is not checked.  The fitter receives exactly the duration, the event
    and the seven covariate columns. *)
Theorem train_cox_model_event_coercion (L : Library) (df : DataFrame) (ev : Series)
    (Hev : getitem df EVENT_COL = Ok ev) :
  train_cox_model L df = (x <- fit_frame L df ;; cox_fit L x DURATION_COL EVENT_COL)%res /\
  (dtype_is_object ev = false -> fit_frame L df = select_cols df fit_columns) /\
  (dtype_is_object ev = true ->
     forall zs, rmap (py_int L) (series_cells ev) = Ok zs ->
       fit_frame L df = select_cols (setitem df EVENT_COL (SInt zs)) fit_columns) /\
  (dtype_is_object ev = true ->
     forall e, rmap (py_int L) (series_cells ev) = Raise e ->
       train_cox_model L df = Raise e) /\
  (forall x, fit_frame L df = Ok x ->
     columns x = fit_columns /\
     (dtype_is_object ev = false -> getitem x EVENT_COL = Ok ev) /\
     (dtype_is_object ev = true ->
        exists zs, rmap (py_int L) (series_cells ev) = Ok zs /\
                   getitem x EVENT_COL = Ok (SInt zs))).
Proof.
  split; [reflexivity|].
  unfold train_cox_model, fit_frame, coerce_event. rewrite Hev. cbn [rbind].
  destruct (dtype_is_object ev) eqn:Eo.
  - split; [discriminate|]. unfold astype_int.
    destruct (rmap (py_int L) (series_cells ev)) as [zs|e] eqn:Ez; cbn [rbind].
    + split; [intros _ zs' H; now injection H as <-|].
      split; [intros _ e H; discriminate|].
      intros x Hx. split; [apply (select_cols_spec _ _ _ Hx)|].
      split; [discriminate|]. intros _. exists zs. split; [reflexivity|].
      rewrite (getitem_select_cols _ _ _ _ Hx EVENT_COL_in_fit_columns).
      apply getitem_setitem_same.
    + split; [intros _ zs' H; discriminate|].
      split; [intros _ e' H; now injection H as <-|].
      intros x Hx. discriminate.
  - split; [reflexivity|]. split; [discriminate|]. split; [discriminate|].
    intros x Hx. split; [apply (select_cols_spec _ _ _ Hx)|].
    split; [|discriminate]. intros _.
    now rewrite (getitem_select_cols _ _ _ _ Hx EVENT_COL_in_fit_columns).
Qed.

Lemma train_cox_model_event_coercion_witness :
  getitem Demo.csv_frame EVENT_COL = Ok (SBool [true; false; true]) /\
  fit_frame Demo.lib Demo.csv_frame = select_cols Demo.csv_frame fit_columns.
Proof.
  split; [reflexivity|].
  apply (proj1 (proj2 (train_cox_model_event_coercion Demo.lib Demo.csv_frame
                         (SBool [true; false; true]) eq_refl))).
  reflexivity.
Defined.

(** C8, as stated, fails on a table whose event column is boolean: the frame
    handed to the fitter still carries the booleans, not a 0/1 integer
    column. *)
Lemma train_cox_model_keeps_bool_event :
  (x <- fit_frame Demo.lib Demo.csv_frame ;; getitem x EVENT_COL)%res
    = Ok (SBool [true; false; true]) /\
  ~ (forall df ev x,
       getitem df EVENT_COL = Ok ev ->
       (dtype_is_object ev = true \/ exists bs, ev = SBool bs) ->
       fit_frame Demo.lib df = Ok x ->
       exists zs, getitem x EVENT_COL = Ok (SInt zs) /\
                  Forall (fun z => z = 0 \/ z = 1)%Z zs).
Proof.
  split; [reflexivity|].
  intro H.
  destruct (fit_frame Demo.lib Demo.csv_frame) as [x|e] eqn:E; [|discriminate E].
  destruct (H Demo.csv_frame (SBool [true; false; true]) x eq_refl
              (or_intror (ex_intro _ _ eq_refl)) E) as (zs & Hz & _).
  vm_compute in E. injection E as <-. discriminate Hz.
Qed.

(** ** What a callback leaves untouched *)

Section Keeps.
Context {B : Type} (proj : Session -> B).

Lemma keeps_ret {A} (a : A) : keeps proj (ret a).
Proof. intro s. reflexivity. Qed.

Lemma keeps_throw {A} (e : PyExc) : keeps proj (@throw A e).
Proof. intro s. reflexivity. Qed.

Lemma keeps_lift {A} (r : result A) : keeps proj (lift r).
Proof. intro s. reflexivity. Qed.

Lemma keeps_gets {A} (f : Session -> A) : keeps proj (gets f).
Proof. intro s. reflexivity. Qed.

Lemma keeps_modify (f : Session -> Session) :
  (forall s, proj (f s) = proj s) -> keeps proj (modify f).
Proof. intros H s. apply H. Qed.

Lemma keeps_bind {A C} (m : M A) (k : A -> M C) :
  keeps proj m -> (forall a, keeps proj (k a)) -> keeps proj (bind m k).
Proof.
  intros Hm Hk s. unfold bind. specialize (Hm s).
  destruct (m s) as [s1 [a|e]]; cbn in *.
  - now rewrite Hk.
  - exact Hm.
Qed.

Lemma keeps_try_except {A} (m h : M A) :
  keeps proj m -> keeps proj h -> keeps proj (try_except m h).
Proof.
  intros Hm Hh s. unfold try_except. specialize (Hm s).
  destruct (m s) as [s1 [a|e]]; cbn in *.
  - exact Hm.
  - now rewrite Hh.
Qed.

Lemma keeps_when (b : bool) (m : M unit) : keeps proj m -> keeps proj (when b m).
Proof. intro H. destruct b; [exact H | apply keeps_ret]. Qed.

Lemma keeps_forM {A} (l : list A) (f : A -> M unit) :
  (forall x, keeps proj (f x)) -> keeps proj (forM_ l f).
Proof.
  intro H. induction l as [|x l IH]; cbn.
  - apply keeps_ret.
  - apply keeps_bind; [apply H | intros _; exact IH].
Qed.

Lemma keeps_modify_widgets (f : Widgets -> Widgets) :
  (forall s w, proj (set_widgets w s) = proj s) -> keeps proj (modify_widgets f).
Proof. intros H s. apply H. Qed.

Lemma keeps_modify_plots (f : Plots -> Plots) :
  (forall s p, proj (set_plots p s) = proj s) -> keeps proj (modify_plots f).
Proof. intros H s. apply H. Qed.

End Keeps.

(** Peels a callback apart along its binds, handlers, loops and branches;
    what remains are the writes to the session. *)
Ltac keeps_step :=
  first
    [ apply keeps_ret | apply keeps_throw | apply keeps_lift | apply keeps_gets
    | apply keeps_bind; [|intro]
    | apply keeps_try_except
    | apply keeps_when
    | apply keeps_forM; intro
    | apply keeps_modify_widgets; intros; reflexivity
    | apply keeps_modify_plots; intros; reflexivity
    | apply keeps_modify; intros; reflexivity
    | match goal with
      | |- keeps _ (match ?x with _ => _ end) => destruct x
      | |- keeps _ (if ?x then _ else _) => destruct x
      | |- keeps _ (let _ := _ in _) => cbv zeta
      end ].

Ltac keeps_tac := repeat keeps_step.

Ltac unfold_steps :=
  unfold update_views, sync_id_var, step_survival, step_hazard_ratios,
    step_cumulative_hazard, step_groups, choose_group_var, plot_group, step_risk,
    step_load, step_card, step_details, step_report, details_insert, report_insert,
    on_ax_surv, on_ax_hr, on_ax_ch, on_ax_groups, showerror.

Section UpdateFrames.
Variable L : Library.

Lemma read_index_IntVal (s : Session) (z : Z) :
  obj_var s = IntVal z -> read_index s = (s, Ok z).
Proof.
  intro H. unfold read_index, try_except, bind, gets. cbn. now rewrite H.
Qed.

Lemma read_index_IntText (s : Session) (t : string) :
  obj_var s = IntText t -> read_index s = (set_obj_var (IntVal 0) s, Ok 0%Z).
Proof.
  intro H. unfold read_index, try_except, bind, gets. cbn. now rewrite H.
Qed.

Lemma update_views_keeps_obj_var (idx : Z) : keeps obj_var (update_views L idx).
Proof. unfold_steps. keeps_tac. Qed.

Lemma update_views_keeps_cph (idx : Z) : keeps cph (update_views L idx).
Proof. unfold_steps. keeps_tac. Qed.

Lemma update_views_keeps_groupable_vars (idx : Z) :
  keeps groupable_vars (update_views L idx).
Proof. unfold_steps. keeps_tac. Qed.

End UpdateFrames.

(** ** Selection errors *)

(** C7. With an integer selection outside [0, len(df)), [update_dashboard]
    shows the error dialog and returns at once: the result is the session it
    started from with that one dialog added, so the frame, the model, the Tk
    variables, every widget and every plot are as before. *)
Theorem update_dashboard_index_out_of_range (L : Library) (s : Session) (idx : Z)
    (Hsel : obj_var s = IntVal idx)
    (Hout : (idx < 0 \/ Z.of_nat (nrows (df s)) <= idx)%Z) :
  update_dashboard L s =
    (set_dialogs (dialogs s ++ [index_error_dialog idx]) s, Ok tt) /\
  let s' := fst (update_dashboard L s) in
  df s' = df s /\ cph s' = cph s /\ source_label s' = source_label s /\
  groupable_vars s' = groupable_vars s /\ obj_var s' = obj_var s /\
  id_var s' = id_var s /\ group_var s' = group_var s /\
  show_details s' = show_details s /\ widgets s' = widgets s /\ plots s' = plots s.
Proof.
  assert (E : update_dashboard L s =
              (set_dialogs (dialogs s ++ [index_error_dialog idx]) s, Ok tt)).
  { unfold update_dashboard, bind. rewrite (read_index_IntVal s idx Hsel).
    unfold update_views, bind, gets.
    assert (Hc : ((idx <? 0)%Z || (Z.of_nat (nrows (df s)) <=? idx)%Z) = true).
    { apply orb_true_iff. destruct Hout as [H|H]; [left; now apply Z.ltb_lt
                                                  | right; now apply Z.leb_le]. }
    rewrite Hc. reflexivity. }
  split; [exact E|]. rewrite E. cbn. repeat split.
Qed.

Lemma update_dashboard_index_out_of_range_witness :
  update_dashboard Demo.lib
    (set_obj_var (IntVal 7)
       (initial_session Demo.csv_frame Demo.cox_model "cox_energy_dataset.csv" [] ["1"; "2"; "3"]))
  = (set_dialogs [index_error_dialog 7]
       (set_obj_var (IntVal 7)
          (initial_session Demo.csv_frame Demo.cox_model "cox_energy_dataset.csv" [] ["1"; "2"; "3"])),
     Ok tt).
Proof.
  refine (proj1 (update_dashboard_index_out_of_range Demo.lib
                   (set_obj_var (IntVal 7)
                      (initial_session Demo.csv_frame Demo.cox_model
                         "cox_energy_dataset.csv" [] ["1"; "2"; "3"]))
                   7 eq_refl _)).
  right. cbn. lia.
Defined.

(** ** Load gauge *)

Lemma py_clamp_id (p : Q) : 0 <= p -> p <= 100 -> py_max 0 (py_min 100 p) == p.
Proof.
  intros H0 H1. unfold py_max, py_min.
  destruct (Qltb p 100) eqn:E1.
  - destruct (Qltb 0 p) eqn:E2; [reflexivity|]. apply Qltb_ge in E2. lra.
  - apply Qltb_ge in E1. destruct (Qltb 0 100) eqn:E2; [lra|]. discriminate.
Qed.

Lemma py_clamp_range (p : Q) : 0 <= py_max 0 (py_min 100 p) /\ py_max 0 (py_min 100 p) <= 100.
Proof.
  unfold py_max, py_min.
  destruct (Qltb p 100) eqn:E1.
  - apply Qltb_lt in E1. destruct (Qltb 0 p) eqn:E2.
    + apply Qltb_lt in E2. lra.
    + lra.
  - destruct (Qltb 0 100) eqn:E2; lra.
Qed.

Lemma load_pct_spec (curr mn mx : Q) :
  mn <= curr -> curr <= mx ->
  (0 <= load_pct curr mn mx /\ load_pct curr mn mx <= 100) /\
  (mn < mx -> load_pct curr mn mx == (curr - mn) / (mx - mn) * 100) /\
  (curr == mn -> load_pct curr mn mx == 0) /\
  (mn < mx -> curr == mx -> load_pct curr mn mx == 100) /\
  (mn == mx -> load_pct curr mn mx == 0).
Proof.
  intros Hlo Hhi. split; [apply py_clamp_range|].
  unfold load_pct.
  destruct (Qltb mn mx) eqn:E.
  - apply Qltb_lt in E.
    assert (Hd : 0 < mx - mn) by lra.
    assert (H0 : 0 <= (curr - mn) / (mx - mn)).
    { apply Qle_shift_div_l; [exact Hd | lra]. }
    assert (H1 : (curr - mn) / (mx - mn) <= 1).
    { apply Qle_shift_div_r; [exact Hd | lra]. }
    assert (Hid : py_max 0 (py_min 100 ((curr - mn) / (mx - mn) * 100))
                  == (curr - mn) / (mx - mn) * 100).
    { apply py_clamp_id; lra. }
    split; [intros _; exact Hid|].
    split; [|split].
    + intro Hc. rewrite Hid.
      assert (H2 : (curr - mn) / (mx - mn) <= 0).
      { apply Qle_shift_div_r; [exact Hd | lra]. }
      lra.
    + intros _ Hc. rewrite Hid.
      assert (H2 : 1 <= (curr - mn) / (mx - mn)).
      { apply Qle_shift_div_l; [exact Hd | lra]. }
      lra.
    + intro Hc. lra.
  - apply Qltb_ge in E.
    split; [intro; lra|].
    split; [intros _; reflexivity|].
    split; [intros; lra | intros _; reflexivity].
Qed.

(** ** Minimum and maximum of a numeric column *)

Lemma same_numeric_kind_trans (a b c : Cell) :
  same_numeric_kind a b -> same_numeric_kind b c -> same_numeric_kind a c.
Proof. destruct a, b, c; cbn; tauto. Qed.

Lemma same_numeric_kind_sym (a b : Cell) :
  same_numeric_kind a b -> same_numeric_kind b a.
Proof. destruct a, b; cbn; tauto. Qed.

Lemma cell_leb_num (a b : Cell) :
  same_numeric_kind a b -> cell_leb a b = Qle_bool (cell_num a) (cell_num b).
Proof.
  destruct a as [x|x|x|x], b as [y|y|y|y]; cbn; try contradiction; intros _.
  - unfold Qle_bool; cbn. now rewrite !Z.mul_1_r.
  - reflexivity.
  - destruct x, y; reflexivity.
Qed.

Lemma py_float_num (L : Library) (v x : Cell) :
  same_numeric_kind v x -> py_float L v = Ok (cell_num v).
Proof. destruct v, x; cbn; try contradiction; reflexivity. Qed.

Lemma list_min_spec (x : Cell) (l : list Cell) :
  same_numeric_kind x x -> Forall (same_numeric_kind x) l ->
  In (list_min cell_leb x l) (x :: l) /\
  same_numeric_kind x (list_min cell_leb x l) /\
  forall y, In y (x :: l) -> cell_num (list_min cell_leb x l) <= cell_num y.
Proof.
  revert x. induction l as [|a l IH]; intros x Hxx Hall.
  - cbn. split; [now left|]. split; [exact Hxx|].
    intros y [<-|[]]. apply Qle_refl.
  - apply Forall_cons_iff in Hall. destruct Hall as [Hxa Hl].
    unfold list_min; cbn [fold_left]. fold (list_min cell_leb).
    rewrite (cell_leb_num _ _ Hxa).
    destruct (Qle_bool (cell_num x) (cell_num a)) eqn:E.
    + destruct (IH x Hxx Hl) as (Hin & Hk & Hle).
      change (fold_left _ l x) with (list_min cell_leb x l).
      split; [destruct Hin as [<-|Hin]; [now left | right; now right]|].
      split; [exact Hk|].
      intros y [<-|[<-|Hy]].
      * apply Hle. now left.
      * eapply Qle_trans; [apply Hle; now left|]. now apply Qle_bool_iff.
      * apply Hle. now right.
    + assert (Hl' : Forall (same_numeric_kind a) l).
      { eapply Forall_impl; [|exact Hl]. intros c Hc.
        eapply same_numeric_kind_trans; [apply same_numeric_kind_sym|]; eauto. }
      assert (Haa : same_numeric_kind a a).
      { eapply same_numeric_kind_trans; [apply same_numeric_kind_sym|]; eauto. }
      destruct (IH a Haa Hl') as (Hin & Hk & Hle).
      change (fold_left _ l a) with (list_min cell_leb a l).
      split; [right; exact Hin|].
      split; [eapply same_numeric_kind_trans; eauto|].
      apply Qle_bool_false in E.
      intros y [<-|[<-|Hy]].
      * eapply Qle_trans; [apply Hle; now left|]. now apply Qlt_le_weak.
      * apply Hle. now left.
      * apply Hle. now right.
Qed.

Lemma list_max_spec (x : Cell) (l : list Cell) :
  same_numeric_kind x x -> Forall (same_numeric_kind x) l ->
  In (list_max cell_leb x l) (x :: l) /\
  same_numeric_kind x (list_max cell_leb x l) /\
  forall y, In y (x :: l) -> cell_num y <= cell_num (list_max cell_leb x l).
Proof.
  revert x. induction l as [|a l IH]; intros x Hxx Hall.
  - cbn. split; [now left|]. split; [exact Hxx|].
    intros y [<-|[]]. apply Qle_refl.
  - apply Forall_cons_iff in Hall. destruct Hall as [Hxa Hl].
    unfold list_max; cbn [fold_left]. fold (list_max cell_leb).
    assert (Hax : same_numeric_kind a x) by now apply same_numeric_kind_sym.
    rewrite (cell_leb_num _ _ Hax).
    destruct (Qle_bool (cell_num a) (cell_num x)) eqn:E.
    + destruct (IH x Hxx Hl) as (Hin & Hk & Hle).
      change (fold_left _ l x) with (list_max cell_leb x l).
      split; [destruct Hin as [<-|Hin]; [now left | right; now right]|].
      split; [exact Hk|].
      intros y [<-|[<-|Hy]].
      * apply Hle. now left.
      * eapply Qle_trans; [|apply Hle; now left]. now apply Qle_bool_iff.
      * apply Hle. now right.
    + assert (Hl' : Forall (same_numeric_kind a) l).
      { eapply Forall_impl; [|exact Hl]. intros c Hc.
        eapply same_numeric_kind_trans; [apply same_numeric_kind_sym|]; eauto. }
      assert (Haa : same_numeric_kind a a).
      { eapply same_numeric_kind_trans; [apply same_numeric_kind_sym|]; eauto. }
      destruct (IH a Haa Hl') as (Hin & Hk & Hle).
      change (fold_left _ l a) with (list_max cell_leb a l).
      split; [right; exact Hin|].
      split; [eapply same_numeric_kind_trans; eauto|].
      apply Qle_bool_false in E.
      intros y [<-|[<-|Hy]].
      * eapply Qle_trans; [|apply Hle; now left]. now apply Qlt_le_weak.
      * apply Hle. now left.
      * apply Hle. now right.
Qed.

Lemma numeric_cells_same_kind (s : Series) (v : Cell) (t : list Cell) :
  is_numeric_dtype s = true -> series_cells s = v :: t ->
  same_numeric_kind v v /\ Forall (same_numeric_kind v) t.
Proof.
  destruct s as [xs|xs|xs|xs|c xs]; cbn; try discriminate; intros _ H;
    (destruct xs as [|x xs]; [discriminate|]); cbn in H; injection H as <- <-;
    (split; [exact I|]); apply Forall_forall; intros c Hc;
    apply in_map_iff in Hc; destruct Hc as (y & <- & _); exact I.
Qed.

Lemma series_min_numeric (s : Series) (v : Cell) (t : list Cell) :
  is_numeric_dtype s = true -> series_cells s = v :: t ->
  series_min s = Ok (list_min cell_leb v t) /\ series_max s = Ok (list_max cell_leb v t).
Proof.
  intros Hn Hc. unfold series_min, series_max.
  destruct s; cbn in Hn; try discriminate; now rewrite Hc.
Qed.

(** ** The row handed to the views *)

Lemma nth_error_firstn1_skipn {A} (i : nat) (l : list A) :
  nth_error (firstn 1 (skipn i l)) 0 = nth_error l i.
Proof.
  revert l. induction i as [|i IH]; intros [|x l]; cbn; try reflexivity.
  apply IH.
Qed.

Lemma series_cells_series_at (i : nat) (s : Series) :
  series_cells (series_at i s) = firstn 1 (skipn i (series_cells s)).
Proof.
  destruct s; cbn [series_at series_cells]; now rewrite skipn_map, firstn_map.
Qed.

Lemma series_nth_series_at (i : nat) (s : Series) :
  series_nth (series_at i s) 0 = series_nth s i.
Proof.
  unfold series_nth. now rewrite series_cells_series_at, nth_error_firstn1_skipn.
Qed.

Lemma lookup_col_map (f : Series -> Series) (c : string) (l : list (string * Series)) :
  lookup_col c (map (fun cs => (fst cs, f (snd cs))) l) = option_map f (lookup_col c l).
Proof.
  induction l as [|[k s] l IH]; cbn; [reflexivity|].
  destruct (String.eqb c k); [reflexivity | exact IH].
Qed.

Lemma lookup_col_In (c : string) (s : Series) (l : list (string * Series)) :
  lookup_col c l = Some s -> In (c, s) l.
Proof.
  induction l as [|[k s0] l IH]; cbn; [discriminate|].
  destruct (String.eqb c k) eqn:E.
  - apply String.eqb_eq in E. subst. intro H. injection H as ->. now left.
  - intro H. right. now apply IH.
Qed.

Lemma getitem_Some (df : DataFrame) (c : string) (s : Series) :
  getitem df c = Ok s <-> lookup_col c (cols df) = Some s.
Proof.
  unfold getitem. destruct (lookup_col c (cols df)); split; congruence.
Qed.

Lemma wf_df_series_len (df : DataFrame) (c : string) (s : Series) :
  wf_df df -> getitem df c = Ok s -> series_len s = nrows df.
Proof.
  intros [Hall _] H. apply getitem_Some, lookup_col_In in H.
  rewrite Forall_forall in Hall. exact (Hall _ H).
Qed.

Lemma iloc_rows_Ok (df r : DataFrame) (i : nat) :
  iloc_rows df i = Ok r ->
  (i < nrows df)%nat /\ forall c s, getitem df c = Ok s -> getitem r c = Ok (series_at i s).
Proof.
  unfold iloc_rows. destruct (Nat.ltb i (nrows df)) eqn:E; [|discriminate].
  intro H. injection H as <-. split; [now apply Nat.ltb_lt|].
  intros c s Hs. apply getitem_Some in Hs. apply getitem_Some; cbn.
  now rewrite lookup_col_map, Hs.
Qed.

Section LoadGauge.
Variable L : Library.

Lemma row_float_feature (d row : DataFrame) (i : nat) (c : string) (col : Series) :
  (r <- iloc_rows d i ;; select_cols r FEATURE_COLUMNS)%res = Ok row ->
  In c FEATURE_COLUMNS ->
  getitem d c = Ok col ->
  (i < nrows d)%nat /\
  row_float L row c = (v <- series_nth col i ;; py_float L v)%res.
Proof.
  intros Hrow Hin Hcol.
  destruct (iloc_rows d i) as [r|e] eqn:Er; cbn in Hrow; [|discriminate].
  destruct (iloc_rows_Ok _ _ _ Er) as [Hi Hget].
  split; [exact Hi|].
  unfold row_float.
  rewrite (getitem_select_cols _ _ _ _ Hrow Hin), (Hget _ _ Hcol). cbn [rbind].
  now rewrite series_nth_series_at.
Qed.

End LoadGauge.

Lemma LOAD_COL_feature : In LOAD_COL FEATURE_COLUMNS.
Proof. cbn. auto. Qed.

(** C6. For a frame with a numeric load column and a row of it selected, the
    gauge shows the selected load rescaled linearly between the least and the
    greatest load of the column: a value in [0, 100], 0 at the least load,
    100 at the greatest when the two differ, and 0 when all loads are equal. *)
Theorem normalized_load_rescale (L : Library) (d row : DataFrame) (i : nat) (col : Series)
    (Hwf : wf_df d)
    (Hrow : (r <- iloc_rows d i ;; select_cols r FEATURE_COLUMNS)%res = Ok row)
    (Hcol : getitem d LOAD_COL = Ok col)
    (Hnum : is_numeric_dtype col = true) :
  let loads := map cell_num (series_cells col) in
  exists curr_load min_load max_load,
    nth_error loads i = Some curr_load /\
    (In min_load loads /\ forall x, In x loads -> min_load <= x) /\
    (In max_load loads /\ forall x, In x loads -> x <= max_load) /\
    load_gauge L d row = Ok (curr_load, load_pct curr_load min_load max_load) /\
    (forall s, df s = d ->
       load_bar (widgets (fst (step_load L row s))) = load_pct curr_load min_load max_load) /\
    (0 <= load_pct curr_load min_load max_load /\
     load_pct curr_load min_load max_load <= 100) /\
    (min_load < max_load ->
       load_pct curr_load min_load max_load
         == (curr_load - min_load) / (max_load - min_load) * 100) /\
    (curr_load == min_load -> load_pct curr_load min_load max_load == 0) /\
    (min_load < max_load -> curr_load == max_load ->
       load_pct curr_load min_load max_load == 100) /\
    (min_load == max_load -> load_pct curr_load min_load max_load == 0).
Proof.
  intro loads.
  destruct (row_float_feature L d row i LOAD_COL col Hrow LOAD_COL_feature Hcol)
    as [Hi Hrf].
  pose proof (wf_df_series_len _ _ _ Hwf Hcol) as Hlen.
  destruct (nth_error (series_cells col) i) as [v|] eqn:Ev;
    [|apply nth_error_None in Ev; unfold series_len in Hlen; lia].
  destruct (series_cells col) as [|v0 t] eqn:Ec; [now destruct i|].
  destruct (numeric_cells_same_kind col v0 t Hnum Ec) as [H00 Hall].
  destruct (series_min_numeric col v0 t Hnum Ec) as [Hmin Hmax].
  destruct (list_min_spec v0 t H00 Hall) as (Hmin_in & Hmin_k & Hmin_le).
  destruct (list_max_spec v0 t H00 Hall) as (Hmax_in & Hmax_k & Hmax_le).
  assert (Hkind : forall y, In y (v0 :: t) -> same_numeric_kind v0 y).
  { intros y [<-|Hy]; [exact H00|]. rewrite Forall_forall in Hall. now apply Hall. }
  assert (Hv_in : In v (v0 :: t)) by (eapply nth_error_In; exact Ev).
  assert (Hfloat : forall y, In y (v0 :: t) -> py_float L y = Ok (cell_num y)).
  { intros y Hy. apply (py_float_num L y v0).
    apply same_numeric_kind_sym. now apply Hkind. }
  exists (cell_num v), (cell_num (list_min cell_leb v0 t)),
         (cell_num (list_max cell_leb v0 t)).
  assert (Hin_loads : forall y, In y (v0 :: t) -> In (cell_num y) loads).
  { intros y Hy. unfold loads. now apply in_map. }
  assert (Hloads : forall x, In x loads -> exists y, In y (v0 :: t) /\ x = cell_num y).
  { intros x Hx. unfold loads in Hx. apply in_map_iff in Hx.
    destruct Hx as (y & <- & Hy). eauto. }
  assert (Hgauge : load_gauge L d row =
                   Ok (cell_num v, load_pct (cell_num v)
                                     (cell_num (list_min cell_leb v0 t))
                                     (cell_num (list_max cell_leb v0 t)))).
  { unfold load_gauge. rewrite Hrf. unfold series_nth. rewrite Ec, Ev. cbn [rbind].
    rewrite (Hfloat v Hv_in). cbn [rbind]. rewrite Hcol. cbn [rbind].
    rewrite Hmin. cbn [rbind]. rewrite (Hfloat _ Hmin_in). cbn [rbind].
    rewrite Hmax. cbn [rbind]. rewrite (Hfloat _ Hmax_in). reflexivity. }
  split; [unfold loads; now rewrite nth_error_map, Ev|].
  split.
  { split; [now apply Hin_loads|]. intros x Hx.
    destruct (Hloads x Hx) as (y & Hy & ->). now apply Hmin_le. }
  split.
  { split; [now apply Hin_loads|]. intros x Hx.
    destruct (Hloads x Hx) as (y & Hy & ->). now apply Hmax_le. }
  split; [exact Hgauge|].
  split.
  { intros s Hs. unfold step_load, try_except, bind, gets, lift.
    cbn. rewrite Hs, Hgauge. reflexivity. }
  apply load_pct_spec; [now apply Hmin_le | now apply Hmax_le].
Qed.

(** Whatever the frame holds, the gauge stays within its scale: the clamped
    percentage, or 0 when the load cannot be read. *)
Lemma step_load_in_range (L : Library) (row : DataFrame) (s : Session) :
  0 <= load_bar (widgets (fst (step_load L row s))) /\
  load_bar (widgets (fst (step_load L row s))) <= 100.
Proof.
  unfold step_load, try_except, bind, gets, lift, modify_widgets, modify.
  destruct (load_gauge L (df s) row) as [[curr pct]|e] eqn:E; cbn.
  - unfold load_gauge in E.
    destruct (row_float L row LOAD_COL); cbn [rbind] in E; [|discriminate].
    destruct (getitem (df s) LOAD_COL); cbn [rbind] in E; [|discriminate].
    destruct (series_min _); cbn [rbind] in E; [|discriminate].
    destruct (py_float L _); cbn [rbind] in E; [|discriminate].
    destruct (series_max _); cbn [rbind] in E; [|discriminate].
    destruct (py_float L _); cbn [rbind] in E; [|discriminate].
    injection E as _ <-. apply py_clamp_range.
  - split; discriminate.
Qed.

Lemma csv_frame_wf : wf_df Demo.csv_frame.
Proof.
  split.
  - repeat constructor.
  - unfold columns; cbn. repeat constructor; cbn; intuition discriminate.
Qed.

Lemma normalized_load_rescale_witness :
  exists row curr_load min_load max_load,
    (r <- iloc_rows Demo.csv_frame 1 ;; select_cols r FEATURE_COLUMNS)%res = Ok row /\
    load_gauge Demo.lib Demo.csv_frame row
      = Ok (curr_load, load_pct curr_load min_load max_load) /\
    0 <= load_pct curr_load min_load max_load /\
    load_pct curr_load min_load max_load <= 100.
Proof.
  destruct (r <- iloc_rows Demo.csv_frame 1 ;; select_cols r FEATURE_COLUMNS)%res
    as [row|e] eqn:Hrow; [|discriminate Hrow].
  destruct (normalized_load_rescale Demo.lib Demo.csv_frame row 1
              (SInt [3000; 4000; 5000]%Z) csv_frame_wf Hrow eq_refl eq_refl)
    as (c & mn & mx & _ & _ & _ & Hg & _ & Hr & _).
  exists row, c, mn, mx. split; [reflexivity|]. split; [exact Hg | exact Hr].
Defined.

(** ** Grouped survival *)

Lemma cell_eqb_refl (v : Cell) : cell_eqb v v = true.
Proof.
  destruct v; cbn.
  - apply Z.eqb_refl.
  - apply Qeq_bool_iff. reflexivity.
  - now destruct b.
  - apply String.eqb_refl.
Qed.

Lemma cell_eqb_str (a b : Cell) : is_str a -> cell_eqb a b = true -> a = b.
Proof.
  intros [s ->]. destruct b; cbn; try discriminate.
  intro H. apply String.eqb_eq in H. now subst.
Qed.

Lemma uniq_incl {A} (eqb : A -> A -> bool) (l : list A) (v : A) :
  In v (uniq eqb l) -> In v l.
Proof.
  induction l as [|x l IH]; cbn; [tauto|].
  intros [H|H]; [now left|]. right. apply IH. now apply filter_In in H.
Qed.

Lemma uniq_NoDup {A} (eqb : A -> A -> bool) (l : list A) :
  (forall x, eqb x x = true) -> NoDup (uniq eqb l).
Proof.
  intro Hrefl. induction l as [|x l IH]; cbn; constructor.
  - intro H. apply filter_In in H. destruct H as [_ H]. now rewrite Hrefl in H.
  - now apply NoDup_filter.
Qed.

Lemma uniq_In_str (l : list Cell) (v : Cell) :
  Forall is_str l -> (In v (uniq cell_eqb l) <-> In v l).
Proof.
  intro Hall. split; [apply uniq_incl|].
  induction l as [|x l IH]; cbn; [tauto|].
  apply Forall_cons_iff in Hall. destruct Hall as [Hx Hl].
  intros [H|H]; [now left|].
  destruct (cell_eqb x v) eqn:E.
  - left. now apply cell_eqb_str.
  - right. apply filter_In. split; [now apply IH | now rewrite E].
Qed.

Lemma insert_by_perm {A} (leb : A -> A -> bool) (x : A) (l : list A) :
  Permutation (insert_by leb x l) (x :: l).
Proof.
  induction l as [|y l IH]; cbn; [reflexivity|].
  destruct (leb x y); [reflexivity|].
  rewrite IH. apply perm_swap.
Qed.

Lemma sort_by_perm {A} (leb : A -> A -> bool) (l : list A) :
  Permutation (sort_by leb l) l.
Proof.
  induction l as [|x l IH]; cbn; [reflexivity|].
  rewrite insert_by_perm. now constructor.
Qed.

Lemma group_labels_NoDup (g : Series) : NoDup (group_labels g).
Proof.
  unfold group_labels.
  eapply Permutation_NoDup; [symmetry; apply sort_by_perm|].
  apply uniq_NoDup, cell_eqb_refl.
Qed.

Lemma group_labels_incl (g : Series) (v : Cell) :
  In v (group_labels g) -> In v (series_cells g).
Proof.
  unfold group_labels. intro H.
  eapply uniq_incl. eapply Permutation_in; [apply sort_by_perm | exact H].
Qed.

Lemma group_labels_In_str (g : Series) (v : Cell) :
  Forall is_str (series_cells g) ->
  (In v (group_labels g) <-> In v (series_cells g)).
Proof.
  intro Hall. split; [apply group_labels_incl|].
  intro H. unfold group_labels.
  eapply Permutation_in; [symmetry; apply sort_by_perm|].
  now apply uniq_In_str.
Qed.

Lemma group_mask_nonempty (g : Series) (v : Cell) :
  In v (series_cells g) -> count_true (group_mask g v) <> 0%nat.
Proof.
  unfold group_mask, count_true. induction (series_cells g) as [|x l IH]; cbn; [tauto|].
  intros [->|H].
  - now rewrite cell_eqb_refl.
  - destruct (cell_eqb x v); cbn; [discriminate | now apply IH].
Qed.

Lemma group_series_is_str (L : Library) (d : DataFrame) (var : string) (g : Series) :
  group_series L d var = Ok g -> Forall is_str (series_cells g).
Proof.
  unfold group_series. destruct (getitem d var) as [col|e]; cbn [rbind]; [|discriminate].
  destruct (is_numeric_dtype col && Nat.ltb 3 (nunique col)).
  - destruct (qcut_drop L col 3 GROUP_LABELS) as [labels|e]; cbn [rbind]; [|discriminate].
    intro H. injection H as <-. cbn. apply Forall_forall.
    intros v Hv. apply in_map_iff in Hv. destruct Hv as (x & <- & _). now exists x.
  - intro H. injection H as <-. cbn. apply Forall_forall.
    intros v Hv. apply in_map_iff in Hv. destruct Hv as (x & <- & _). now eexists.
Qed.

Lemma ax_plots_lines (lines : list (string * Curve)) (a : Axes) :
  ax_plots lines a =
  mkAxes (ax_lines a ++ lines) (ax_vlines a) (ax_bars a) (ax_texts a) (ax_title a).
Proof.
  revert a. induction lines as [|l lines IH]; intro a; cbn.
  - rewrite app_nil_r. now destruct a.
  - unfold ax_plots in IH. rewrite IH. cbn. now rewrite <- app_assoc.
Qed.

Section GroupedSurvival.
Variable L : Library.

Lemma plot_group_step (var : string) (d d' : DataFrame) (g : Series) (v : Cell)
    (s1 : Session) :
  getitem d' GROUP_COL = Ok g ->
  getitem d' DURATION_COL = getitem d DURATION_COL ->
  getitem d' EVENT_COL = getitem d EVENT_COL ->
  In v (series_cells g) ->
  df s1 = d' ->
  plot_group L var v s1 =
  match fit_group L d g var v with
  | Ok line =>
      (set_plots (set_ax_groups (ax_plot line (ax_groups (plots s1))) (plots s1)) s1, Ok tt)
  | Raise e => (s1, Raise e)
  end.
Proof.
  intros Hg Hdur Hev Hin Hs1.
  assert (Hne : Nat.eqb (count_true (group_mask g v)) 0 = false).
  { now apply Nat.eqb_neq, group_mask_nonempty. }
  unfold plot_group, fit_group, bind, gets, lift, on_ax_groups, modify_plots, modify.
  rewrite Hs1, Hg. fold (group_mask g v). rewrite Hne, Hdur, Hev.
  destruct (getitem d DURATION_COL) as [dur|e]; cbn [rbind]; [|reflexivity].
  destruct (getitem d EVENT_COL) as [ev|e]; cbn [rbind]; [|reflexivity].
  destruct (km_fit L _ _) as [km|e]; cbn [rbind]; reflexivity.
Qed.

Lemma forM_plot_group (var : string) (d d' : DataFrame) (g : Series) :
  getitem d' GROUP_COL = Ok g ->
  getitem d' DURATION_COL = getitem d DURATION_COL ->
  getitem d' EVENT_COL = getitem d EVENT_COL ->
  forall vals, (forall v, In v vals -> In v (series_cells g)) ->
  forall s1, df s1 = d' ->
    match rmap (fit_group L d g var) vals with
    | Ok lines =>
        forM_ vals (plot_group L var) s1 =
        (set_plots (set_ax_groups (ax_plots lines (ax_groups (plots s1))) (plots s1)) s1,
         Ok tt)
    | Raise e => snd (forM_ vals (plot_group L var) s1) = Raise e
    end.
Proof.
  intros Hg Hdur Hev vals. induction vals as [|v vals IH]; intros Hin s1 Hs1.
  - cbn. unfold ret. f_equal. now destruct s1 as [? ? ? ? ? ? ? ? ? [] ?].
  - cbn [rmap forM_]. unfold bind.
    rewrite (plot_group_step var d d' g v s1 Hg Hdur Hev (Hin v (or_introl eq_refl)) Hs1).
    destruct (fit_group L d g var v) as [line|e]; cbn [rbind]; [|reflexivity].
    match goal with
    | |- context [forM_ vals _ ?s] =>
        specialize (IH (fun x Hx => Hin x (or_intror Hx)) s Hs1)
    end.
    destruct (rmap (fit_group L d g var) vals) as [lines|e]; cbn [rbind].
    + rewrite IH. reflexivity.
    + exact IH.
Qed.

End GroupedSurvival.

(** ** Running a callback step by step *)

Lemma bind_ret {A B} (a : A) (k : A -> M B) (s : Session) : bind (ret a) k s = k a s.
Proof. reflexivity. Qed.

Lemma bind_gets {A B} (f : Session -> A) (k : A -> M B) (s : Session) :
  bind (gets f) k s = k (f s) s.
Proof. reflexivity. Qed.

Lemma bind_modify {B} (f : Session -> Session) (k : unit -> M B) (s : Session) :
  bind (modify f) k s = k tt (f s).
Proof. reflexivity. Qed.

Lemma bind_modify_plots {B} (f : Plots -> Plots) (k : unit -> M B) (s : Session) :
  bind (modify_plots f) k s = k tt (set_plots (f (plots s)) s).
Proof. reflexivity. Qed.

Lemma bind_modify_widgets {B} (f : Widgets -> Widgets) (k : unit -> M B) (s : Session) :
  bind (modify_widgets f) k s = k tt (set_widgets (f (widgets s)) s).
Proof. reflexivity. Qed.

Lemma bind_lift_Ok {A B} (a : A) (k : A -> M B) (s : Session) :
  bind (lift (Ok a)) k s = k a s.
Proof. reflexivity. Qed.

Lemma bind_lift_Raise {A B} (e : PyExc) (k : A -> M B) (s : Session) :
  bind (@lift A (Raise e)) k s = (s, Raise e).
Proof. reflexivity. Qed.

Lemma bind_assoc {A B C} (m : M A) (k : A -> M B) (k' : B -> M C) (s : Session) :
  bind (bind m k) k' s = bind m (fun a => bind (k a) k') s.
Proof. unfold bind. destruct (m s) as [s1 [a|e]]; reflexivity. Qed.

Ltac run_step :=
  first [ rewrite bind_ret | rewrite bind_gets | rewrite bind_modify
        | rewrite bind_modify_plots | rewrite bind_modify_widgets
        | rewrite bind_lift_Ok | rewrite bind_lift_Raise ].

Ltac run := repeat run_step; cbv beta.

Lemma choose_group_var_present (s : Session) :
  has_col (group_var s) (df s) = true ->
  choose_group_var s = (s, Ok (Some (group_var s))).
Proof.
  intro H. unfold choose_group_var. run. now rewrite H.
Qed.

Lemma GROUP_COL_not_DURATION : GROUP_COL <> DURATION_COL.
Proof. discriminate. Qed.

Lemma GROUP_COL_not_EVENT : GROUP_COL <> EVENT_COL.
Proof. discriminate. Qed.

(** The grouped view, run from a session whose grouping variable is a
    column: the outcome is that of [group_curves], and on success the frame
    gains the [_group] column and the axes hold the curves and the title. *)
Lemma step_groups_run (L : Library) (s : Session) (var : string) :
  group_var s = var ->
  has_col var (df s) = true ->
  match group_series L (df s) var with
  | Raise e => snd (step_groups L s) = Raise e
  | Ok g =>
      match rmap (fit_group L (df s) g var) (group_labels g) with
      | Raise e => snd (step_groups L s) = Raise e
      | Ok lines =>
          step_groups L s =
          (set_plots
             (let a := ax_set_title ("Крива виживаності по групах (" ++ var ++ ")")
                         (ax_plots lines empty_axes) in
              set_canvas_groups a (set_ax_groups a (plots s)))
             (set_df (setitem (df s) GROUP_COL g) s),
           Ok true)
      end
  end.
Proof.
  intros Hvar Hhas.
  assert (Hrun0 :
    step_groups L s =
    let s0 := set_plots (set_ax_groups empty_axes (plots s)) s in
    match group_series L (df s) var with
    | Raise e => (s0, Raise e)
    | Ok g =>
        match forM_ (group_labels g) (plot_group L var)
                    (set_df (setitem (df s) GROUP_COL g) s0) with
        | (s2, Ok _) =>
            (set_plots
               (let a := ax_set_title ("Крива виживаності по групах (" ++ var ++ ")")
                           (ax_groups (plots s2)) in
                set_canvas_groups a (set_ax_groups a (plots s2))) s2,
             Ok true)
        | (s2, Raise e) => (s2, Raise e)
        end
    end).
  { unfold step_groups, on_ax_groups. run.
    unfold bind at 1. rewrite choose_group_var_present; cbn [group_var df set_plots];
      [|now rewrite Hvar].
    rewrite Hvar. run. cbn [df set_plots].
    destruct (group_series L (df s) var) as [g|e]; run; [|reflexivity].
    cbn [df set_df]. rewrite getitem_setitem_same. run.
    fold (group_labels g). unfold bind at 1.
    destruct (forM_ _ _ _) as [s2 [u|e2]]; [|reflexivity].
    run. reflexivity. }
  rewrite Hrun0. cbv zeta.
  destruct (group_series L (df s) var) as [g|e]; [|reflexivity].
  match goal with
  | |- context [forM_ (group_labels g) _ ?s1] =>
      pose proof (forM_plot_group L var (df s) (setitem (df s) GROUP_COL g) g
                    (getitem_setitem_same _ _ _)
                    (getitem_setitem_other _ _ _ _ GROUP_COL_not_DURATION)
                    (getitem_setitem_other _ _ _ _ GROUP_COL_not_EVENT)
                    (group_labels g) (group_labels_incl g) s1 eq_refl) as Hloop
  end.
  destruct (rmap (fit_group L (df s) g var) (group_labels g)) as [lines|e].
  - rewrite Hloop. reflexivity.
  - destruct (forM_ _ _ _) as [s2 [u|e2]]; cbn in Hloop; [discriminate|].
    injection Hloop as ->. reflexivity.
Qed.

(** ** The dataset under the callbacks *)

Lemma drop_col_store (c : string) (s : Series) (l : list (string * Series)) :
  drop_col c (store_col c s l) = drop_col c l.
Proof.
  unfold drop_col. induction l as [|[k s0] l IH]; cbn.
  - now rewrite String.eqb_refl.
  - destruct (String.eqb c k) eqn:E; cbn; rewrite E; cbn; [reflexivity | now rewrite IH].
Qed.

Lemma dataset_of_set_group (s : Session) (g : Series) :
  dataset_of (set_df (setitem (df s) GROUP_COL g) s) = dataset_of s.
Proof.
  unfold dataset_of. cbn [df set_df]. unfold setitem. cbn [nrows cols].
  now rewrite drop_col_store.
Qed.

Lemma bind_Ok_inv {A B} (m : M A) (k : A -> M B) (s s' : Session) (b : B) :
  bind m k s = (s', Ok b) -> exists a s1, m s = (s1, Ok a) /\ k a s1 = (s', Ok b).
Proof.
  unfold bind. destruct (m s) as [s1 [a|e]]; [eauto | discriminate].
Qed.

Lemma keeps_fst {B A} (proj : Session -> B) (m : M A) (s s' : Session) (r : result A) :
  keeps proj m -> m s = (s', r) -> proj s' = proj s.
Proof. intros H E. specialize (H s). now rewrite E in H. Qed.

Lemma string_app_assoc (a b c : string) : (a ++ b) ++ c = a ++ (b ++ c).
Proof. induction a as [|x a IH]; cbn; [reflexivity | now rewrite IH]. Qed.

Lemma string_app_nil_r (a : string) : a ++ EmptyString = a.
Proof. induction a as [|x a IH]; cbn; [reflexivity | now rewrite IH]. Qed.

Lemma iloc_to_dict_keys (d : DataFrame) (i : nat) (r : list (string * Cell)) :
  iloc_to_dict d i = Ok r -> map fst r = columns d.
Proof.
  unfold iloc_to_dict, columns. destruct (Nat.ltb i (nrows d)); [|discriminate].
  revert r. induction (cols d) as [|[k s] l IH]; cbn; intros r H.
  - now injection H as <-.
  - destruct (series_nth s i) as [v|e]; cbn in H; [|discriminate].
    destruct (rmap _ l) as [r'|e]; cbn in H; [|discriminate].
    injection H as <-. cbn. now rewrite (IH r' eq_refl).
Qed.

Section DatasetFrame.
Variable L : Library.

Ltac keeps_dataset :=
  repeat first [ keeps_step
               | apply keeps_modify; intro; apply dataset_of_set_group ].

Lemma read_index_keeps_dataset : keeps dataset_of read_index.
Proof. unfold read_index. keeps_tac. Qed.

Lemma update_views_keeps_dataset (idx : Z) : keeps dataset_of (update_views L idx).
Proof. unfold_steps. keeps_dataset. Qed.

Lemma update_dashboard_keeps_dataset : keeps dataset_of (update_dashboard L).
Proof.
  unfold update_dashboard. apply keeps_bind;
    [apply read_index_keeps_dataset | intro; apply update_views_keeps_dataset].
Qed.

Lemma on_id_change_keeps_dataset : keeps dataset_of (on_id_change L).
Proof. unfold on_id_change. keeps_tac. Qed.

Lemma toggle_details_keeps_dataset : keeps dataset_of toggle_details.
Proof. unfold toggle_details. keeps_tac. Qed.

Lemma regenerate_data_dataset (g : Rng) (s : Session) :
  dataset_of (fst (regenerate_data L g s)) = (150%nat, cols (generate_random_data g 150)).
Proof.
  unfold regenerate_data. run. cbn [df set_df].
  destruct (train_cox_model L (generate_random_data g 150)) as [c|e]; run;
    [|reflexivity].
  cbn [df set_df set_cph set_obj_var set_source_label set_widgets set_groupable_vars
       source_label groupable_vars].
  change (filter (fun c0 => has_col c0 (generate_random_data g 150)) FEATURE_COLUMNS)
    with FEATURE_COLUMNS.
  cbn [FEATURE_COLUMNS]. run.
  unfold bind at 1.
  match goal with
  | |- context [try_except ?m ?h ?s0] =>
      pose proof (keeps_try_except df m h) as Hk;
      destruct (try_except m h s0) as [s1 r] eqn:Et;
      pose proof (keeps_fst df _ _ _ _ (Hk ltac:(keeps_tac) ltac:(keeps_tac)) Et) as Hdf
  end.
  cbn [df set_df set_cph set_obj_var set_source_label set_widgets set_groupable_vars
       set_group_var] in Hdf.
  clear Hk Et.
  assert (Hds : dataset_of s1 = (150%nat, cols (generate_random_data g 150))).
  { unfold dataset_of. rewrite Hdf. reflexivity. }
  destruct r as [u|e]; [|exact Hds].
  change (has_col NAME_COL (generate_random_data g 150)) with true.
  cbn [negb when]. run. rewrite Hdf.
  change (has_col TYPE_COL (generate_random_data g 150)) with true.
  cbn [negb when]. run.
  rewrite update_dashboard_keeps_dataset.
  unfold dataset_of in *. cbn [df set_widgets]. exact Hds.
Qed.

Lemma forM_details_insert {A} (f : A -> string) (l : list A) (s : Session) :
  forM_ l (fun x => details_insert (f x)) s =
  (set_widgets (set_details_text
                  (details_text (widgets s) ++ fold_right String.append EmptyString (map f l))
                  (widgets s)) s,
   Ok tt).
Proof.
  revert s. induction l as [|x l IH]; intro s; cbn [forM_ map fold_right].
  - rewrite string_app_nil_r. unfold ret.
    now destruct s as [? ? ? ? ? ? ? ? [] ? ?].
  - unfold details_insert at 1. run. rewrite IH.
    cbn [widgets set_widgets details_text set_details_text].
    now rewrite string_app_assoc.
Qed.

Lemma step_details_spec (i : nat) (s : Session) :
  exists s', step_details L i s = (s', Ok tt) /\
             df s' = df s /\
             forall full_row, iloc_to_dict (df s) i = Ok full_row ->
               details_text (widgets s') = details_render L (df s) full_row.
Proof.
  unfold step_details, try_except. run. cbn [df set_widgets].
  destruct (iloc_to_dict (df s) i) as [full_row|e]; run.
  - unfold details_insert at 1. run. unfold bind at 1. rewrite forM_details_insert.
    cbn [widgets set_widgets details_text set_details_text df].
    unfold details_render.
    destruct (negb (has_col TYPE_COL (df s)) || _) eqn:Ec; cbn [when].
    + unfold details_insert, modify_widgets, modify.
      eexists. split; [reflexivity|]. split; [reflexivity|].
      intros r Hr. injection Hr as <-.
      cbn [widgets set_widgets details_text set_details_text].
      rewrite Ec, !string_app_assoc. reflexivity.
    + unfold ret. eexists. split; [reflexivity|]. split; [reflexivity|].
      intros r Hr. injection Hr as <-.
      cbn [widgets set_widgets details_text set_details_text].
      rewrite Ec, string_app_nil_r, !string_app_assoc. reflexivity.
  - eexists. split; [reflexivity|]. split; [reflexivity|]. intros r Hr. discriminate.
Qed.

Lemma step_groups_Ok (s s' : Session) (go_on : bool) :
  step_groups L s = (s', Ok go_on) ->
  has_col (group_var s) (df s) = true \/ groupable_vars s <> [] ->
  go_on = true /\ has_col GROUP_COL (df s') = true.
Proof.
  intros Hrun Hgrp. unfold step_groups, on_ax_groups in Hrun.
  rewrite bind_modify_plots in Hrun.
  apply bind_Ok_inv in Hrun. destruct Hrun as (ov & s1 & Hch & Hrun).
  assert (Hov : exists var, ov = Some var).
  { unfold choose_group_var in Hch. rewrite !bind_gets in Hch.
    cbn [group_var df set_plots groupable_vars] in Hch.
    destruct (has_col (group_var s) (df s)).
    - injection Hch as _ <-. eauto.
    - destruct Hgrp as [Hgrp|Hgrp]; [discriminate|].
      rewrite bind_gets in Hch. cbn [groupable_vars set_plots] in Hch.
      destruct (groupable_vars s) as [|v0 gv]; [congruence|].
      rewrite bind_modify in Hch. injection Hch as _ <-. eauto. }
  destruct Hov as [var ->].
  rewrite bind_gets in Hrun.
  destruct (group_series L (df s1) var) as [g|e];
    [rewrite bind_lift_Ok in Hrun | rewrite bind_lift_Raise in Hrun; discriminate].
  rewrite bind_modify in Hrun.
  match type of Hrun with
  | ?m ?s0 = _ =>
      assert (Hk : keeps df m) by (unfold plot_group, on_ax_groups; keeps_tac);
      pose proof (keeps_fst df _ _ _ _ Hk Hrun) as Hdf
  end.
  cbn [df set_df] in Hdf. split.
  - repeat (apply bind_Ok_inv in Hrun; destruct Hrun as (? & ? & _ & Hrun)).
    now injection Hrun as _ <-.
  - rewrite Hdf. apply has_col_setitem_same.
Qed.

End DatasetFrame.

(** C2, as the code has it. [regenerate_data] replaces the dataset by 150
    synthetic records; every other callback leaves the number of rows and
    every column other than [_group] as they were.  [update_dashboard] writes
    the [_group] column into the shared frame, where it stays: after a full
    recompute the frame has that column, and the detail panel, which prints
    every column of the selected row, prints it too. *)
Theorem callbacks_and_dataset (L : Library) :
  (forall cb s, (forall g, cb <> CbRegenerate g) ->
     dataset_of (fst (run_callback L cb s)) = dataset_of s) /\
  (forall g s,
     dataset_of (fst (run_callback L (CbRegenerate g) s))
       = (150%nat, cols (generate_random_data g 150))) /\
  (forall s s' idx,
     update_dashboard L s = (s', Ok tt) ->
     obj_var s = IntVal idx ->
     (0 <= idx < Z.of_nat (nrows (df s)))%Z ->
     has_col (group_var s) (df s) = true \/ groupable_vars s <> [] ->
     has_col GROUP_COL (df s') = true /\
     forall full_row, iloc_to_dict (df s') (Z.to_nat idx) = Ok full_row ->
       map fst full_row = columns (df s') /\
       In GROUP_COL (map fst full_row) /\
       details_text (widgets s') = details_render L (df s') full_row).
Proof.
  split; [|split].
  - intros cb s Hcb. destruct cb as [|g| |]; cbn [run_callback].
    + apply update_dashboard_keeps_dataset.
    + exfalso. now apply (Hcb g).
    + apply on_id_change_keeps_dataset.
    + apply toggle_details_keeps_dataset.
  - intros g s. apply regenerate_data_dataset.
  - intros s s' idx Hrun Hsel Hrange Hgrp.
    unfold update_dashboard in Hrun.
    apply bind_Ok_inv in Hrun. destruct Hrun as (idx' & s0 & Hri & Hrun).
    rewrite (read_index_IntVal s idx Hsel) in Hri. injection Hri as <- <-.
    unfold update_views in Hrun. rewrite bind_gets in Hrun.
    assert (Hc : ((idx <? 0)%Z || (Z.of_nat (nrows (df s)) <=? idx)%Z) = false).
    { apply orb_false_iff. split; [apply Z.ltb_ge | apply Z.leb_gt]; lia. }
    rewrite Hc in Hrun. cbv zeta in Hrun.
    apply bind_Ok_inv in Hrun. destruct Hrun as (row & s1 & H1 & Hrun).
    apply bind_Ok_inv in Hrun. destruct Hrun as (u2 & s2 & H2 & Hrun).
    apply bind_Ok_inv in Hrun. destruct Hrun as (u3 & s3 & H3 & Hrun).
    apply bind_Ok_inv in Hrun. destruct Hrun as (summary & s4 & H4 & Hrun).
    apply bind_Ok_inv in Hrun. destruct Hrun as (u5 & s5 & H5 & Hrun).
    apply bind_Ok_inv in Hrun. destruct Hrun as (go_on & s6 & H6 & Hrun).
    assert (Hpre : forall {B} (proj : Session -> B),
               (forall s w, proj (set_plots w s) = proj s) ->
               (forall s v, proj (set_id_var v s) = proj s) ->
               proj s5 = proj s).
    { intros B proj Hp Hi.
      assert (E1 : proj s1 = proj s).
      { eapply keeps_fst; [|exact H1]. apply keeps_lift. }
      assert (E2 : proj s2 = proj s1).
      { eapply keeps_fst; [|exact H2]. unfold sync_id_var.
        repeat first [ apply keeps_modify; intro; apply Hi | keeps_step ]. }
      assert (E3 : proj s3 = proj s2).
      { eapply keeps_fst; [|exact H3]. unfold step_survival, on_ax_surv.
        repeat first [ apply keeps_modify_plots; exact Hp | keeps_step ]. }
      assert (E4 : proj s4 = proj s3).
      { eapply keeps_fst; [|exact H4]. unfold step_hazard_ratios, on_ax_hr.
        repeat first [ apply keeps_modify_plots; exact Hp | keeps_step ]. }
      assert (E5 : proj s5 = proj s4).
      { eapply keeps_fst; [|exact H5]. unfold step_cumulative_hazard, on_ax_ch.
        repeat first [ apply keeps_modify_plots; exact Hp | keeps_step ]. }
      congruence. }
    assert (Hgrp5 : has_col (group_var s5) (df s5) = true \/ groupable_vars s5 <> []).
    { rewrite (Hpre _ group_var), (Hpre _ df), (Hpre _ groupable_vars);
        [exact Hgrp | reflexivity..]. }
    destruct (step_groups_Ok L s5 s6 go_on H6 Hgrp5) as [-> Hhas].
    apply bind_Ok_inv in Hrun. destruct Hrun as (u7 & s7 & H7 & Hrun).
    apply bind_Ok_inv in Hrun. destruct Hrun as (u8 & s8 & H8 & Hrun).
    apply bind_Ok_inv in Hrun. destruct Hrun as (u9 & s9 & H9 & Hrun).
    apply bind_Ok_inv in Hrun. destruct Hrun as (u10 & s10 & H10 & Hrun).
    assert (E7 : df s7 = df s6).
    { eapply keeps_fst; [|exact H7]. unfold step_risk. keeps_tac. }
    assert (E8 : df s8 = df s7).
    { eapply keeps_fst; [|exact H8]. unfold step_load. keeps_tac. }
    assert (E9 : df s9 = df s8).
    { eapply keeps_fst; [|exact H9]. unfold step_card. keeps_tac. }
    destruct (step_details_spec L (Z.to_nat idx) s9) as (s10' & Hd & E10 & Htext).
    rewrite Hd in H10. injection H10 as <-.
    assert (E11 : df s' = df s10').
    { eapply keeps_fst; [|exact Hrun]. unfold step_report, report_insert. keeps_tac. }
    assert (T11 : details_text (widgets s') = details_text (widgets s10')).
    { eapply (keeps_fst (fun x => details_text (widgets x))); [|exact Hrun].
      unfold step_report, report_insert. keeps_tac. }
    assert (Edf : df s' = df s9) by congruence.
    assert (Edf6 : df s' = df s6) by congruence.
    split; [now rewrite Edf6|].
    intros full_row Hrow.
    pose proof (iloc_to_dict_keys _ _ _ Hrow) as Hkeys.
    split; [exact Hkeys|]. split.
    + rewrite Hkeys. apply has_col_In. now rewrite Edf6.
    + rewrite T11, Edf. apply Htext. now rewrite <- Edf.
Qed.

Lemma callbacks_and_dataset_witness :
  has_col GROUP_COL (df (fst (update_dashboard Demo.lib Demo.session))) = true.
Proof.
  destruct (update_dashboard Demo.lib Demo.session) as [s' r] eqn:E.
  assert (Hr : r = Ok tt).
  { change r with (snd (s', r)). rewrite <- E. vm_compute. reflexivity. }
  subst r.
  refine (proj1 (proj2 (proj2 (callbacks_and_dataset Demo.lib))
                   Demo.session s' 0%Z E eq_refl _ (or_introl eq_refl))).
  cbn. lia.
Defined.

(** C2, as stated, fails: after the first recompute of a session started
    from a three-row table, the shared frame carries the [_group] column and
    the detail panel shows it among the data of the selected record. *)
Lemma detail_panel_shows_group_column :
  snd (update_dashboard Demo.lib Demo.session) = Ok tt /\
  columns (df (fst (update_dashboard Demo.lib Demo.session))) =
    (columns Demo.frame ++ ["_group"])%list /\
  details_text (widgets (fst (update_dashboard Demo.lib Demo.session))) =
    String.concat nl
      [ "Повні дані елемента:";
        "  ід: 1";
        "  тривалість: 30";
        "  подія: True";
        "  навантаження_мвт: 3000";
        "  потужність_мвт: 5000";
        "  завантаженість: 0.6";
        "  температура_с: -5";
        "  вітер_м_с: 3";
        "  свято: 0";
        "  вік_років: 5";
        "  назва: Елемент-1";
        "  тип: Лінія";
        "  _group: 3000";
        EmptyString ] /\
  String.index 0 "_group"
    (details_text (widgets (fst (update_dashboard Demo.lib Demo.session)))) <> None.
Proof.
  repeat split; try (vm_compute; reflexivity).
  vm_compute. discriminate.
Qed.

(** ** The recompute returns when the libraries do *)

Lemma select_cols_total (d : DataFrame) (cs : list string) :
  (forall c, In c cs -> has_col c d = true) -> exists x, select_cols d cs = Ok x.
Proof.
  intro H. unfold select_cols.
  assert (E : exists l, rmap (fun c => (s <- getitem d c ;; Ok (c, s))%res) cs = Ok l).
  { induction cs as [|c cs IH]; cbn; [eauto|].
    destruct (proj1 (lookup_col_Some_In c (cols d))) as [s Hs].
    { apply has_col_In, H. now left. }
    unfold getitem at 1. rewrite Hs. cbn [rbind].
    destruct IH as [l Hl]; [intros; apply H; now right|].
    rewrite Hl. cbn [rbind]. eauto. }
  destruct E as [l ->]. cbn [rbind]. eauto.
Qed.

Lemma has_col_getitem (d : DataFrame) (c : string) :
  has_col c d = true -> exists s, getitem d c = Ok s.
Proof.
  intro H. apply has_col_In, lookup_col_Some_In in H. destruct H as [s Hs].
  exists s. now apply getitem_Some.
Qed.

Lemma has_col_iloc_rows (d r : DataFrame) (i : nat) (c : string) :
  iloc_rows d i = Ok r -> has_col c d = true -> has_col c r = true.
Proof.
  intros Hr Hc. destruct (has_col_getitem _ _ Hc) as [s Hs].
  apply (proj2 (iloc_rows_Ok _ _ _ Hr)) in Hs.
  apply has_col_In, lookup_col_Some_In. eexists. apply getitem_Some. exact Hs.
Qed.

Lemma bind_run {A B} (m : M A) (k : A -> M B) (s s1 : Session) (a : A) :
  m s = (s1, Ok a) -> bind m k s = k a s1.
Proof. intro H. unfold bind. now rewrite H. Qed.

Lemma try_except_returns (m h : M unit) (s : Session) :
  (forall s0, snd (h s0) = Ok tt) -> snd (try_except m h s) = Ok tt.
Proof.
  intro H. unfold try_except. destruct (m s) as [s1 [[]|e]]; [reflexivity | apply H].
Qed.

Lemma forM_returns {A} (l : list A) (f : A -> M unit) (s : Session) :
  (forall x s0, snd (f x s0) = Ok tt) -> snd (forM_ l f s) = Ok tt.
Proof.
  intro H. revert s. induction l as [|x l IH]; intro s; cbn; [reflexivity|].
  unfold bind. specialize (H x s). destruct (f x s) as [s1 [[]|e]]; cbn in H.
  - apply IH.
  - discriminate.
Qed.

Section Returns.
Variable L : Library.
Hypothesis HL : library_returns L.

Lemma step_survival_returns (idx : Z) (row : DataFrame) (s : Session) :
  model_returns (cph s) -> snd (step_survival L idx row s) = Ok tt.
Proof.
  intros (H & _ & _). specialize (H row).
  unfold step_survival, on_ax_surv. run.
  destruct (predict_survival_function (cph s) row) as [surv|e]; [|discriminate].
  run. unfold bind at 1, try_except.
  destruct (median_survival_time surv); run; reflexivity.
Qed.

Lemma step_hazard_ratios_returns (s : Session) :
  exists summary, snd (step_hazard_ratios s) = Ok summary.
Proof.
  unfold step_hazard_ratios, on_ax_hr. run. cbn [cph set_plots].
  destruct (summary (cph s)); run; eexists; reflexivity.
Qed.

Lemma step_cumulative_hazard_returns (idx : Z) (row : DataFrame) (s : Session) :
  model_returns (cph s) -> snd (step_cumulative_hazard idx row s) = Ok tt.
Proof.
  intros (_ & H & _). specialize (H row).
  unfold step_cumulative_hazard, on_ax_ch. run.
  destruct (predict_cumulative_hazard (cph s) row) as [ch|e]; [|discriminate].
  run. reflexivity.
Qed.

Lemma step_risk_returns (row : DataFrame) (s : Session) :
  model_returns (cph s) -> snd (step_risk row s) = Ok tt.
Proof.
  intros (_ & _ & H). specialize (H row).
  unfold step_risk. run.
  destruct (predict_partial_hazard (cph s) row) as [x|e]; [|discriminate].
  run. reflexivity.
Qed.

Lemma step_report_returns (idx : Z) (summary : list SummaryRow) (s : Session) :
  snd (step_report L idx summary s) = Ok tt.
Proof.
  unfold step_report. run. destruct summary as [|r rs]; [reflexivity|].
  unfold report_insert at 1. run. unfold bind at 1.
  match goal with
  | |- context [forM_ ?l ?f ?s0] =>
      pose proof (forM_returns l f s0 (fun x s1 => eq_refl)) as Hf;
      destruct (forM_ l f s0) as [s2 [[]|e]]; cbn in Hf; [|discriminate]
  end.
  unfold report_insert. run. reflexivity.
Qed.

Lemma group_curves_returns (d : DataFrame) (var : string) :
  has_col var d = true ->
  has_col DURATION_COL d = true -> has_col EVENT_COL d = true ->
  exists r, group_curves L d var = Ok r.
Proof.
  intros Hv Hd He. destruct HL as (Hq & Hk & _).
  destruct (has_col_getitem _ _ Hv) as [col Hcol].
  destruct (has_col_getitem _ _ Hd) as [dur Hdur].
  destruct (has_col_getitem _ _ He) as [ev Hev].
  unfold group_curves, group_series. rewrite Hcol. cbn [rbind].
  assert (Hfit : forall g, exists lines,
             rmap (fit_group L d g var) (group_labels g) = Ok lines).
  { intro g. induction (group_labels g) as [|v vals IH]; cbn; [eauto|].
    unfold fit_group at 1. rewrite Hdur, Hev. cbn [rbind].
    specialize (Hk (series_mask (group_mask g v) dur) (series_mask (group_mask g v) ev)).
    destruct (km_fit L _ _) as [km|e]; [|discriminate]. cbn [rbind].
    destruct IH as [lines ->]. cbn [rbind]. eauto. }
  destruct (is_numeric_dtype col && Nat.ltb 3 (nunique col)).
  - specialize (Hq col 3%nat GROUP_LABELS).
    destruct (qcut_drop L col 3 GROUP_LABELS) as [labels|e]; [|discriminate].
    cbn [rbind]. destruct (Hfit (SCat GROUP_LABELS labels)) as [lines ->].
    cbn [rbind]. eauto.
  - cbn [rbind]. destruct (Hfit (astype_str L col)) as [lines ->]. cbn [rbind]. eauto.
Qed.

Lemma step_groups_returns (s : Session) :
  session_ready s -> exists go_on, snd (step_groups L s) = Ok go_on.
Proof.
  intros (_ & Hcols & Hgv).
  assert (Hd : has_col DURATION_COL (df s) = true) by (apply Hcols; cbn; auto).
  assert (He : has_col EVENT_COL (df s) = true) by (apply Hcols; cbn; auto).
  assert (Hpresent : forall s0, df s0 = df s -> has_col (group_var s0) (df s0) = true ->
                                exists go_on, snd (step_groups L s0) = Ok go_on).
  { intros s0 Hdf Hv.
    pose proof (step_groups_run L s0 (group_var s0) eq_refl Hv) as Hrun.
    rewrite Hdf in Hv.
    destruct (group_curves_returns (df s) (group_var s0) Hv Hd He) as [[g lines] Hgc].
    unfold group_curves in Hgc. rewrite Hdf in Hrun.
    destruct (group_series L (df s) (group_var s0)) as [g0|e]; cbn [rbind] in Hgc;
      [|discriminate].
    destruct (rmap _ (group_labels g0)) as [lines0|e]; cbn [rbind] in Hgc; [|discriminate].
    exists true. now rewrite Hrun. }
  destruct (has_col (group_var s) (df s)) eqn:Hv; [now apply Hpresent|].
  destruct (groupable_vars s) as [|v0 gv] eqn:Egv.
  - exists false. unfold step_groups, on_ax_groups. run.
    unfold bind at 1, choose_group_var. run. cbn [group_var df set_plots].
    rewrite Hv. run. cbn [groupable_vars set_plots]. rewrite Egv.
    unfold on_ax_groups. run. reflexivity.
  - assert (E : step_groups L s = step_groups L (set_group_var v0 s)).
    { assert (Hv0 : has_col v0 (df s) = true) by (apply Hgv; now left).
      unfold step_groups, on_ax_groups. rewrite !bind_modify_plots.
      rewrite (bind_run _ _ _ _ _
                 (choose_group_var_present (set_plots _ (set_group_var v0 s)) Hv0)).
      match goal with
      | |- bind choose_group_var _ ?s0 = _ =>
          assert (Hch : choose_group_var s0 = (set_group_var v0 s0, Ok (Some v0)))
      end.
      { unfold choose_group_var. run. cbn [group_var df set_plots]. rewrite Hv. run.
        cbn [groupable_vars set_plots]. rewrite Egv. run. reflexivity. }
      rewrite (bind_run _ _ _ _ _ Hch). reflexivity. }
    rewrite E. apply Hpresent; [reflexivity|]. apply Hgv. now left.
Qed.

Lemma update_views_returns (idx : Z) (s : Session) :
  session_ready s -> snd (update_views L idx s) = Ok tt.
Proof.
  intros Hready. pose proof Hready as (Hmodel & Hcols & Hgv).
  unfold update_views. rewrite bind_gets.
  destruct ((idx <? 0)%Z || (Z.of_nat (nrows (df s)) <=? idx)%Z) eqn:Hc; [reflexivity|].
  cbv zeta.
  apply orb_false_iff in Hc. destruct Hc as [Hc1 Hc2].
  apply Z.ltb_ge in Hc1. apply Z.leb_gt in Hc2.
  assert (Hrow : exists row,
             (r <- iloc_rows (df s) (Z.to_nat idx) ;; select_cols r FEATURE_COLUMNS)%res
             = Ok row).
  { destruct (iloc_rows (df s) (Z.to_nat idx)) as [r|e] eqn:Er.
    - cbn [rbind]. apply select_cols_total. intros c Hin.
      apply (has_col_iloc_rows _ _ _ _ Er). apply Hcols. cbn. cbn in Hin. tauto.
    - unfold iloc_rows in Er.
      assert (Hlt : Nat.ltb (Z.to_nat idx) (nrows (df s)) = true)
        by (apply Nat.ltb_lt; lia).
      rewrite Hlt in Er. discriminate. }
  destruct Hrow as [row ->]. rewrite bind_lift_Ok.
  unfold bind at 1.
  destruct (sync_id_var L (Z.to_nat idx) s) as [s2 r2] eqn:E2.
  assert (r2 = Ok tt) as ->.
  { change r2 with (snd (s2, r2)). rewrite <- E2. unfold sync_id_var.
    now apply try_except_returns. }
  assert (K2 : forall {B} (proj : Session -> B),
             (forall x v, proj (set_id_var v x) = proj x) -> proj s2 = proj s).
  { intros B proj Hp. eapply keeps_fst; [|exact E2]. unfold sync_id_var.
    repeat first [ apply keeps_modify; intro; apply Hp | keeps_step ]. }
  unfold bind at 1.
  destruct (step_survival L idx row s2) as [s3 r3] eqn:E3.
  assert (r3 = Ok tt) as ->.
  { change r3 with (snd (s3, r3)). rewrite <- E3. apply step_survival_returns.
    now rewrite (K2 _ cph). }
  assert (K3 : forall {B} (proj : Session -> B),
             (forall x p, proj (set_plots p x) = proj x) -> proj s3 = proj s2).
  { intros B proj Hp. eapply keeps_fst; [|exact E3]. unfold step_survival, on_ax_surv.
    repeat first [ apply keeps_modify_plots; exact Hp | keeps_step ]. }
  unfold bind at 1.
  destruct (step_hazard_ratios s3) as [s4 r4] eqn:E4.
  destruct (step_hazard_ratios_returns s3) as [summary H4].
  rewrite E4 in H4. cbn in H4. subst r4.
  assert (K4 : forall {B} (proj : Session -> B),
             (forall x p, proj (set_plots p x) = proj x) -> proj s4 = proj s3).
  { intros B proj Hp. eapply keeps_fst; [|exact E4]. unfold step_hazard_ratios, on_ax_hr.
    repeat first [ apply keeps_modify_plots; exact Hp | keeps_step ]. }
  unfold bind at 1.
  destruct (step_cumulative_hazard idx row s4) as [s5 r5] eqn:E5.
  assert (r5 = Ok tt) as ->.
  { change r5 with (snd (s5, r5)). rewrite <- E5. apply step_cumulative_hazard_returns.
    now rewrite (K4 _ cph), (K3 _ cph), (K2 _ cph). }
  assert (K5 : forall {B} (proj : Session -> B),
             (forall x p, proj (set_plots p x) = proj x) -> proj s5 = proj s4).
  { intros B proj Hp. eapply keeps_fst; [|exact E5].
    unfold step_cumulative_hazard, on_ax_ch.
    repeat first [ apply keeps_modify_plots; exact Hp | keeps_step ]. }
  assert (Hready5 : session_ready s5).
  { unfold session_ready.
    rewrite (K5 _ cph), (K4 _ cph), (K3 _ cph), (K2 _ cph),
            (K5 _ df), (K4 _ df), (K3 _ df), (K2 _ df),
            (K5 _ groupable_vars), (K4 _ groupable_vars), (K3 _ groupable_vars),
            (K2 _ groupable_vars); auto. }
  unfold bind at 1.
  destruct (step_groups L s5) as [s6 r6] eqn:E6.
  destruct (step_groups_returns s5 Hready5) as [go_on H6].
  rewrite E6 in H6. cbn in H6. subst r6.
  destruct go_on; [|reflexivity].
  assert (K6 : cph s6 = cph s5).
  { eapply keeps_fst; [|exact E6].
    unfold step_groups, choose_group_var, plot_group, on_ax_groups. keeps_tac. }
  unfold bind at 1.
  destruct (step_risk row s6) as [s7 r7] eqn:E7.
  assert (r7 = Ok tt) as ->.
  { change r7 with (snd (s7, r7)). rewrite <- E7. apply step_risk_returns.
    rewrite K6. apply Hready5. }
  unfold bind at 1.
  destruct (step_load L row s7) as [s8 r8] eqn:E8.
  assert (r8 = Ok tt) as ->.
  { change r8 with (snd (s8, r8)). rewrite <- E8. unfold step_load.
    now apply try_except_returns. }
  unfold bind at 1.
  destruct (step_card L (Z.to_nat idx) row s8) as [s9 r9] eqn:E9.
  assert (r9 = Ok tt) as ->.
  { change r9 with (snd (s9, r9)). rewrite <- E9. unfold step_card.
    now apply try_except_returns. }
  unfold bind at 1.
  destruct (step_details_spec L (Z.to_nat idx) s9) as (s10 & -> & _).
  apply step_report_returns.
Qed.

Lemma update_dashboard_returns (s : Session) :
  session_ready s -> snd (update_dashboard L s) = Ok tt.
Proof.
  intro Hready. unfold update_dashboard, bind.
  destruct (obj_var s) as [z|t] eqn:Eo.
  - rewrite (read_index_IntVal s z Eo). now apply update_views_returns.
  - rewrite (read_index_IntText s t Eo). now apply update_views_returns.
Qed.

End Returns.

(** ** A selection that is not a number *)

(** C10. When the selection control holds text that is not an integer,
    reading the index does not raise: the index is taken as 0 and 0 is written
    back to the control before anything else happens, so the whole recompute
    is the recompute of a session whose control holds 0, and the control still
    holds 0 when it ends. *)
Theorem update_dashboard_invalid_selection (L : Library) (s : Session) (t : string) :
  read_index (set_obj_var (IntText t) s) = (set_obj_var (IntVal 0) s, Ok 0%Z) /\
  update_dashboard L (set_obj_var (IntText t) s) =
    update_dashboard L (set_obj_var (IntVal 0) s) /\
  obj_var (fst (update_dashboard L (set_obj_var (IntText t) s))) = IntVal 0 /\
  (library_returns L -> session_ready s ->
     snd (update_dashboard L (set_obj_var (IntText t) s)) = Ok tt).
Proof.
  assert (E1 : read_index (set_obj_var (IntText t) s) = (set_obj_var (IntVal 0) s, Ok 0%Z)).
  { now rewrite (read_index_IntText _ t). }
  assert (E2 : read_index (set_obj_var (IntVal 0) s) = (set_obj_var (IntVal 0) s, Ok 0%Z)).
  { now apply read_index_IntVal. }
  split; [exact E1|].
  split; [unfold update_dashboard, bind; now rewrite E1, E2|].
  split.
  - unfold update_dashboard, bind. rewrite E1.
    apply (update_views_keeps_obj_var L 0%Z (set_obj_var (IntVal 0) s)).
  - intros HL Hready. apply (update_dashboard_returns L HL). exact Hready.
Qed.

Lemma demo_library_returns : library_returns Demo.lib.
Proof.
  split; [intros; reflexivity|]. split; [intros; reflexivity|].
  intros d a b c H. injection H as <-.
  split; [intros; reflexivity|]. split; [intros; reflexivity|].
  intro row. cbn. destruct (getitem row LOAD_COL) as [s|e]; [|reflexivity].
  destruct (series_floats s); reflexivity.
Qed.

Lemma demo_session_ready : session_ready Demo.session.
Proof.
  split; [apply (proj2 (proj2 demo_library_returns) Demo.frame DURATION_COL EVENT_COL);
          reflexivity|].
  split.
  - intros c Hin. cbn in Hin.
    repeat (destruct Hin as [<-|Hin]; [vm_compute; reflexivity|]). destruct Hin.
  - intros v Hin. vm_compute in Hin.
    repeat (destruct Hin as [<-|Hin]; [vm_compute; reflexivity|]). destruct Hin.
Qed.

Lemma update_dashboard_invalid_selection_witness :
  snd (update_dashboard Demo.lib (set_obj_var (IntText "abc") Demo.session)) = Ok tt.
Proof.
  apply (proj2 (proj2 (proj2
           (update_dashboard_invalid_selection Demo.lib Demo.session "abc")))).
  - exact demo_library_returns.
  - exact demo_session_ready.
Defined.


(** ** Start-up: loading or falling back *)

Lemma generate_random_data_nrows (g : Rng) (n : nat) :
  nrows (generate_random_data g n) = n.
Proof. reflexivity. Qed.

Lemma generate_random_data_columns (g : Rng) (n : nat) :
  columns (generate_random_data g n) =
  ([ID_COL; DURATION_COL; EVENT_COL] ++ FEATURE_COLUMNS ++ [NAME_COL; TYPE_COL])%list.
Proof. reflexivity. Qed.

Lemma generate_random_data_wf (g : Rng) (n : nat) : wf_df (generate_random_data g n).
Proof.
  split.
  - cbn. repeat constructor; cbn; unfold series_len; cbn;
      now rewrite ?length_map, ?length_seq.
  - rewrite generate_random_data_columns. cbn.
    repeat constructor; cbn; intuition discriminate.
Qed.

Lemma run_dashboard_backfill_synthetic (L : Library) (g : Rng) (n : nat) :
  run_dashboard_backfill L (generate_random_data g n) = Ok (generate_random_data g n).
Proof. reflexivity. Qed.

Lemma update_views_in_range_keeps_dialogs (L : Library) (idx : Z) (s : Session) :
  (0 <= idx < Z.of_nat (nrows (df s)))%Z ->
  dialogs (fst (update_views L idx s)) = dialogs s.
Proof.
  intro Hidx. unfold update_views. rewrite bind_gets.
  assert (Hc : ((idx <? 0)%Z || (Z.of_nat (nrows (df s)) <=? idx)%Z) = false).
  { apply orb_false_iff. split; [apply Z.ltb_ge | apply Z.leb_gt]; lia. }
  rewrite Hc. cbv zeta.
  match goal with
  | |- dialogs (fst (?m s)) = _ =>
      assert (Hk : keeps dialogs m) by (unfold_steps; keeps_tac); apply Hk
  end.
Qed.




(** ** The views and the functions behind them *)

Lemma step_survival_median_line (L : Library) (idx : Z) (row : DataFrame) (s : Session)
    (surv : Curve) :
  predict_survival_function (cph s) row = Ok surv ->
  ax_vlines (ax_surv (plots (fst (step_survival L idx row s)))) =
  match median_survival_time surv with
  | Some t50 => [(t50, "Медіана ≈ " ++ py_format_f L 0 t50)]
  | None => []
  end.
Proof.
  intro H. unfold step_survival, on_ax_surv. run. rewrite H. run.
  unfold bind at 1, try_except.
  destruct (median_survival_time surv) as [t50|]; run; reflexivity.
Qed.

Lemma step_risk_label (row : DataFrame) (s : Session) (risk_score : Q) :
  predict_partial_hazard (cph s) row = Ok risk_score ->
  risk_label (widgets (fst (step_risk row s))) = risk_text (risk_bucket risk_score).
Proof.
  intro H. unfold step_risk. run. rewrite H. run. reflexivity.
Qed.

(** ** Sample runs *)

Example run_dashboard_from_table :
  match run_dashboard Demo.lib (Ok Demo.csv_frame) Demo.rng with
  | Ok s =>
      dialogs s = [] /\
      risk_label (widgets s) = ("🟢 Низьке навантаження", "green") /\
      load_val_label (widgets s) = "3000 МВт  (0%)" /\
      ax_vlines (ax_surv (plots s)) = [(100, "Медіана ≈ 100")]
  | Raise _ => False
  end.
Proof. vm_compute. repeat split. Qed.

Example run_dashboard_without_file :
  match run_dashboard Demo.lib (Raise (mkExc OSError "No such file or directory")) Demo.rng with
  | Ok s =>
      nrows (df s) = 120%nat /\
      source_label s = "випадкові дані" /\
      dialogs s = [fallback_warning (mkExc OSError "No such file or directory")]
  | Raise _ => False
  end.
Proof. vm_compute. repeat split. Qed.

Example regenerate_then_select :
  let s1 := fst (regenerate_data Demo.lib Demo.rng Demo.session) in
  nrows (df s1) = 150%nat /\ obj_var s1 = IntVal 0 /\
  spin_to (widgets s1) = 149%Z.
Proof. vm_compute. repeat split. Qed.

(* ================================================================== *)
(** * Further properties of the code *)
(* ================================================================== *)

(** ** Lists of fallible results, and frames under assignment *)

Lemma rmap_length {A B} (f : A -> result B) (l : list A) (l' : list B) :
  rmap f l = Ok l' -> length l' = length l.
Proof.
  revert l'. induction l as [|x l IH]; cbn; intros l' H.
  - now injection H as <-.
  - destruct (f x) as [y|e]; cbn in H; [|discriminate].
    destruct (rmap f l) as [ys|e]; cbn in H; [|discriminate].
    injection H as <-. cbn. now rewrite (IH ys).
Qed.

Lemma rmap_total {A B} (f : A -> result B) (l : list A) :
  (forall x, In x l -> exists y, f x = Ok y) -> exists l', rmap f l = Ok l'.
Proof.
  induction l as [|x l IH]; cbn; intro H; [eauto|].
  destruct (H x (or_introl eq_refl)) as [y ->]. cbn [rbind].
  destruct IH as [ys ->]; [intros; apply H; now right|]. cbn [rbind]. eauto.
Qed.

Lemma rmap_nth {A B} (f : A -> result B) (l : list A) (l' : list B) (i : nat) (x : A) :
  rmap f l = Ok l' -> nth_error l i = Some x ->
  exists y, f x = Ok y /\ nth_error l' i = Some y.
Proof.
  revert l' i. induction l as [|a l IH]; cbn; intros l' i H Hi.
  - now destruct i.
  - destruct (f a) as [y|e] eqn:Ea; cbn in H; [|discriminate].
    destruct (rmap f l) as [ys|e]; cbn in H; [|discriminate].
    injection H as <-. destruct i as [|i]; cbn in Hi.
    + injection Hi as <-. eauto.
    + destruct (IH ys i eq_refl Hi) as (z & Hz & Hn). eauto.
Qed.

Lemma store_col_lengths (n : nat) (c : string) (s : Series) (l : list (string * Series)) :
  Forall (fun cs => series_len (snd cs) = n) l -> series_len s = n ->
  Forall (fun cs => series_len (snd cs) = n) (store_col c s l).
Proof.
  intros Hl Hs. induction l as [|[k s0] l IH]; cbn.
  - constructor; [exact Hs | constructor].
  - apply Forall_cons_iff in Hl. destruct Hl as [H0 Hl].
    destruct (String.eqb c k); constructor; auto.
Qed.

Lemma existsb_eqb_In (c : string) (l : list string) :
  existsb (String.eqb c) l = true <-> In c l.
Proof.
  rewrite existsb_exists. split.
  - intros (k & Hk & E). apply String.eqb_eq in E. now subst.
  - intro H. exists c. split; [exact H | apply String.eqb_refl].
Qed.

Lemma setitem_wf (d : DataFrame) (c : string) (s : Series) :
  wf_df d -> series_len s = nrows d -> wf_df (setitem d c s).
Proof.
  intros [Hl Hn] Hs. split.
  - cbn. now apply store_col_lengths.
  - unfold columns, setitem; cbn [cols]. rewrite columns_store_col.
    destruct (existsb (String.eqb c) (map fst (cols d))) eqn:E; [exact Hn|].
    apply NoDup_app; [exact Hn | repeat constructor; intros [] |].
    intros x Hx [<-|[]].
    apply existsb_eqb_In in Hx. unfold columns in *. congruence.
Qed.

Lemma columns_setitem (d : DataFrame) (c : string) (s : Series) :
  columns (setitem d c s) =
  if has_col c d then columns d else (columns d ++ [c])%list.
Proof. unfold columns, setitem, has_col; cbn [cols]. apply columns_store_col. Qed.

Lemma has_col_setitem (d : DataFrame) (c c' : string) (s : Series) :
  has_col c' (setitem d c s) = has_col c' d || String.eqb c' c.
Proof.
  destruct (String.eqb c' c) eqn:E.
  - apply String.eqb_eq in E. subst. rewrite has_col_setitem_same. now rewrite orb_true_r.
  - rewrite orb_false_r. apply String.eqb_neq in E.
    destruct (has_col c' d) eqn:Hc.
    + apply has_col_In, lookup_col_Some_In. apply has_col_In, lookup_col_Some_In in Hc.
      destruct Hc as [s0 Hs0]. exists s0. cbn. rewrite lookup_store_other; auto.
    + apply has_col_false. apply has_col_false in Hc. intro H. apply Hc.
      apply lookup_col_Some_In in H. destruct H as [s0 Hs0]. cbn in Hs0.
      rewrite lookup_store_other in Hs0 by auto.
      apply lookup_col_Some_In. eauto.
Qed.

Lemma iloc_to_dict_total (d : DataFrame) (i : nat) :
  wf_df d -> (i < nrows d)%nat -> exists r, iloc_to_dict d i = Ok r.
Proof.
  intros [Hl _] Hi. unfold iloc_to_dict.
  apply Nat.ltb_lt in Hi. rewrite Hi. apply rmap_total.
  intros [k s] Hin. rewrite Forall_forall in Hl. specialize (Hl _ Hin). cbn in *.
  unfold series_nth. destruct (nth_error (series_cells s) i) as [v|] eqn:E.
  - cbn. eauto.
  - apply nth_error_None in E. unfold series_len in Hl. apply Nat.ltb_lt in Hi. lia.
Qed.

(** ** Synthetic data *)

Lemma nth_error_map_seq {A} (f : nat -> A) (a n i : nat) :
  (i < n)%nat -> nth_error (map f (seq a n)) i = Some (f (a + i)%nat).
Proof.
  intro H. rewrite nth_error_map, nth_error_seq.
  destruct (Nat.ltb i n) eqn:E; [reflexivity|]. apply Nat.ltb_ge in E. lia.
Qed.

(** X1. Whatever the generator draws, the synthetic frame of [n] records is
    well formed, has the identifier, duration, event, seven covariate, name
    and type columns in that order, passes the column check, and, its event
    column being integer, reaches the fitter unconverted as a frame of the
    nine fitted columns and [n] rows. *)
Theorem generate_random_data_schema (L : Library) (g : Rng) (n : nat) :
  nrows (generate_random_data g n) = n /\
  wf_df (generate_random_data g n) /\
  columns (generate_random_data g n) =
    ([ID_COL; DURATION_COL; EVENT_COL] ++ FEATURE_COLUMNS ++ [NAME_COL; TYPE_COL])%list /\
  ensure_columns L (generate_random_data g n) fit_columns = Ok tt /\
  exists x, fit_frame L (generate_random_data g n) = Ok x /\
            select_cols (generate_random_data g n) fit_columns = Ok x /\
            columns x = fit_columns /\ nrows x = n.
Proof.
  split; [reflexivity|]. split; [apply generate_random_data_wf|].
  split; [reflexivity|]. split; [reflexivity|].
  eexists. split; [reflexivity|]. split; [reflexivity|]. split; reflexivity.
Qed.

(** X2. Row [i] of the synthetic frame carries identifier [i+1], the name
    built from that identifier, the draws of position [i], and the type read
    off the power drawn for that same row. *)
Theorem generate_random_data_row (g : Rng) (n i : nat) (Hi : (i < n)%nat) :
  iloc_to_dict (generate_random_data g n) i =
  Ok [ (ID_COL, VInt (Z.of_nat (S i)));
       (DURATION_COL, VInt (integers g 0 10 200 i));
       (EVENT_COL, VInt (integers g 1 0 2 i));
       ("навантаження_мвт", VFloat (uniform g 2 3000 6000 i));
       ("потужність_мвт", VFloat (uniform g 3 4000 7000 i));
       ("завантаженість", VFloat (uniform g 4 (5 # 10) (9 # 10) i));
       ("температура_с", VFloat (uniform g 5 (-20) 35 i));
       ("вітер_м_с", VFloat (uniform g 6 0 15 i));
       ("свято", VInt (integers g 7 0 2 i));
       ("вік_років", VInt (integers g 8 1 50 i));
       (NAME_COL, VStr ("Елемент-" ++ string_of_Z (Z.of_nat (S i))));
       (TYPE_COL, VStr (infer_type_by_power (uniform g 3 4000 7000 i))) ].
Proof.
  unfold iloc_to_dict. rewrite generate_random_data_nrows.
  apply Nat.ltb_lt in Hi. rewrite Hi. apply Nat.ltb_lt in Hi.
  unfold generate_random_data, setitem, rng_integers, rng_uniform, series_floats.
  cbn [cols nrows store_col String.eqb Ascii.eqb Bool.eqb ID_COL DURATION_COL EVENT_COL
       NAME_COL TYPE_COL].
  cbn [rmap fst snd]. unfold series_nth. cbn [series_cells].
  rewrite !map_map.
  rewrite !(nth_error_map_seq _ _ _ _ Hi). cbn [rbind Nat.add].
  reflexivity.
Qed.

Lemma generate_random_data_row_witness :
  iloc_to_dict (generate_random_data Demo.rng 5) 2 =
  Ok [ (ID_COL, VInt 3);
       (DURATION_COL, VInt (integers Demo.rng 0 10 200 2));
       (EVENT_COL, VInt (integers Demo.rng 1 0 2 2));
       ("навантаження_мвт", VFloat (uniform Demo.rng 2 3000 6000 2));
       ("потужність_мвт", VFloat (uniform Demo.rng 3 4000 7000 2));
       ("завантаженість", VFloat (uniform Demo.rng 4 (5 # 10) (9 # 10) 2));
       ("температура_с", VFloat (uniform Demo.rng 5 (-20) 35 2));
       ("вітер_м_с", VFloat (uniform Demo.rng 6 0 15 2));
       ("свято", VInt (integers Demo.rng 7 0 2 2));
       ("вік_років", VInt (integers Demo.rng 8 1 50 2));
       (NAME_COL, VStr "Елемент-3");
       (TYPE_COL, VStr (infer_type_by_power (uniform Demo.rng 3 4000 7000 2))) ].
Proof.
  apply (generate_random_data_row Demo.rng 5 2). lia.
Defined.

(** X3. The equipment type read off a power: a generator above 6000, a
    substation above 5200 and up to 6000, a line otherwise; equal powers give
    equal types. *)
Theorem infer_type_by_power_thresholds (p : Q) :
  (infer_type_by_power p = "Генератор" <-> 6000 < p) /\
  (infer_type_by_power p = "Підстанція" <-> 5200 < p /\ p <= 6000) /\
  (infer_type_by_power p = "Лінія" <-> p <= 5200) /\
  (forall q, p == q -> infer_type_by_power q = infer_type_by_power p).
Proof.
  unfold infer_type_by_power.
  destruct (Qltb 6000 p) eqn:E1; [|destruct (Qltb 5200 p) eqn:E2].
  - apply Qltb_lt in E1.
    split; [tauto|]. split; [split; [discriminate | intros [_ H]; lra]|].
    split; [split; [discriminate | intro; lra]|].
    intros q Hq. assert (E : Qltb 6000 q = true) by (apply Qltb_lt; lra). now rewrite E.
  - apply Qltb_ge in E1. apply Qltb_lt in E2.
    split; [split; [discriminate | intro; lra]|]. split; [tauto|].
    split; [split; [discriminate | intro; lra]|].
    intros q Hq. assert (Ea : Qltb 6000 q = false) by (apply Qltb_ge; lra).
    assert (Eb : Qltb 5200 q = true) by (apply Qltb_lt; lra). now rewrite Ea, Eb.
  - apply Qltb_ge in E1. apply Qltb_ge in E2.
    split; [split; [discriminate | intro; lra]|].
    split; [split; [discriminate | intros [H _]; lra]|]. split; [tauto|].
    intros q Hq. assert (Ea : Qltb 6000 q = false) by (apply Qltb_ge; lra).
    assert (Eb : Qltb 5200 q = false) by (apply Qltb_ge; lra). now rewrite Ea, Eb.
Qed.

(** ** Names and types filled in at start-up *)

Lemma NAME_COL_not_TYPE : NAME_COL <> TYPE_COL.
Proof. discriminate. Qed.

Lemma NAME_COL_not_POWER : NAME_COL <> POWER_COL.
Proof. discriminate. Qed.

Lemma default_names_Ok (L : Library) (d : DataFrame) :
  has_col ID_COL d = true ->
  exists ids, getitem d ID_COL = Ok ids /\
    default_names L d = Ok (SStr (map (fun v => "Елемент-" ++ py_str L v) (series_cells ids))).
Proof.
  intro H. destruct (has_col_getitem d ID_COL H) as [ids Hids].
  exists ids. split; [exact Hids|]. unfold default_names. now rewrite Hids.
Qed.

Lemma default_names_Raise (L : Library) (d : DataFrame) :
  has_col ID_COL d = false -> default_names L d = Raise (mkExc KeyError ID_COL).
Proof.
  intro H. unfold default_names, getitem.
  destruct (lookup_col ID_COL (cols d)) as [s|] eqn:E; [|reflexivity].
  apply has_col_false in H. exfalso. apply H. apply lookup_col_Some_In. eauto.
Qed.

Lemma series_len_SStr_map {A} (f : A -> string) (l : list A) :
  series_len (SStr (map f l)) = length l.
Proof. unfold series_len; cbn. now rewrite !length_map. Qed.

Lemma type_rows_total (L : Library) (d : DataFrame) :
  wf_df d ->
  exists ts, rmap (fun i => r <- iloc_to_dict d i ;; Ok (infer_type_row L r))%res
                  (seq 0 (nrows d)) = Ok ts /\ length ts = nrows d.
Proof.
  intro Hwf.
  destruct (rmap_total (fun i => r <- iloc_to_dict d i ;; Ok (infer_type_row L r))%res
              (seq 0 (nrows d))) as [ts Hts].
  - intros i Hi. apply in_seq in Hi.
    destruct (iloc_to_dict_total d i Hwf) as [r ->]; [lia|]. cbn. eauto.
  - exists ts. split; [exact Hts|]. apply rmap_length in Hts. now rewrite Hts, length_seq.
Qed.

(** The frame after the name step of lines 80-81. *)
Lemma backfill_names (L : Library) (d : DataFrame) :
  wf_df d -> has_col NAME_COL d = true \/ has_col ID_COL d = true ->
  exists d1,
    (if has_col NAME_COL d then Ok d
     else (names <- default_names L d ;; Ok (setitem d NAME_COL names))%res) = Ok d1 /\
    nrows d1 = nrows d /\ wf_df d1 /\ has_col NAME_COL d1 = true /\
    (forall c, has_col c d1 = has_col c d || String.eqb c NAME_COL) /\
    (forall c, c <> NAME_COL -> getitem d1 c = getitem d c) /\
    (has_col NAME_COL d = true -> d1 = d) /\
    (has_col NAME_COL d = false ->
       exists ids, getitem d ID_COL = Ok ids /\
         getitem d1 NAME_COL =
           Ok (SStr (map (fun v => "Елемент-" ++ py_str L v) (series_cells ids)))).
Proof.
  intros Hwf H. destruct (has_col NAME_COL d) eqn:En.
  - exists d. split; [reflexivity|]. split; [reflexivity|]. split; [exact Hwf|].
    split; [exact En|]. split.
    + intro c. destruct (String.eqb c NAME_COL) eqn:E; [|now rewrite orb_false_r].
      apply String.eqb_eq in E. subst. now rewrite En.
    + split; [reflexivity|]. split; [reflexivity | discriminate].
  - destruct H as [H|H]; [discriminate|].
    destruct (default_names_Ok L d H) as (ids & Hids & ->). cbn [rbind].
    eexists. split; [reflexivity|]. split; [reflexivity|]. split.
    + apply setitem_wf; [exact Hwf|]. rewrite series_len_SStr_map.
      apply (wf_df_series_len d ID_COL ids Hwf Hids).
    + split; [apply has_col_setitem_same|]. split; [intro c; apply has_col_setitem|].
      split; [intros c Hc; apply getitem_setitem_other; congruence|].
      split; [discriminate|]. intros _. exists ids. split; [exact Hids|].
      apply getitem_setitem_same.
Qed.

Lemma run_dashboard_backfill_Raise (L : Library) (d : DataFrame) :
  has_col NAME_COL d = false -> has_col ID_COL d = false ->
  run_dashboard_backfill L d = Raise (mkExc KeyError ID_COL).
Proof.
  intros Hn Hi. unfold run_dashboard_backfill. rewrite Hn.
  now rewrite (default_names_Raise L d Hi).
Qed.

Lemma run_dashboard_backfill_Ok (L : Library) (d : DataFrame) :
  wf_df d -> has_col NAME_COL d = true \/ has_col ID_COL d = true ->
  exists d', run_dashboard_backfill L d = Ok d' /\
    nrows d' = nrows d /\ wf_df d' /\
    has_col NAME_COL d' = true /\ has_col TYPE_COL d' = true /\
    (forall c, has_col c d' = true <->
               has_col c d = true \/ c = NAME_COL \/ c = TYPE_COL) /\
    (forall c, has_col c d = true -> getitem d' c = getitem d c).
Proof.
  intros Hwf H.
  destruct (backfill_names L d Hwf H)
    as (d1 & E1 & Hn1 & Hwf1 & Hname1 & Hcols1 & Hget1 & Hsame & _).
  unfold run_dashboard_backfill. rewrite E1. cbn [rbind].
  destruct (has_col TYPE_COL d1) eqn:Et.
  - exists d1. split; [reflexivity|]. split; [exact Hn1|]. split; [exact Hwf1|].
    split; [exact Hname1|]. split; [exact Et|]. split.
    + intro c. rewrite Hcols1. rewrite orb_true_iff, String.eqb_eq.
      split; [tauto|]. intros [Hc|[Hc|Hc]]; [tauto | tauto |].
      subst c. rewrite Hcols1 in Et. cbn in Et. rewrite orb_false_r in Et. now left.
    + intros c Hc. destruct (String.eqb c NAME_COL) eqn:E.
      * apply String.eqb_eq in E. subst c. now rewrite (Hsame Hc).
      * apply Hget1. now apply String.eqb_neq.
  - destruct (type_rows_total L d1 Hwf1) as (ts & -> & Hlen). cbn [rbind].
    eexists. split; [reflexivity|]. split; [exact Hn1|]. split.
    + apply setitem_wf; [exact Hwf1|]. unfold series_len; cbn.
      now rewrite length_map.
    + split; [rewrite has_col_setitem, Hname1; reflexivity|].
      split; [apply has_col_setitem_same|]. split.
      * intro c. rewrite has_col_setitem, Hcols1.
        rewrite !orb_true_iff, !String.eqb_eq. tauto.
      * intros c Hc. rewrite getitem_setitem_other.
        -- destruct (String.eqb c NAME_COL) eqn:E.
           ++ apply String.eqb_eq in E. subst c. now rewrite (Hsame Hc).
           ++ apply Hget1. now apply String.eqb_neq.
        -- intro E. subst c. rewrite Hcols1 in Et.
           apply orb_false_iff in Et. destruct Et as [Et _]. congruence.
Qed.

(** X4. Start-up fills in the name and type columns a table lacks.  On a
    well-formed table this fails in exactly one case, with [KeyError] on the
    identifier column: the table has neither names nor identifiers.  Otherwise
    the table that results has the same rows, is well formed, has both
    columns, has no other new column, and every column it had is unchanged. *)
Theorem run_dashboard_backfill_columns (L : Library) (d : DataFrame) (Hwf : wf_df d) :
  (has_col NAME_COL d = false /\ has_col ID_COL d = false <->
     exists e, run_dashboard_backfill L d = Raise e) /\
  (forall e, run_dashboard_backfill L d = Raise e -> e = mkExc KeyError ID_COL) /\
  (forall d', run_dashboard_backfill L d = Ok d' ->
     nrows d' = nrows d /\ wf_df d' /\
     has_col NAME_COL d' = true /\ has_col TYPE_COL d' = true /\
     (forall c, has_col c d' = true <->
                has_col c d = true \/ c = NAME_COL \/ c = TYPE_COL) /\
     (forall c, has_col c d = true -> getitem d' c = getitem d c)).
Proof.
  pose proof (run_dashboard_backfill_Raise L d) as Hraise.
  pose proof (run_dashboard_backfill_Ok L d Hwf) as Hok.
  split; [split|split].
  - intros [Hn Hi]. eexists. now apply Hraise.
  - intros [e He]. destruct (has_col NAME_COL d) eqn:En.
    + destruct Hok as (d' & E & _); [now left|]. congruence.
    + destruct (has_col ID_COL d) eqn:Ei; [|tauto].
      destruct Hok as (d' & E & _); [now right|]. congruence.
  - intros e He. destruct (has_col NAME_COL d) eqn:En.
    + destruct Hok as (d' & E & _); [now left|]. congruence.
    + destruct (has_col ID_COL d) eqn:Ei.
      * destruct Hok as (d' & E & _); [now right|]. congruence.
      * rewrite (Hraise eq_refl eq_refl) in He. congruence.
  - intros d' Hd'. destruct (has_col NAME_COL d) eqn:En.
    + destruct Hok as (d2 & E & H); [now left|]. rewrite E in Hd'.
      injection Hd' as <-. exact H.
    + destruct (has_col ID_COL d) eqn:Ei.
      * destruct Hok as (d2 & E & H); [now right|]. rewrite E in Hd'.
        injection Hd' as <-. exact H.
      * rewrite (Hraise eq_refl eq_refl) in Hd'. discriminate.
Qed.

Lemma run_dashboard_backfill_columns_witness :
  wf_df Demo.csv_frame /\
  forall d', run_dashboard_backfill Demo.lib Demo.csv_frame = Ok d' ->
    nrows d' = nrows Demo.csv_frame /\ wf_df d' /\
    has_col NAME_COL d' = true /\ has_col TYPE_COL d' = true /\
    (forall c, has_col c d' = true <->
               has_col c Demo.csv_frame = true \/ c = NAME_COL \/ c = TYPE_COL) /\
    (forall c, has_col c Demo.csv_frame = true -> getitem d' c = getitem Demo.csv_frame c).
Proof.
  split; [exact csv_frame_wf|].
  exact (proj2 (proj2 (run_dashboard_backfill_columns Demo.lib Demo.csv_frame csv_frame_wf))).
Defined.

Lemma iloc_to_dict_get (d : DataFrame) (i : nat) (r : list (string * Cell)) (c : string) :
  iloc_to_dict d i = Ok r ->
  dict_get c r =
  match lookup_col c (cols d) with
  | Some s => nth_error (series_cells s) i
  | None => None
  end.
Proof.
  unfold iloc_to_dict. destruct (Nat.ltb i (nrows d)); [|discriminate].
  generalize (cols d). intro l. revert r.
  induction l as [|[k s] l IH]; cbn; intros r H.
  - now injection H as <-.
  - unfold series_nth in H at 1.
    destruct (nth_error (series_cells s) i) as [v|] eqn:Ev; cbn in H; [|discriminate].
    destruct (rmap _ l) as [r0|e] eqn:Er; cbn in H; [|discriminate].
    injection H as <-. cbn. destruct (String.eqb c k); [now rewrite Ev | now apply IH].
Qed.

Lemma iloc_cell_nth (d : DataFrame) (i : nat) (c : string) (s : Series) (v : Cell) :
  (i < nrows d)%nat -> getitem d c = Ok s -> nth_error (series_cells s) i = Some v ->
  iloc_cell d i c = Ok v.
Proof.
  intros Hi Hs Hv. unfold iloc_cell. apply Nat.ltb_lt in Hi. rewrite Hi, Hs. cbn.
  unfold series_nth. now rewrite Hv.
Qed.

Lemma iloc_cell_inv (d : DataFrame) (i : nat) (c : string) (v : Cell) :
  iloc_cell d i c = Ok v ->
  (i < nrows d)%nat /\
  exists s, getitem d c = Ok s /\ nth_error (series_cells s) i = Some v.
Proof.
  unfold iloc_cell. destruct (Nat.ltb i (nrows d)) eqn:Ei; [|discriminate].
  apply Nat.ltb_lt in Ei. destruct (getitem d c) as [s|e]; cbn; [|discriminate].
  unfold series_nth. destruct (nth_error (series_cells s) i) as [w|] eqn:Ew; [|discriminate].
  intro H. injection H as <-. eauto.
Qed.

(** X5. What the filled-in columns hold.  In row [i] of a well-formed table
    the name that start-up adds is the text of that row's identifier after
    the prefix, and the type it adds is read off that row's power: by the
    thresholds when the power is a number or text that reads as one, and the
    line type when the table has no power column or the cell does not read
    as a number. *)
Theorem run_dashboard_backfill_rows (L : Library) (d d' : DataFrame) (i : nat)
    (Hwf : wf_df d)
    (Hrun : run_dashboard_backfill L d = Ok d')
    (Hi : (i < nrows d)%nat) :
  (has_col NAME_COL d = false ->
     exists v, iloc_cell d i ID_COL = Ok v /\
               iloc_cell d' i NAME_COL = Ok (VStr ("Елемент-" ++ py_str L v))) /\
  (has_col TYPE_COL d = false ->
     (forall v p, iloc_cell d i POWER_COL = Ok v -> py_float L v = Ok p ->
        iloc_cell d' i TYPE_COL = Ok (VStr (infer_type_by_power p))) /\
     (forall v e, iloc_cell d i POWER_COL = Ok v -> py_float L v = Raise e ->
        iloc_cell d' i TYPE_COL = Ok (VStr "Лінія")) /\
     (has_col POWER_COL d = false -> iloc_cell d' i TYPE_COL = Ok (VStr "Лінія"))).
Proof.
  assert (Hpres : has_col NAME_COL d = true \/ has_col ID_COL d = true).
  { destruct (has_col NAME_COL d) eqn:En; [now left|].
    destruct (has_col ID_COL d) eqn:Ei; [now right|].
    unfold run_dashboard_backfill in Hrun. rewrite En in Hrun.
    rewrite (default_names_Raise L d Ei) in Hrun. discriminate. }
  destruct (backfill_names L d Hwf Hpres)
    as (d1 & E1 & Hn1 & Hwf1 & Hname1 & Hcols1 & Hget1 & Hsame & Hnames).
  unfold run_dashboard_backfill in Hrun. rewrite E1 in Hrun. cbn [rbind] in Hrun.
  assert (Hi1 : (i < nrows d1)%nat) by now rewrite Hn1.
  split.
  - intro En. destruct (Hnames En) as (ids & Hids & Hnm).
    assert (Hlen := wf_df_series_len d ID_COL ids Hwf Hids). unfold series_len in Hlen.
    destruct (nth_error (series_cells ids) i) as [v|] eqn:Ev;
      [|apply nth_error_None in Ev; lia].
    exists v. split; [now apply (iloc_cell_nth d i ID_COL ids)|].
    assert (Hd1 : iloc_cell d1 i NAME_COL = Ok (VStr ("Елемент-" ++ py_str L v))).
    { apply (iloc_cell_nth d1 i NAME_COL _ _ Hi1 Hnm). cbn [series_cells].
      rewrite map_map, nth_error_map, Ev. reflexivity. }
    destruct (has_col TYPE_COL d1) eqn:Et.
    + now injection Hrun as <-.
    + destruct (type_rows_total L d1 Hwf1) as (ts & Ets & _).
      rewrite Ets in Hrun. cbn [rbind] in Hrun. injection Hrun as <-.
      destruct (iloc_cell_inv d1 i NAME_COL _ Hd1) as (_ & s & Hs & Hv).
      apply (iloc_cell_nth _ i NAME_COL s); [exact Hi1 | | exact Hv].
      rewrite getitem_setitem_other; [exact Hs | apply not_eq_sym, NAME_COL_not_TYPE].
  - intro Et0.
    assert (Et : has_col TYPE_COL d1 = false).
    { rewrite Hcols1, Et0. reflexivity. }
    rewrite Et in Hrun.
    destruct (type_rows_total L d1 Hwf1) as (ts & Ets & Hlen).
    rewrite Ets in Hrun. cbn [rbind] in Hrun. injection Hrun as <-.
    assert (Hseq : nth_error (seq 0 (nrows d1)) i = Some i).
    { rewrite nth_error_seq. apply Nat.ltb_lt in Hi1. now rewrite Hi1. }
    destruct (rmap_nth _ _ _ i i Ets Hseq) as (t & Ht & Hnth).
    destruct (iloc_to_dict d1 i) as [r|e] eqn:Er; cbn in Ht; [|discriminate].
    injection Ht as <-.
    assert (Hcell : iloc_cell (setitem d1 TYPE_COL (SStr ts)) i TYPE_COL
                    = Ok (VStr (infer_type_row L r))).
    { apply (iloc_cell_nth _ i TYPE_COL (SStr ts)); [exact Hi1 | apply getitem_setitem_same|].
      cbn [series_cells]. now rewrite nth_error_map, Hnth. }
    rewrite Hcell.
    assert (Hpow : dict_get POWER_COL r =
                   match lookup_col POWER_COL (cols d) with
                   | Some s => nth_error (series_cells s) i
                   | None => None
                   end).
    { rewrite (iloc_to_dict_get d1 i r POWER_COL Er).
      assert (Hg := Hget1 POWER_COL (not_eq_sym NAME_COL_not_POWER)).
      unfold getitem in Hg.
      destruct (lookup_col POWER_COL (cols d1)), (lookup_col POWER_COL (cols d));
        congruence. }
    split; [|split].
    + intros v p Hv Hp. destruct (iloc_cell_inv d i POWER_COL v Hv) as (_ & s & Hs & Hnv).
      apply getitem_Some in Hs. rewrite Hs, Hnv in Hpow.
      unfold infer_type_row. now rewrite Hpow, Hp.
    + intros v e Hv Hp. destruct (iloc_cell_inv d i POWER_COL v Hv) as (_ & s & Hs & Hnv).
      apply getitem_Some in Hs. rewrite Hs, Hnv in Hpow.
      unfold infer_type_row. now rewrite Hpow, Hp.
    + intro Hno. apply has_col_false in Hno.
      destruct (lookup_col POWER_COL (cols d)) as [s|] eqn:El.
      * exfalso. apply Hno. apply lookup_col_Some_In. eauto.
      * unfold infer_type_row. rewrite Hpow. reflexivity.
Qed.

Lemma run_dashboard_backfill_rows_witness :
  iloc_cell Demo.frame 1 NAME_COL = Ok (VStr "Елемент-2") /\
  iloc_cell Demo.frame 1 TYPE_COL = Ok (VStr "Підстанція").
Proof.
  assert (Hrun : run_dashboard_backfill Demo.lib Demo.csv_frame = Ok Demo.frame)
    by reflexivity.
  assert (Hi : (1 < nrows Demo.csv_frame)%nat) by (cbn; lia).
  destruct (run_dashboard_backfill_rows Demo.lib Demo.csv_frame Demo.frame 1
              csv_frame_wf Hrun Hi) as [Hn Ht].
  split.
  - destruct (Hn eq_refl) as (v & Hv & Hname).
    vm_compute in Hv. injection Hv as <-. exact Hname.
  - destruct (Ht eq_refl) as (Hp & _ & _).
    exact (Hp (VInt 5500) 5500 eq_refl eq_refl).
Defined.

(** ** What a recompute leaves alone *)

(** As [keeps_tac], for parts of the session that some writes do touch:
    each remaining write is checked by computation. *)
Ltac keeps_write :=
  repeat first
    [ keeps_step
    | match goal with
      | |- keeps _ (modify _) => intro; reflexivity
      | |- keeps _ (modify_widgets _) => intro; reflexivity
      | |- keeps _ (modify_plots _) => intro; reflexivity
      end ].

Lemma update_views_keeps_fixed_widgets (L : Library) (idx : Z) :
  keeps (fun s => (title (widgets s), root_title (widgets s), spin_to (widgets s),
                   id_menu_values (widgets s), group_menu_values (widgets s),
                   details_btn (widgets s), details_frame_packed (widgets s)))
        (update_views L idx).
Proof. unfold_steps. keeps_write. Qed.

Lemma update_views_keeps_nrows (L : Library) (idx : Z) :
  keeps (fun s => nrows (df s)) (update_views L idx).
Proof. unfold_steps. keeps_write. Qed.

Lemma update_views_keeps_show_details (L : Library) (idx : Z) :
  keeps show_details (update_views L idx).
Proof. unfold_steps. keeps_tac. Qed.

Lemma update_views_keeps_label (L : Library) (idx : Z) :
  keeps source_label (update_views L idx).
Proof. unfold_steps. keeps_tac. Qed.

Lemma update_views_out_of_range (L : Library) (idx : Z) (s : Session) :
  (idx < 0 \/ Z.of_nat (nrows (df s)) <= idx)%Z ->
  update_views L idx s = (set_dialogs (dialogs s ++ [index_error_dialog idx]) s, Ok tt).
Proof.
  intro H. unfold update_views. rewrite bind_gets.
  assert (E : (idx <? 0)%Z || (Z.of_nat (nrows (df s)) <=? idx)%Z = true).
  { apply orb_true_iff. destruct H; [left; now apply Z.ltb_lt | right; now apply Z.leb_le]. }
  rewrite E. reflexivity.
Qed.

(** The index a recompute works on: the number in the control, 0 when the
    control holds other text. *)
Lemma update_dashboard_as_views (L : Library) (s : Session) :
  update_dashboard L s =
  match obj_var s with
  | IntVal z => update_views L z s
  | IntText _ => update_views L 0 (set_obj_var (IntVal 0) s)
  end.
Proof.
  unfold update_dashboard, bind. destruct (obj_var s) as [z|t] eqn:E.
  - now rewrite (read_index_IntVal s z E).
  - now rewrite (read_index_IntText s t E).
Qed.

Lemma update_dashboard_frame (L : Library) (s : Session) :
  let s' := fst (update_dashboard L s) in
  let idx := match obj_var s with IntVal z => z | IntText _ => 0%Z end in
  cph s' = cph s /\ source_label s' = source_label s /\
  groupable_vars s' = groupable_vars s /\ show_details s' = show_details s /\
  nrows (df s') = nrows (df s) /\
  title (widgets s') = title (widgets s) /\
  root_title (widgets s') = root_title (widgets s) /\
  spin_to (widgets s') = spin_to (widgets s) /\
  id_menu_values (widgets s') = id_menu_values (widgets s) /\
  group_menu_values (widgets s') = group_menu_values (widgets s) /\
  details_btn (widgets s') = details_btn (widgets s) /\
  details_frame_packed (widgets s') = details_frame_packed (widgets s) /\
  obj_var s' = IntVal idx /\
  dialogs s' =
    (if (idx <? 0)%Z || (Z.of_nat (nrows (df s)) <=? idx)%Z
     then dialogs s ++ [index_error_dialog idx]
     else dialogs s)%list.
Proof.
  cbv zeta. rewrite update_dashboard_as_views.
  set (s0 := match obj_var s with
             | IntVal _ => s
             | IntText _ => set_obj_var (IntVal 0) s
             end).
  set (idx := match obj_var s with IntVal z => z | IntText _ => 0%Z end).
  assert (E : match obj_var s with
              | IntVal z => update_views L z s
              | IntText _ => update_views L 0 (set_obj_var (IntVal 0) s)
              end = update_views L idx s0).
  { subst s0 idx. now destruct (obj_var s). }
  rewrite E. clear E.
  assert (H0 : cph s0 = cph s /\ source_label s0 = source_label s /\
               groupable_vars s0 = groupable_vars s /\ show_details s0 = show_details s /\
               df s0 = df s /\ widgets s0 = widgets s /\ dialogs s0 = dialogs s /\
               obj_var s0 = IntVal idx).
  { subst s0 idx. destruct (obj_var s) eqn:Eo; cbn; repeat split; auto. }
  destruct H0 as (Hc & Hl & Hg & Hs & Hd & Hw & Hdl & Ho).
  pose proof (update_views_keeps_fixed_widgets L idx s0) as Hfix. cbv beta in Hfix.
  rewrite Hw in Hfix. injection Hfix as H1 H2 H3 H4 H5 H6 H7.
  rewrite (update_views_keeps_cph L idx s0), (update_views_keeps_label L idx s0),
          (update_views_keeps_groupable_vars L idx s0),
          (update_views_keeps_show_details L idx s0),
          (update_views_keeps_nrows L idx s0), (update_views_keeps_obj_var L idx s0).
  rewrite Hc, Hl, Hg, Hs, Hd, Ho.
  repeat (split; [solve [auto]|]).
  destruct ((idx <? 0)%Z || (Z.of_nat (nrows (df s)) <=? idx)%Z) eqn:Er.
  - rewrite update_views_out_of_range.
    + cbn. now rewrite Hdl.
    + rewrite Hd. apply orb_true_iff in Er.
      destruct Er as [Er|Er]; [left; now apply Z.ltb_lt | right; now apply Z.leb_le].
  - rewrite update_views_in_range_keeps_dialogs; [exact Hdl|].
    rewrite Hd. apply orb_false_iff in Er. destruct Er as [Er1 Er2].
    apply Z.ltb_ge in Er1. apply Z.leb_gt in Er2. lia.
Qed.

(** X6. What a recompute never does, whether it returns or raises and
    whatever the libraries answer: it does not touch the model, the source
    label, the list of grouping variables, the details toggle, the number of
    records, the headings, the upper bound of the index control, the values
    offered by the two comboboxes, or the details button and panel; the index
    control changes only from unreadable text to 0; and the only dialog it can
    open is the one error about an index outside the table, which it opens
    exactly when the index is outside. *)
Theorem update_dashboard_untouched (L : Library) (s : Session) :
  let s' := fst (update_dashboard L s) in
  let idx := match obj_var s with IntVal z => z | IntText _ => 0%Z end in
  cph s' = cph s /\ source_label s' = source_label s /\
  groupable_vars s' = groupable_vars s /\ show_details s' = show_details s /\
  nrows (df s') = nrows (df s) /\
  title (widgets s') = title (widgets s) /\
  root_title (widgets s') = root_title (widgets s) /\
  spin_to (widgets s') = spin_to (widgets s) /\
  id_menu_values (widgets s') = id_menu_values (widgets s) /\
  group_menu_values (widgets s') = group_menu_values (widgets s) /\
  details_btn (widgets s') = details_btn (widgets s) /\
  details_frame_packed (widgets s') = details_frame_packed (widgets s) /\
  obj_var s' = IntVal idx /\
  dialogs s' =
    (if (idx <? 0)%Z || (Z.of_nat (nrows (df s)) <=? idx)%Z
     then dialogs s ++ [index_error_dialog idx]
     else dialogs s)%list.
Proof. exact (update_dashboard_frame L s). Qed.

(** ** The record card *)

Lemma step_card_run (L : Library) (i : nat) (row : DataFrame) (s : Session) :
  step_card L i row s =
  (set_widgets
     (set_record_summary_label
        (match card_parts L (df s) row i with
         | Ok (p :: ps) => String.concat "  • " (p :: ps)
         | _ => "Елемент: —"
         end) (widgets s)) s,
   Ok tt).
Proof.
  unfold step_card, try_except. rewrite bind_gets.
  destruct (card_parts L (df s) row i) as [[|p ps]|e]; reflexivity.
Qed.

Lemma iloc_cell_has_col (d : DataFrame) (i : nat) (c : string) (v : Cell) :
  iloc_cell d i c = Ok v -> has_col c d = true.
Proof.
  intro H. destruct (iloc_cell_inv d i c v H) as (_ & s & Hs & _).
  apply has_col_In, lookup_col_Some_In. exists s. now apply getitem_Some.
Qed.

Lemma iloc_cell_no_col (d : DataFrame) (i : nat) (c : string) :
  has_col c d = false -> forall v, iloc_cell d i c <> Ok v.
Proof. intros H v Hv. apply iloc_cell_has_col in Hv. congruence. Qed.

Lemma row_float_cell (L : Library) (d row : DataFrame) (i : nat) (c : string) (v : Cell) :
  (r <- iloc_rows d i ;; select_cols r FEATURE_COLUMNS)%res = Ok row ->
  In c FEATURE_COLUMNS ->
  iloc_cell d i c = Ok v ->
  row_float L row c = py_float L v /\ has_col c row = true.
Proof.
  intros Hrow Hc Hv. destruct (iloc_cell_inv d i c v Hv) as (_ & col & Hcol & Hnth).
  destruct (row_float_feature L d row i c col Hrow Hc Hcol) as [_ ->].
  unfold series_nth. rewrite Hnth. split; [reflexivity|].
  destruct (iloc_rows d i) as [r|e]; [|discriminate]. cbn [rbind] in Hrow.
  destruct (select_cols_spec r row FEATURE_COLUMNS Hrow) as (Hcols & _).
  apply has_col_In. now rewrite Hcols.
Qed.

(** X7. The record card.  For a record whose name, type and the three
    displayed covariates can be read, the card lists, separated by bullets,
    the name, the type in brackets, the identifier when the table has one,
    then load and power without decimals and utilisation with two, in that
    order. *)
Theorem step_card_layout (L : Library) (s : Session) (i : nat) (row : DataFrame)
    (vn vt vl vp vu : Cell) (xl xp xu : Q)
    (Hrow : (r <- iloc_rows (df s) i ;; select_cols r FEATURE_COLUMNS)%res = Ok row)
    (Hname : iloc_cell (df s) i NAME_COL = Ok vn)
    (Htype : iloc_cell (df s) i TYPE_COL = Ok vt)
    (Hload : iloc_cell (df s) i LOAD_COL = Ok vl) (Hxl : py_float L vl = Ok xl)
    (Hpower : iloc_cell (df s) i POWER_COL = Ok vp) (Hxp : py_float L vp = Ok xp)
    (Hutil : iloc_cell (df s) i UTIL_COL = Ok vu) (Hxu : py_float L vu = Ok xu) :
  let shown := record_summary_label (widgets (fst (step_card L i row s))) in
  let tail := [ "Навантаження: " ++ py_format_f L 0 xl ++ " МВт";
                "Потужність: " ++ py_format_f L 0 xp ++ " МВт";
                "Завантаженість: " ++ py_format_f L 2 xu ] in
  snd (step_card L i row s) = Ok tt /\
  (forall vi, iloc_cell (df s) i ID_COL = Ok vi ->
     shown = String.concat "  • "
               ([py_str L vn; "(" ++ py_str L vt ++ ")"; "ID: " ++ py_str L vi] ++ tail)) /\
  (has_col ID_COL (df s) = false ->
     shown = String.concat "  • " ([py_str L vn; "(" ++ py_str L vt ++ ")"] ++ tail)).
Proof.
  cbv zeta. rewrite step_card_run. cbn [fst snd].
  split; [reflexivity|].
  assert (Fl : In LOAD_COL FEATURE_COLUMNS) by (cbn; auto).
  assert (Fp : In POWER_COL FEATURE_COLUMNS) by (cbn; auto).
  assert (Fu : In UTIL_COL FEATURE_COLUMNS) by (cbn; auto 6).
  destruct (row_float_cell L _ _ _ _ _ Hrow Fl Hload) as [Rl Cl].
  destruct (row_float_cell L _ _ _ _ _ Hrow Fp Hpower) as [Rp Cp].
  destruct (row_float_cell L _ _ _ _ _ Hrow Fu Hutil) as [Ru Cu].
  pose proof (iloc_cell_has_col _ _ _ _ Hname) as Cn.
  pose proof (iloc_cell_has_col _ _ _ _ Htype) as Ct.
  split.
  - intros vi Hid. pose proof (iloc_cell_has_col _ _ _ _ Hid) as Ci.
    unfold card_parts.
    rewrite Ci, Cn, Ct, Cl, Cp, Cu, Hid, Hname, Htype, Rl, Rp, Ru, Hxl, Hxp, Hxu.
    reflexivity.
  - intro Ci. unfold card_parts.
    rewrite Ci, Cn, Ct, Cl, Cp, Cu, Hname, Htype, Rl, Rp, Ru, Hxl, Hxp, Hxu.
    reflexivity.
Qed.

Lemma step_card_layout_witness :
  record_summary_label (widgets (fst (step_card Demo.lib 1
     (mkDF 1 (map (fun c => (c, series_at 1
                (match lookup_col c (cols Demo.frame) with Some x => x | None => SInt [] end)))
                FEATURE_COLUMNS))
     Demo.session))) =
  "Елемент-2  • (Підстанція)  • ID: 2  • Навантаження: 4000 МВт  • Потужність: 5500 МВт  • Завантаженість: 0.70".
Proof.
  refine (proj1 (proj2 (step_card_layout Demo.lib Demo.session 1 _
            (VStr "Елемент-2") (VStr "Підстанція") (VInt 4000) (VInt 5500) (VFloat (7 # 10))
            4000 5500 (7 # 10) _ _ _ _ _ _ _ _ _)) (VInt 2) _); reflexivity.
Defined.

(** ** The identifier menu and the index control *)

Lemma bind_keeps_fst {A C B} (proj : Session -> B) (m : M A) (k : A -> M C) (s : Session) :
  (forall a, keeps proj (k a)) -> proj (fst (bind m k s)) = proj (fst (m s)).
Proof.
  intro H. unfold bind. destruct (m s) as [s1 [a|e]]; [apply H | reflexivity].
Qed.

Lemma set_id_var_same (s : Session) : set_id_var (id_var s) s = s.
Proof. now destruct s. Qed.

Lemma sync_id_var_run (L : Library) (i : nat) (s : Session) :
  sync_id_var L i s =
  (set_id_var (if has_col ID_COL (df s)
               then match iloc_cell (df s) i ID_COL with
                    | Ok v => py_str L v
                    | Raise _ => id_var s
                    end
               else id_var s) s,
   Ok tt).
Proof.
  unfold sync_id_var, try_except. rewrite bind_gets.
  destruct (has_col ID_COL (df s)); cbn [when].
  - destruct (iloc_cell (df s) i ID_COL) as [v|e].
    + rewrite bind_lift_Ok, bind_gets.
      destruct (String.eqb (id_var s) (py_str L v)) eqn:E; cbn [negb when].
      * apply String.eqb_eq in E. rewrite <- E. now rewrite set_id_var_same.
      * reflexivity.
    + rewrite bind_lift_Raise. cbn. now rewrite set_id_var_same.
  - cbn. now rewrite set_id_var_same.
Qed.

Lemma update_views_id_var (L : Library) (idx : Z) (s : Session) (row : DataFrame) :
  (0 <= idx < Z.of_nat (nrows (df s)))%Z ->
  (r <- iloc_rows (df s) (Z.to_nat idx) ;; select_cols r FEATURE_COLUMNS)%res = Ok row ->
  id_var (fst (update_views L idx s)) =
  if has_col ID_COL (df s)
  then match iloc_cell (df s) (Z.to_nat idx) ID_COL with
       | Ok v => py_str L v
       | Raise _ => id_var s
       end
  else id_var s.
Proof.
  intros Hr Hrow. unfold update_views. rewrite bind_gets.
  assert (E : (idx <? 0)%Z || (Z.of_nat (nrows (df s)) <=? idx)%Z = false).
  { apply orb_false_iff. split; [apply Z.ltb_ge | apply Z.leb_gt]; lia. }
  rewrite E. cbv zeta. rewrite Hrow, bind_lift_Ok.
  rewrite bind_keeps_fst.
  - now rewrite sync_id_var_run.
  - intros _. unfold_steps. keeps_tac.
Qed.



Lemma positions_from_none (k : nat) (mask : list bool) :
  (forall b, In b mask -> b = false) -> positions_from k mask = [].
Proof.
  revert k. induction mask as [|b t IH]; intros k H; [reflexivity|]. cbn.
  rewrite (H b (or_introl eq_refl)). apply IH. intros; apply H; now right.
Qed.

Lemma positions_from_first (k : nat) (mask : list bool) (i : nat) :
  nth_error mask i = Some true ->
  exists j rest, (j <= i)%nat /\ nth_error mask j = Some true /\
    (forall j', (j' < j)%nat -> nth_error mask j' = Some false) /\
    positions_from k mask = (k + j)%nat :: rest.
Proof.
  revert k i. induction mask as [|b t IH]; intros k i H; [now destruct i|].
  destruct b.
  - exists 0%nat, (positions_from (S k) t). split; [lia|]. split; [reflexivity|].
    split; [intros; lia|]. cbn. now rewrite Nat.add_0_r.
  - destruct i as [|i]; [discriminate|]. cbn in H.
    destruct (IH (S k) i H) as (j & rest & Hj & Hn & Hb & Hp).
    exists (S j), rest. split; [lia|]. split; [exact Hn|]. split.
    + intros [|j'] Hlt; [reflexivity|]. apply Hb. lia.
    + cbn. rewrite Hp. f_equal. lia.
Qed.

Lemma set_obj_var_same (s : Session) : set_obj_var (obj_var s) s = s.
Proof. now destruct s. Qed.

Lemma on_id_change_run (L : Library) (s : Session) :
  on_id_change L s =
  (match (if has_col ID_COL (df s)
          then match getitem (df s) ID_COL with
               | Ok ids => positions_from 0
                             (map (fun v => String.eqb (py_str L v) (id_var s))
                                  (series_cells ids))
               | Raise _ => []
               end
          else []) with
   | i :: _ => set_obj_var (IntVal (Z.of_nat i)) s
   | [] => s
   end, Ok tt).
Proof.
  unfold on_id_change, try_except. rewrite !bind_gets.
  destruct (has_col ID_COL (df s)).
  - rewrite bind_assoc. destruct (getitem (df s) ID_COL) as [ids|e].
    + rewrite bind_lift_Ok, bind_ret.
      destruct (positions_from _ _); reflexivity.
    + reflexivity.
  - reflexivity.
Qed.

(** X9. Choosing an identifier in the menu never raises and touches nothing
    but the index control.  The control is set to the position of the first
    record whose identifier, as text, is the chosen one; when no record has
    it, or the table has no identifier column, the session stays as it was. *)
Theorem on_id_change_first_match (L : Library) (s : Session) :
  snd (on_id_change L s) = Ok tt /\
  (exists o, fst (on_id_change L s) = set_obj_var o s) /\
  (forall ids i v,
     getitem (df s) ID_COL = Ok ids ->
     nth_error (series_cells ids) i = Some v -> py_str L v = id_var s ->
     (forall j w, (j < i)%nat -> nth_error (series_cells ids) j = Some w ->
                  py_str L w <> id_var s) ->
     fst (on_id_change L s) = set_obj_var (IntVal (Z.of_nat i)) s) /\
  (forall ids,
     getitem (df s) ID_COL = Ok ids ->
     (forall v, In v (series_cells ids) -> py_str L v <> id_var s) ->
     fst (on_id_change L s) = s) /\
  (has_col ID_COL (df s) = false -> fst (on_id_change L s) = s).
Proof.
  rewrite on_id_change_run. cbn [fst snd].
  split; [reflexivity|]. split; [|split; [|split]].
  - destruct (if has_col ID_COL (df s) then _ else _) as [|i l].
    + exists (obj_var s). now rewrite set_obj_var_same.
    + eauto.
  - intros ids i v Hids Hv Hsel Hfirst.
    assert (Hc : has_col ID_COL (df s) = true).
    { apply has_col_In, lookup_col_Some_In. exists ids. now apply getitem_Some. }
    rewrite Hc, Hids.
    set (mask := map (fun v => String.eqb (py_str L v) (id_var s)) (series_cells ids)).
    assert (Hm : nth_error mask i = Some true).
    { subst mask. rewrite nth_error_map, Hv. cbn. f_equal. now apply String.eqb_eq. }
    destruct (positions_from_first 0 mask i Hm) as (j & rest & Hj & Hn & _ & ->).
    cbn [Nat.add].
    destruct (Nat.eq_dec j i) as [->|Hne]; [reflexivity|]. exfalso.
    subst mask. rewrite nth_error_map in Hn.
    destruct (nth_error (series_cells ids) j) as [w|] eqn:Ew; [|discriminate].
    cbn in Hn. injection Hn as Hn. apply String.eqb_eq in Hn.
    apply (Hfirst j w); [lia | exact Ew | exact Hn].
  - intros ids Hids Hno.
    destruct (has_col ID_COL (df s)); [|reflexivity]. rewrite Hids.
    rewrite positions_from_none; [reflexivity|].
    intros b Hb. apply in_map_iff in Hb. destruct Hb as (v & <- & Hv).
    apply String.eqb_neq. now apply Hno.
  - intros ->. reflexivity.
Qed.

(** X10. Choosing by identifier and then refreshing.  When the chosen
    identifier belongs to some record and the table has the covariate
    columns, the refresh that follows works on the first record with that
    identifier, opens no dialog, and leaves the menu on the identifier that
    was chosen. *)
Theorem select_by_id_then_update (L : Library) (s : Session) (ids : Series) (i : nat)
    (v : Cell)
    (Hwf : wf_df (df s))
    (Hfeat : forall c, In c FEATURE_COLUMNS -> has_col c (df s) = true)
    (Hids : getitem (df s) ID_COL = Ok ids)
    (Hv : nth_error (series_cells ids) i = Some v)
    (Hsel : py_str L v = id_var s) :
  let s2 := fst (update_dashboard L (fst (on_id_change L s))) in
  id_var s2 = id_var s /\
  dialogs s2 = dialogs s /\
  exists j w, obj_var s2 = IntVal (Z.of_nat j) /\ (j <= i)%nat /\
              nth_error (series_cells ids) j = Some w /\ py_str L w = id_var s /\
              forall j' w', (j' < j)%nat -> nth_error (series_cells ids) j' = Some w' ->
                            py_str L w' <> id_var s.
Proof.
  cbv zeta.
  assert (Hc : has_col ID_COL (df s) = true).
  { apply has_col_In, lookup_col_Some_In. exists ids. now apply getitem_Some. }
  set (mask := map (fun v => String.eqb (py_str L v) (id_var s)) (series_cells ids)).
  assert (Hm : nth_error mask i = Some true).
  { subst mask. rewrite nth_error_map, Hv. cbn. f_equal. now apply String.eqb_eq. }
  destruct (positions_from_first 0 mask i Hm) as (j & rest & Hj & Hn & Hb & Hp).
  assert (Hlen : length (series_cells ids) = nrows (df s))
    by apply (wf_df_series_len _ _ _ Hwf Hids).
  assert (Hi : (i < nrows (df s))%nat).
  { rewrite <- Hlen. apply nth_error_Some. congruence. }
  assert (Hw : exists w, nth_error (series_cells ids) j = Some w /\ py_str L w = id_var s).
  { subst mask. rewrite nth_error_map in Hn.
    destruct (nth_error (series_cells ids) j) as [w|]; [|discriminate].
    cbn in Hn. injection Hn as Hn. apply String.eqb_eq in Hn. eauto. }
  destruct Hw as (w & Hw & Hwsel).
  rewrite on_id_change_run. cbn [fst]. rewrite Hc, Hids. fold mask. rewrite Hp.
  cbn [Nat.add].
  set (s1 := set_obj_var (IntVal (Z.of_nat j)) s).
  assert (Hrange : (0 <= Z.of_nat j < Z.of_nat (nrows (df s1)))%Z) by (cbn; lia).
  assert (Hrow : exists row,
             (r <- iloc_rows (df s1) (Z.to_nat (Z.of_nat j)) ;;
              select_cols r FEATURE_COLUMNS)%res = Ok row).
  { rewrite Nat2Z.id. cbn [s1 df set_obj_var].
    destruct (iloc_rows (df s) j) as [r|e] eqn:Er.
    - cbn [rbind]. apply select_cols_total. intros c Hin.
      apply (has_col_iloc_rows _ _ _ _ Er). now apply Hfeat.
    - unfold iloc_rows in Er.
      assert (Hlt : Nat.ltb j (nrows (df s)) = true) by (apply Nat.ltb_lt; lia).
      rewrite Hlt in Er. discriminate. }
  destruct Hrow as [row Hrow].
  rewrite update_dashboard_as_views. cbn [s1 obj_var set_obj_var]. fold s1.
  split; [|split].
  - rewrite (update_views_id_var L _ s1 row Hrange Hrow). rewrite Nat2Z.id.
    cbn [s1 df set_obj_var id_var]. rewrite Hc.
    rewrite (iloc_cell_nth (df s) j ID_COL ids w); [exact Hwsel | lia | exact Hids | exact Hw].
  - now rewrite (update_views_in_range_keeps_dialogs L _ s1 Hrange).
  - exists j, w. split; [now rewrite (update_views_keeps_obj_var L _ s1)|].
    split; [exact Hj|]. split; [exact Hw|]. split; [exact Hwsel|].
    intros j' w' Hlt Hw' E. specialize (Hb j' Hlt). subst mask.
    rewrite nth_error_map, Hw' in Hb. cbn in Hb. injection Hb as Hb.
    apply String.eqb_neq in Hb. contradiction.
Qed.

Lemma select_by_id_then_update_witness :
  id_var (fst (update_dashboard Demo.lib
                 (fst (on_id_change Demo.lib (set_id_var "3" Demo.session))))) = "3".
Proof.
  assert (Hwf : wf_df (df (set_id_var "3" Demo.session))).
  { split; [repeat constructor | cbn; repeat constructor; cbn; intuition discriminate]. }
  refine (proj1 (select_by_id_then_update Demo.lib (set_id_var "3" Demo.session)
                   (SInt [1; 2; 3]%Z) 2 (VInt 3) Hwf _ eq_refl eq_refl eq_refl)).
  intros c Hc. cbn in Hc.
  repeat (destruct Hc as [<-|Hc]; [reflexivity|]). contradiction.
Defined.

(** ** Orderings: the hazard-ratio bars and the report *)

Lemma insert_by_sorted {A} (leb : A -> A -> bool) (R : A -> A -> Prop) (x : A) (l : list A) :
  (forall a b, leb a b = true -> R a b) ->
  (forall a b, leb a b = false -> R b a) ->
  (forall a b c, R a b -> R b c -> R a c) ->
  StronglySorted R l -> StronglySorted R (insert_by leb x l).
Proof.
  intros Ht Hf Htr. induction l as [|y l IH]; intro Hs; cbn.
  - constructor; constructor.
  - apply StronglySorted_inv in Hs. destruct Hs as [Hs Hy].
    destruct (leb x y) eqn:E.
    + constructor; [constructor; assumption|].
      constructor; [now apply Ht|].
      rewrite Forall_forall in *. intros z Hz. apply (Htr _ y); [now apply Ht | now apply Hy].
    + constructor; [now apply IH|].
      rewrite Forall_forall in *. intros z Hz.
      apply (Permutation_in _ (insert_by_perm leb x l)) in Hz.
      destruct Hz as [<-|Hz]; [now apply Hf | now apply Hy].
Qed.

Lemma sort_by_sorted {A} (leb : A -> A -> bool) (R : A -> A -> Prop) (l : list A) :
  (forall a b, leb a b = true -> R a b) ->
  (forall a b, leb a b = false -> R b a) ->
  (forall a b c, R a b -> R b c -> R a c) ->
  StronglySorted R (sort_by leb l).
Proof.
  intros Ht Hf Htr. induction l as [|x l IH]; cbn; [constructor|].
  now apply insert_by_sorted.
Qed.

Lemma sort_by_nonempty {A} (leb : A -> A -> bool) (l : list A) :
  l <> [] -> exists top rest, sort_by leb l = top :: rest.
Proof.
  intro H. destruct (sort_by leb l) as [|top rest] eqn:E; [|eauto].
  exfalso. apply H. apply Permutation_nil. rewrite <- E. apply sort_by_perm.
Qed.

Lemma forM_report_insert {A} (f : A -> string) (l : list A) (s : Session) :
  forM_ l (fun x => report_insert (f x)) s =
  (set_widgets (set_report_text
                  (report_text (widgets s) ++ fold_right String.append EmptyString (map f l))
                  (widgets s)) s,
   Ok tt).
Proof.
  revert s. induction l as [|x l IH]; intro s; cbn [forM_ map fold_right].
  - rewrite string_app_nil_r. unfold ret.
    now destruct s as [? ? ? ? ? ? ? ? [] ? ?].
  - unfold report_insert at 1. run. rewrite IH.
    cbn [widgets set_widgets report_text set_report_text].
    now rewrite string_app_assoc.
Qed.

(** X11. The bars of the hazard-ratio chart.  There is one bar per
    coefficient of the model, drawn in increasing order of hazard ratio, red
    exactly when the ratio is above 1 and green otherwise; a model without
    coefficients gives the placeholder text and no bar.  The chart is drawn
    afresh each time, the canvas shows it, and the step hands the summary on
    unchanged. *)
Theorem step_hazard_ratios_bars (s : Session) :
  let s' := fst (step_hazard_ratios s) in
  let bars := ax_bars (ax_hr (plots s')) in
  snd (step_hazard_ratios s) = Ok (summary (cph s)) /\
  canvas_hr (plots s') = ax_hr (plots s') /\
  (summary (cph s) = [] ->
     bars = [] /\ ax_texts (ax_hr (plots s')) = ["Немає коефіцієнтів"]) /\
  (summary (cph s) <> [] ->
     Permutation (map (fun b => (fst (fst b), snd (fst b))) bars)
                 (map (fun r => (sr_feature r, sr_exp_coef r)) (summary (cph s))) /\
     StronglySorted (fun a b => snd (fst a) <= snd (fst b)) bars /\
     (forall name hr colour, In (name, hr, colour) bars ->
        (colour = "red" <-> 1 < hr) /\ (colour = "green" <-> hr <= 1)) /\
     ax_texts (ax_hr (plots s')) = [] /\
     ax_title (ax_hr (plots s')) = "Hazard Ratios").
Proof.
  cbv zeta. unfold step_hazard_ratios, on_ax_hr. run. cbn [cph set_plots].
  destruct (summary (cph s)) as [|r0 rs] eqn:Es; cbv zeta; rewrite ?bind_assoc; run; unfold ret;
    cbn [fst snd plots set_plots ax_hr set_ax_hr canvas_hr set_canvas_hr ax_bars ax_texts
         ax_title ax_text ax_barh ax_set_title ax_clear empty_axes app].
  - split; [reflexivity|]. split; [reflexivity|]. split; [now split | congruence].
  - split; [reflexivity|]. split; [reflexivity|]. split; [discriminate|]. intros _.
    set (leb := fun a b : SummaryRow => Qle_bool (sr_exp_coef a) (sr_exp_coef b)).
    set (hr := sort_by leb (r0 :: rs)).
    assert (Hperm : Permutation hr (r0 :: rs)) by apply sort_by_perm.
    assert (Hsort : StronglySorted (fun a b => sr_exp_coef a <= sr_exp_coef b) hr).
    { apply sort_by_sorted.
      - intros a b H. now apply Qle_bool_iff.
      - intros a b H. apply Qle_bool_false in H. now apply Qlt_le_weak.
      - intros a b c. apply Qle_trans. }
    split; [|split; [|split; [|split; reflexivity]]].
    + rewrite map_map. cbn [fst snd]. now apply Permutation_map.
    + clearbody hr. clear Hperm. induction Hsort as [|a l Hl IH Ha]; cbn [map]; constructor.
      * exact IH.
      * rewrite Forall_forall in *. intros b Hb. apply in_map_iff in Hb.
        destruct Hb as (r & <- & Hr). cbn. now apply Ha.
    + intros name v colour Hin. apply in_map_iff in Hin.
      destruct Hin as (r & Hr & _). injection Hr as _ <- <-.
      destruct (Qltb 1 (sr_exp_coef r)) eqn:E.
      * apply Qltb_lt in E. split; split; try tauto; try discriminate. intro; lra.
      * apply Qltb_ge in E. split; split; try tauto; try discriminate. intro; lra.
Qed.

(** X12. The ranking in the report.  For a model with coefficients the
    report is written afresh: a heading, one line per coefficient, the factor
    of largest influence, and the state of the selected record as the risk
    label shows it.  The lines are those of the summary, each once, ordered by
    decreasing distance of the hazard ratio from 1, and the factor named is
    that of the first line, no coefficient being farther from 1 than its
    own. *)
Theorem step_report_ranking (L : Library) (idx : Z) (summary : list SummaryRow) (s : Session)
    (Hne : summary <> []) :
  exists sorted top,
    Permutation sorted summary /\
    StronglySorted (fun a b => Qabs (sr_exp_coef b - 1) <= Qabs (sr_exp_coef a - 1)) sorted /\
    hd_error sorted = Some top /\
    In top summary /\
    (forall r, In r summary -> Qabs (sr_exp_coef r - 1) <= Qabs (sr_exp_coef top - 1)) /\
    report_text (widgets (fst (step_report L idx summary s))) =
      "📊 Звіт моніторингу завантаженості (модель Кокса)" ++ nl ++ nl ++
      fold_right String.append EmptyString (map (report_line L) sorted) ++
      nl ++ "Найбільший вплив має: " ++ sr_feature top ++ nl ++
      "Індивідуальний стан навантаження елемента #" ++ string_of_Z idx ++ ": " ++
      fst (risk_label (widgets s)) ++ nl.
Proof.
  set (leb := fun a b : SummaryRow =>
                Qle_bool (Qabs (sr_exp_coef b - 1)) (Qabs (sr_exp_coef a - 1))).
  destruct (sort_by_nonempty leb summary Hne) as (top & rest & Es).
  assert (Hperm : Permutation (top :: rest) summary) by (rewrite <- Es; apply sort_by_perm).
  assert (Hsort : StronglySorted
            (fun a b => Qabs (sr_exp_coef b - 1) <= Qabs (sr_exp_coef a - 1)) (top :: rest)).
  { rewrite <- Es. apply sort_by_sorted.
    - intros a b H. now apply Qle_bool_iff.
    - intros a b H. apply Qle_bool_false in H. now apply Qlt_le_weak.
    - intros a b c H1 H2. now apply (Qle_trans _ _ _ H2). }
  exists (top :: rest), top.
  split; [exact Hperm|]. split; [exact Hsort|]. split; [reflexivity|].
  split; [apply (Permutation_in _ Hperm); now left|]. split.
  - intros r Hr. apply (Permutation_in _ (Permutation_sym Hperm)) in Hr.
    destruct Hr as [<-|Hr]; [apply Qle_refl|].
    apply StronglySorted_inv in Hsort. destruct Hsort as [_ Hall].
    rewrite Forall_forall in Hall. now apply Hall.
  - unfold step_report. run. destruct summary as [|r rs]; [congruence|].
    unfold report_insert at 1. run. cbv zeta. fold leb. rewrite Es.
    unfold bind at 1. rewrite forM_report_insert.
    unfold report_insert. run. unfold modify_widgets, modify.
    cbn [fst widgets set_widgets report_text set_report_text risk_label].
    rewrite !string_app_assoc. reflexivity.
Qed.

Lemma step_report_ranking_witness :
  exists sorted top,
    Permutation sorted Demo.cox_summary /\
    hd_error sorted = Some top /\
    sr_feature top = "завантаженість" /\
    forall r, In r Demo.cox_summary ->
      Qabs (sr_exp_coef r - 1) <= Qabs (sr_exp_coef top - 1).
Proof.
  assert (Hne : Demo.cox_summary <> []) by discriminate.
  destruct (step_report_ranking Demo.lib 0 Demo.cox_summary Demo.session Hne)
    as (sorted & top & Hperm & Hsort & Hhd & Hin & Hmax & _).
  exists sorted, top. split; [exact Hperm|]. split; [exact Hhd|]. split; [|exact Hmax].
  assert (Hbig : Qabs (sr_exp_coef (mkSummaryRow "завантаженість" (2 # 1) (12 # 10) (3 # 1)) - 1)
                 <= Qabs (sr_exp_coef top - 1)).
  { apply Hmax. cbn. auto. }
  cbn in Hin.
  repeat (destruct Hin as [<-|Hin]; [first [reflexivity | exfalso; vm_compute in Hbig; now apply Hbig]|]).
  contradiction.
Defined.

(** ** Regenerating the data *)

Lemma id_list_synthetic (L : Library) (g : Rng) (n : nat) :
  id_list L (generate_random_data g n) = Ok (map (fun i => string_of_Z (Z.of_nat i)) (seq 1 n)).
Proof.
  unfold id_list.
  change (has_col ID_COL (generate_random_data g n)) with true.
  change (getitem (generate_random_data g n) ID_COL) with (Ok (SInt (map Z.of_nat (seq 1 n)))).
  cbn [rbind series_cells]. now rewrite !map_map.
Qed.

Ltac session_cbn :=
  cbn [df cph source_label groupable_vars obj_var id_var group_var show_details widgets
       plots dialogs set_df set_cph set_source_label set_groupable_vars set_obj_var
       set_id_var set_group_var set_show_details set_widgets set_plots set_dialogs
       title root_title spin_to id_menu_values group_menu_values risk_label load_bar
       load_val_label record_summary_label details_text report_text details_btn
       details_frame_packed set_title set_root_title set_spin_to set_id_menu_values
       set_group_menu_values set_risk_label set_load_bar set_load_val_label
       set_record_summary_label set_details_text set_report_text set_details_btn
       set_details_frame_packed fst snd].

(** The session on which the recompute at the end of [regenerate_data]
    runs, when the fit has returned [c]. *)
Lemma regenerate_data_run (L : Library) (g : Rng) (s : Session) (c : CoxPHFitter) :
  train_cox_model L (generate_random_data g 150) = Ok c ->
  exists s0,
    regenerate_data L g s = update_dashboard L s0 /\
    df s0 = generate_random_data g 150 /\ cph s0 = c /\
    source_label s0 = "випадкові дані" /\ groupable_vars s0 = FEATURE_COLUMNS /\
    obj_var s0 = IntVal 0 /\ id_var s0 = "1" /\ group_var s0 = "навантаження_мвт" /\
    show_details s0 = show_details s /\ plots s0 = plots s /\ dialogs s0 = dialogs s /\
    widgets s0 =
      set_spin_to 149
        (set_id_menu_values (map (fun i => string_of_Z (Z.of_nat i)) (seq 1 150))
           (set_group_menu_values FEATURE_COLUMNS
              (set_root_title (window_title "випадкові дані")
                 (set_title (heading "випадкові дані") (widgets s))))).
Proof.
  intro Hfit. unfold regenerate_data. run. session_cbn. rewrite Hfit. run. session_cbn.
  change (filter (fun c0 => has_col c0 (generate_random_data g 150)) FEATURE_COLUMNS)
    with FEATURE_COLUMNS.
  cbn [FEATURE_COLUMNS]. run. session_cbn.
  unfold bind at 1, try_except. rewrite id_list_synthetic. run. session_cbn.
  change (seq 1 150) with (1 :: seq 2 149)%nat. cbn [map]. run. unfold modify. session_cbn.
  change (has_col NAME_COL (generate_random_data g 150)) with true.
  cbn [negb when]. run. session_cbn.
  change (has_col TYPE_COL (generate_random_data g 150)) with true.
  cbn [negb when]. run. session_cbn.
  eexists. split; [reflexivity|]. session_cbn.
  repeat (split; [reflexivity|]). reflexivity.
Qed.

(** X13. Regenerating when the fit on the new data raises.  The new table
    of 150 records has already replaced the old one, and nothing else has
    happened: the exception leaves the callback with the old model, labels,
    controls (the index bound included) and views. *)
Theorem regenerate_data_fit_raises (L : Library) (g : Rng) (s : Session) (e : PyExc)
    (Hfit : train_cox_model L (generate_random_data g 150) = Raise e) :
  regenerate_data L g s = (set_df (generate_random_data g 150) s, Raise e) /\
  let s' := fst (regenerate_data L g s) in
  nrows (df s') = 150%nat /\ cph s' = cph s /\ source_label s' = source_label s /\
  obj_var s' = obj_var s /\ id_var s' = id_var s /\ group_var s' = group_var s /\
  groupable_vars s' = groupable_vars s /\
  widgets s' = widgets s /\ plots s' = plots s /\ dialogs s' = dialogs s.
Proof.
  assert (E : regenerate_data L g s = (set_df (generate_random_data g 150) s, Raise e)).
  { unfold regenerate_data. run. cbn [df set_df]. rewrite Hfit. now run. }
  split; [exact E|]. cbv zeta. rewrite E. cbn. repeat split.
Qed.

Lemma regenerate_data_fit_raises_witness :
  regenerate_data (lib_fit_raises (mkExc ValueError "Convergence halted")) Demo.rng Demo.session
  = (set_df (generate_random_data Demo.rng 150) Demo.session,
     Raise (mkExc ValueError "Convergence halted")).
Proof.
  apply (regenerate_data_fit_raises (lib_fit_raises (mkExc ValueError "Convergence halted"))
           Demo.rng Demo.session (mkExc ValueError "Convergence halted")).
  reflexivity.
Defined.

(** ** Properties that every step keeps *)

Section Preserves.
Context (P : Session -> Prop).

Lemma preserves_ret {A} (a : A) : preserves P (ret a).
Proof. intros s H. exact H. Qed.

Lemma preserves_throw {A} (e : PyExc) : preserves P (@throw A e).
Proof. intros s H. exact H. Qed.

Lemma preserves_lift {A} (r : result A) : preserves P (lift r).
Proof. intros s H. exact H. Qed.

Lemma preserves_gets {A} (f : Session -> A) : preserves P (gets f).
Proof. intros s H. exact H. Qed.

Lemma preserves_modify (f : Session -> Session) :
  (forall s, P s -> P (f s)) -> preserves P (modify f).
Proof. intros Hf s H. now apply Hf. Qed.

Lemma preserves_bind {A C} (m : M A) (k : A -> M C) :
  preserves P m -> (forall a, preserves P (k a)) -> preserves P (bind m k).
Proof.
  intros Hm Hk s H. unfold bind. specialize (Hm s H).
  destruct (m s) as [s1 [a|e]]; [now apply Hk | exact Hm].
Qed.

Lemma preserves_try_except {A} (m h : M A) :
  preserves P m -> preserves P h -> preserves P (try_except m h).
Proof.
  intros Hm Hh s H. unfold try_except. specialize (Hm s H).
  destruct (m s) as [s1 [a|e]]; [exact Hm | now apply Hh].
Qed.

Lemma preserves_when (b : bool) (m : M unit) : preserves P m -> preserves P (when b m).
Proof. intro H. destruct b; [exact H | apply preserves_ret]. Qed.

Lemma preserves_forM {A} (l : list A) (f : A -> M unit) :
  (forall x, preserves P (f x)) -> preserves P (forM_ l f).
Proof.
  intro H. induction l as [|x l IH]; cbn; [apply preserves_ret|].
  apply preserves_bind; [apply H | intros _; exact IH].
Qed.

End Preserves.

(** Peels a callback as [keeps_tac] does; the writes are left to [leaf]. *)
Ltac preserves_with leaf :=
  repeat first
    [ leaf
    | apply preserves_ret | apply preserves_throw | apply preserves_lift
    | apply preserves_gets
    | apply preserves_bind; [|intro]
    | apply preserves_try_except
    | apply preserves_when
    | apply preserves_forM; intro
    | match goal with
      | |- preserves _ (match ?x with _ => _ end) => destruct x
      | |- preserves _ (if ?x then _ else _) => destruct x
      | |- preserves _ (let _ := _ in _) => cbv zeta
      end ].

Lemma update_views_keeps_column (L : Library) (idx : Z) (c : string) :
  preserves (fun s => has_col c (df s) = true) (update_views L idx).
Proof.
  unfold_steps. unfold modify_widgets, modify_plots.
  preserves_with ltac:(apply preserves_modify; intros s0 H0; cbn [df set_df set_widgets
      set_plots set_dialogs set_id_var set_group_var];
      first [exact H0 | rewrite has_col_setitem, H0; reflexivity]).
Qed.

Lemma update_dashboard_keeps_column (L : Library) (c : string) :
  preserves (fun s => has_col c (df s) = true) (update_dashboard L).
Proof.
  intros s H. rewrite update_dashboard_as_views.
  destruct (obj_var s); now apply update_views_keeps_column.
Qed.

(** ** A session stays sound *)

Lemma FEATURE_in_fit_columns (c : string) : In c FEATURE_COLUMNS -> In c fit_columns.
Proof. intro H. unfold fit_columns. apply in_or_app. now right. Qed.

Lemma session_sound_transfer (s s' : Session) :
  cph s' = cph s -> groupable_vars s' = groupable_vars s ->
  group_menu_values (widgets s') = group_menu_values (widgets s) ->
  In (group_var s') FEATURE_COLUMNS ->
  (forall c, has_col c (df s) = true -> has_col c (df s') = true) ->
  session_sound s -> session_sound s'.
Proof.
  intros Hc Hg Hmenu Hvar Hcols ((Hm & Hfit & Hgv) & Hn & Ht & Hincl & Hmi & _).
  split; [split; [|split]|split; [|split; [|split; [|split]]]].
  - now rewrite Hc.
  - intros c Hin. apply Hcols. now apply Hfit.
  - intros v Hin. rewrite Hg in Hin. apply Hcols. now apply Hgv.
  - now apply Hcols.
  - now apply Hcols.
  - now rewrite Hg.
  - now rewrite Hmenu.
  - exact Hvar.
Qed.

Lemma session_sound_group_var (s : Session) :
  session_sound s -> has_col (group_var s) (df s) = true.
Proof.
  intros ((_ & Hfit & _) & _ & _ & _ & _ & Hv). apply Hfit.
  now apply FEATURE_in_fit_columns.
Qed.

Lemma synthetic_has_features (g : Rng) (n : nat) (c : string) :
  In c FEATURE_COLUMNS -> has_col c (generate_random_data g n) = true.
Proof.
  intro H. cbn in H. repeat (destruct H as [<-|H]; [reflexivity|]). contradiction.
Qed.

Lemma synthetic_has_fit_columns (g : Rng) (n : nat) (c : string) :
  In c fit_columns -> has_col c (generate_random_data g n) = true.
Proof.
  intro H. cbn in H. repeat (destruct H as [<-|H]; [reflexivity|]). contradiction.
Qed.

Lemma train_cox_model_returns (L : Library) (d : DataFrame) (c : CoxPHFitter) :
  library_returns L -> train_cox_model L d = Ok c -> model_returns c.
Proof.
  intros (_ & _ & H) Hc. unfold train_cox_model in Hc.
  destruct (fit_frame L d) as [x|e]; [|discriminate]. exact (H _ _ _ _ Hc).
Qed.

Lemma choose_group_var_keeps_choice (v : string) :
  preserves (fun s => group_var s = v /\ has_col v (df s) = true) choose_group_var.
Proof.
  intros s [Hv Hc]. rewrite choose_group_var_present; [now split|]. now rewrite Hv.
Qed.

(** A grouping variable that is a column is left as the choice. *)
Lemma update_views_keeps_choice (L : Library) (idx : Z) (v : string) :
  preserves (fun s => group_var s = v /\ has_col v (df s) = true) (update_views L idx).
Proof.
  unfold update_views, sync_id_var, step_survival, step_hazard_ratios,
    step_cumulative_hazard, step_groups, plot_group, step_risk,
    step_load, step_card, step_details, step_report, details_insert, report_insert,
    on_ax_surv, on_ax_hr, on_ax_ch, on_ax_groups, showerror, modify_widgets, modify_plots.
  preserves_with ltac:(first
    [ apply choose_group_var_keeps_choice
    | apply preserves_modify; intros s0 [H1 H2]; split;
      cbn [df group_var set_df set_widgets set_plots set_dialogs set_id_var];
      first [exact H1 | exact H2 | rewrite has_col_setitem, H2; reflexivity] ]).
Qed.

Lemma update_dashboard_keeps_choice (L : Library) (s : Session) :
  has_col (group_var s) (df s) = true ->
  group_var (fst (update_dashboard L s)) = group_var s.
Proof.
  intro H. rewrite update_dashboard_as_views. destruct (obj_var s).
  - now apply (update_views_keeps_choice L z (group_var s) s).
  - now apply (update_views_keeps_choice L 0 (group_var s) (set_obj_var (IntVal 0) s)).
Qed.

Lemma update_dashboard_sound (L : Library) (s : Session) :
  session_sound s -> session_sound (fst (update_dashboard L s)).
Proof.
  intro Hs. pose proof (update_dashboard_frame L s) as Hf. cbv zeta in Hf.
  destruct Hf as (Hc & _ & Hg & _ & _ & _ & _ & _ & _ & Hmenu & _).
  apply (session_sound_transfer s); [exact Hc | exact Hg | exact Hmenu | | | exact Hs].
  - rewrite update_dashboard_keeps_choice; [apply Hs|].
    now apply session_sound_group_var.
  - intros c. apply update_dashboard_keeps_column.
Qed.

Lemma on_id_change_returns (L : Library) (s : Session) : snd (on_id_change L s) = Ok tt.
Proof. now rewrite on_id_change_run. Qed.

Lemma on_id_change_sound (L : Library) (s : Session) :
  session_sound s -> session_sound (fst (on_id_change L s)).
Proof.
  rewrite on_id_change_run. cbn [fst].
  destruct (if has_col ID_COL (df s) then _ else _); [tauto|].
  intro Hs. apply (session_sound_transfer s); try reflexivity; try tauto. apply Hs.
Qed.

Lemma toggle_details_run (s : Session) :
  toggle_details s =
  (set_widgets
     (set_details_btn (if show_details s then "Показати деталі" else "Сховати деталі")
        (set_details_frame_packed (negb (show_details s)) (widgets s)))
     (set_show_details (negb (show_details s)) s),
   Ok tt).
Proof. unfold toggle_details. run. destruct (show_details s); run; reflexivity. Qed.

Lemma regenerate_data_sound (L : Library) (g : Rng) (s : Session) :
  library_returns L -> session_sound s ->
  session_sound (fst (regenerate_data L g s)) /\
  snd (regenerate_data L g s) =
    match train_cox_model L (generate_random_data g 150) with
    | Ok _ => Ok tt
    | Raise e => Raise e
    end.
Proof.
  intros HL Hs. destruct (train_cox_model L (generate_random_data g 150)) as [c|e] eqn:Hfit.
  - destruct (regenerate_data_run L g s c Hfit)
      as (s0 & -> & Hdf & Hc & _ & Hgv & _ & _ & Hvar & _ & _ & _ & Hw).
    assert (Hs0 : session_sound s0).
    { split; [split; [|split]|split; [|split; [|split; [|split]]]].
      - rewrite Hc. exact (train_cox_model_returns L _ c HL Hfit).
      - intros c0 Hin. rewrite Hdf. now apply synthetic_has_fit_columns.
      - intros v Hin. rewrite Hdf. rewrite Hgv in Hin. now apply synthetic_has_features.
      - now rewrite Hdf.
      - now rewrite Hdf.
      - rewrite Hgv. apply incl_refl.
      - rewrite Hw. cbn. apply incl_refl.
      - rewrite Hvar. cbn. auto. }
    split; [now apply update_dashboard_sound|].
    apply (update_dashboard_returns L HL). apply Hs0.
  - unfold regenerate_data. run. cbn [df set_df]. rewrite Hfit. run. cbn [fst snd].
    split; [|reflexivity].
    destruct Hs as ((Hm & _ & _) & _ & _ & Hincl & Hmi & Hv).
    split; [split; [|split]|split; [|split; [|split; [|split]]]];
      cbn [df set_df cph groupable_vars widgets group_var].
    + exact Hm.
    + intros c0 Hin. now apply synthetic_has_fit_columns.
    + intros v Hin. apply synthetic_has_features. now apply Hincl.
    + reflexivity.
    + reflexivity.
    + exact Hincl.
    + exact Hmi.
    + exact Hv.
Qed.

Lemma offered_In (v : string) (values : list string) :
  offered v values = true <-> In v values.
Proof. apply existsb_eqb_In. Qed.

Lemma run_event_sound (L : Library) (ev : Event) (s : Session) :
  library_returns L -> session_sound s ->
  session_sound (fst (run_event L ev s)) /\
  snd (run_event L ev s) =
    match ev with
    | Press (CbRegenerate g) =>
        match train_cox_model L (generate_random_data g 150) with
        | Ok _ => Ok tt
        | Raise e => Raise e
        end
    | _ => Ok tt
    end.
Proof.
  intros HL Hs. destruct ev as [[|g| |]|v|sel|var]; cbn [run_event run_callback].
  - split; [now apply update_dashboard_sound|].
    apply (update_dashboard_returns L HL). apply Hs.
  - now apply regenerate_data_sound.
  - split; [now apply on_id_change_sound | apply on_id_change_returns].
  - rewrite toggle_details_run. split; [|reflexivity]. cbn [fst].
    apply (session_sound_transfer s); try reflexivity; try tauto. apply Hs.
  - split; [|reflexivity].
    apply (session_sound_transfer s); try reflexivity; try tauto. apply Hs.
  - rewrite bind_gets. destruct (offered sel (id_menu_values (widgets s))); cbn [when].
    + rewrite bind_modify. split; [|apply on_id_change_returns].
      apply on_id_change_sound.
      apply (session_sound_transfer s); try reflexivity; try tauto. apply Hs.
    + now split.
  - rewrite bind_gets.
    destruct (offered var (group_menu_values (widgets s))) eqn:Eo; cbn [when].
    + split; [|reflexivity]. cbn [modify fst].
      assert (Hin : In var FEATURE_COLUMNS).
      { apply offered_In in Eo. now apply Hs. }
      apply (session_sound_transfer s); try reflexivity; try tauto.
    + now split.
Qed.

Lemma run_events_keep_sound (L : Library) (evs : list Event) (s : Session) :
  library_returns L -> session_sound s -> session_sound (run_events L evs s).
Proof.
  intros HL. revert s. induction evs as [|ev evs IH]; intros s Hs; [exact Hs|].
  cbn. apply IH. now apply run_event_sound.
Qed.

Lemma demo_session_sound : session_sound Demo.session.
Proof.
  split; [exact demo_session_ready|]. split; [reflexivity|]. split; [reflexivity|].
  assert (H : incl (filter (fun c => has_col c Demo.frame) FEATURE_COLUMNS) FEATURE_COLUMNS).
  { intros v Hv. now apply filter_In in Hv. }
  split; [exact H|]. split; [exact H|]. cbn. auto.
Qed.

(** X14. A session never breaks.  From a sound session (the model answers,
    the table has the fitted columns, names and types, the grouping variables
    offered and chosen are covariates) any sequence of button presses, typed
    indexes and menu choices leaves the session sound, and every one of these
    events returns normally, with one exception: regenerating raises exactly
    when the fit on the new data raises, and with that exception.  In such a
    session the chosen grouping variable is always a column of the table, so
    the recompute never has to replace it. *)
Theorem session_stays_sound (L : Library) (s : Session) (evs : list Event)
    (HL : library_returns L) (Hs : session_sound s) :
  session_sound (run_events L evs s) /\
  (forall pre ev post, evs = (pre ++ ev :: post)%list ->
     snd (run_event L ev (run_events L pre s)) =
       match ev with
       | Press (CbRegenerate g) =>
           match train_cox_model L (generate_random_data g 150) with
           | Ok _ => Ok tt
           | Raise e => Raise e
           end
       | _ => Ok tt
       end) /\
  (forall pre post, evs = (pre ++ post)%list ->
     let s1 := run_events L pre s in
     has_col (group_var s1) (df s1) = true /\
     choose_group_var s1 = (s1, Ok (Some (group_var s1))) /\
     group_var (fst (update_dashboard L s1)) = group_var s1).
Proof.
  split; [now apply run_events_keep_sound|]. split.
  - intros pre ev post _.
    assert (Hpre : session_sound (run_events L pre s)) by now apply run_events_keep_sound.
    now apply run_event_sound.
  - intros pre post _. cbv zeta.
    assert (Hpre : session_sound (run_events L pre s)) by now apply run_events_keep_sound.
    pose proof (session_sound_group_var _ Hpre) as Hv.
    split; [exact Hv|]. split; [now apply choose_group_var_present|].
    now apply update_dashboard_keeps_choice.
Qed.

Lemma session_stays_sound_witness :
  session_sound
    (run_events Demo.lib
       [PickId "3"; Press CbUpdate; Press CbToggleDetails; Press (CbRegenerate Demo.rng);
        TypeIndex (IntText "x"); PickGroup "свято"; Press CbUpdate]
       Demo.session).
Proof.
  exact (proj1 (session_stays_sound Demo.lib Demo.session _
                  demo_library_returns demo_session_sound)).
Defined.

(** ** Start-up *)

Lemma ensure_columns_Ok (L : Library) (d : DataFrame) (required : list string) (c : string) :
  ensure_columns L d required = Ok tt -> In c required -> has_col c d = true.
Proof.
  unfold ensure_columns. intros H Hin.
  destruct (missing_columns d required) as [|m ms] eqn:Em; [|discriminate].
  destruct (has_col c d) eqn:Ec; [reflexivity|]. exfalso.
  assert (Hm : In c (missing_columns d required)).
  { apply missing_columns_In. split; [exact Hin | now apply has_col_false]. }
  now rewrite Em in Hm.
Qed.

Lemma run_dashboard_try_Ok (L : Library) (csv : result DataFrame) (d : DataFrame)
    (c : CoxPHFitter) :
  run_dashboard_try L csv = Ok (d, c) ->
  csv = Ok d /\ train_cox_model L d = Ok c /\
  forall c0, In c0 fit_columns -> has_col c0 d = true.
Proof.
  unfold run_dashboard_try. destruct csv as [d0|e]; cbn [rbind]; [|discriminate].
  destruct (ensure_columns L d0 _) as [[]|e] eqn:Ee; cbn [rbind]; [|discriminate].
  destruct (train_cox_model L d0) as [c1|e] eqn:Et; cbn [rbind]; [|discriminate].
  intro H. injection H as <- <-. split; [reflexivity|]. split; [exact Et|].
  intros c0 Hin. exact (ensure_columns_Ok L d0 _ c0 Ee Hin).
Qed.

Lemma id_list_total (L : Library) (d : DataFrame) : exists ids, id_list L d = Ok ids.
Proof.
  unfold id_list. destruct (has_col ID_COL d) eqn:E; [|eauto].
  destruct (has_col_getitem d ID_COL E) as [s ->]. cbn [rbind]. eauto.
Qed.

Lemma initial_session_sound (d : DataFrame) (c : CoxPHFitter) (lbl : string)
    (warnings : list Dialog) (ids : list string) :
  model_returns c -> (forall c0, In c0 fit_columns -> has_col c0 d = true) ->
  has_col NAME_COL d = true -> has_col TYPE_COL d = true ->
  session_sound (initial_session d c lbl warnings ids).
Proof.
  intros Hm Hfit Hn Ht.
  assert (Hincl : incl (filter (fun c0 => has_col c0 d) FEATURE_COLUMNS) FEATURE_COLUMNS).
  { intros v Hv. now apply filter_In in Hv. }
  split; [split; [exact Hm|split]|split; [|split; [|split; [|split]]]];
    cbn [initial_session df groupable_vars widgets group_menu_values group_var].
  - exact Hfit.
  - intros v Hv. now apply filter_In in Hv.
  - exact Hn.
  - exact Ht.
  - exact Hincl.
  - exact Hincl.
  - destruct (filter (fun c0 => has_col c0 d) FEATURE_COLUMNS) as [|v0 gv] eqn:E.
    + cbn. auto.
    + apply Hincl. now left.
Qed.

(** The first redraw, on the session the widgets start from. *)
Lemma first_redraw (L : Library) (d : DataFrame) (c : CoxPHFitter) (lbl : string)
    (warnings : list Dialog) (ids : list string) :
  library_returns L ->
  session_sound (initial_session d c lbl warnings ids) ->
  exists s0,
    match update_dashboard L (initial_session d c lbl warnings ids) with
    | (s, Ok _) => Ok s
    | (_, Raise e) => Raise e
    end = Ok s0 /\
    session_sound s0 /\ obj_var s0 = IntVal 0 /\ show_details s0 = false /\
    details_frame_packed (widgets s0) = false /\
    cph s0 = c /\ source_label s0 = lbl /\ nrows (df s0) = nrows d /\
    dialogs s0 = (if Nat.eqb (nrows d) 0
                  then warnings ++ [index_error_dialog 0]
                  else warnings)%list.
Proof.
  intros HL Hs.
  pose proof (update_dashboard_returns L HL _ (proj1 Hs)) as Hret.
  pose proof (update_dashboard_sound L _ Hs) as Hsound.
  pose proof (update_dashboard_frame L (initial_session d c lbl warnings ids)) as Hf.
  cbv zeta in Hf.
  destruct (update_dashboard L (initial_session d c lbl warnings ids)) as [s0 r].
  cbn [fst snd] in *. subst r. exists s0. split; [reflexivity|].
  destruct Hf as (Hc & Hl & _ & Hsd & Hn & _ & _ & _ & _ & _ & _ & Hp & Ho & Hd).
  split; [exact Hsound|]. split; [exact Ho|]. split; [exact Hsd|]. split; [exact Hp|].
  split; [exact Hc|]. split; [exact Hl|]. split; [exact Hn|].
  rewrite Hd. cbn [initial_session df dialogs obj_var]. cbn [Z.ltb Z.compare orb].
  destruct (nrows d) as [|n]; reflexivity.
Qed.

(** X15. Start-up as a whole, for libraries that return and a loader that
    yields well-formed tables.  It ends in one of three ways.  It returns a
    sound session that shows record 0 with the details panel hidden; the only
    dialogs are the fallback warning, when the table was not used, and the
    index error, when the table has no rows.  Or the table could not be used
    and the fit on the synthetic data raises.  Or the table loads and fits
    but has neither a name nor an identifier column: then filling in the
    names raises [KeyError] on the identifier column, outside the [try], and
    no fallback takes place. *)
Theorem run_dashboard_outcome (L : Library) (csv : result DataFrame) (g : Rng)
    (HL : library_returns L)
    (Hwf : forall d, csv = Ok d -> wf_df d) :
  (forall d c, run_dashboard_try L csv = Ok (d, c) ->
     has_col NAME_COL d = false -> has_col ID_COL d = false ->
     run_dashboard L csv g = Raise (mkExc KeyError ID_COL)) /\
  (forall d c, run_dashboard_try L csv = Ok (d, c) ->
     has_col NAME_COL d = true \/ has_col ID_COL d = true ->
     exists s0, run_dashboard L csv g = Ok s0 /\ session_sound s0 /\
       cph s0 = c /\ source_label s0 = "cox_energy_dataset.csv" /\
       nrows (df s0) = nrows d /\
       dialogs s0 = if Nat.eqb (nrows d) 0 then [index_error_dialog 0] else []) /\
  (forall e0 c, run_dashboard_try L csv = Raise e0 ->
     train_cox_model L (generate_random_data g 120) = Ok c ->
     exists s0, run_dashboard L csv g = Ok s0 /\ session_sound s0 /\
       cph s0 = c /\ source_label s0 = "випадкові дані" /\
       nrows (df s0) = 120%nat /\ dialogs s0 = [fallback_warning e0]) /\
  (forall e0 e, run_dashboard_try L csv = Raise e0 ->
     train_cox_model L (generate_random_data g 120) = Raise e ->
     run_dashboard L csv g = Raise e) /\
  (forall s0, run_dashboard L csv g = Ok s0 ->
     session_sound s0 /\ obj_var s0 = IntVal 0 /\ show_details s0 = false /\
     details_frame_packed (widgets s0) = false).
Proof.
  assert (Hcsv : forall d c, run_dashboard_try L csv = Ok (d, c) ->
            has_col NAME_COL d = true \/ has_col ID_COL d = true ->
            exists s0, run_dashboard L csv g = Ok s0 /\ session_sound s0 /\
              obj_var s0 = IntVal 0 /\ show_details s0 = false /\
              details_frame_packed (widgets s0) = false /\
              cph s0 = c /\ source_label s0 = "cox_energy_dataset.csv" /\
              nrows (df s0) = nrows d /\
              dialogs s0 = if Nat.eqb (nrows d) 0 then [index_error_dialog 0] else []).
  { intros d c Ht Hcol.
    destruct (run_dashboard_try_Ok L csv d c Ht) as (Hd & Hfit & Hcols).
    destruct (run_dashboard_backfill_Ok L d (Hwf d Hd) Hcol)
      as (d' & Hb & Hn & _ & Hname & Htype & Hcs & _).
    destruct (id_list_total L d') as [ids Hids].
    assert (Hs : session_sound (initial_session d' c "cox_energy_dataset.csv" [] ids)).
    { apply initial_session_sound; [exact (train_cox_model_returns L d c HL Hfit) | |
                                    exact Hname | exact Htype].
      intros c0 Hin. apply Hcs. left. now apply Hcols. }
    destruct (first_redraw L d' c "cox_energy_dataset.csv" [] ids HL Hs)
      as (s0 & E & H1 & H2 & H3 & H4 & H5 & H6 & H7 & H8).
    exists s0. unfold run_dashboard, run_dashboard_load. rewrite Ht. cbn [rbind].
    rewrite Hb. cbn [rbind]. rewrite Hids. cbn [rbind].
    split; [exact E|]. rewrite <- Hn. cbn [app] in H8. tauto. }
  assert (Hsyn : forall e0 c, run_dashboard_try L csv = Raise e0 ->
            train_cox_model L (generate_random_data g 120) = Ok c ->
            exists s0, run_dashboard L csv g = Ok s0 /\ session_sound s0 /\
              obj_var s0 = IntVal 0 /\ show_details s0 = false /\
              details_frame_packed (widgets s0) = false /\
              cph s0 = c /\ source_label s0 = "випадкові дані" /\
              nrows (df s0) = 120%nat /\ dialogs s0 = [fallback_warning e0]).
  { intros e0 c Ht Hfit.
    destruct (id_list_total L (generate_random_data g 120)) as [ids Hids].
    assert (Hs : session_sound (initial_session (generate_random_data g 120) c
                                  "випадкові дані" [fallback_warning e0] ids)).
    { apply initial_session_sound;
        [exact (train_cox_model_returns L _ c HL Hfit) | | reflexivity | reflexivity].
      intros c0 Hin. now apply synthetic_has_fit_columns. }
    destruct (first_redraw L _ c "випадкові дані" [fallback_warning e0] ids HL Hs)
      as (s0 & E & H1 & H2 & H3 & H4 & H5 & H6 & H7 & H8).
    exists s0. unfold run_dashboard, run_dashboard_load. rewrite Ht, Hfit. cbn [rbind].
    rewrite run_dashboard_backfill_synthetic. cbn [rbind]. rewrite Hids. cbn [rbind].
    split; [exact E|]. cbn in H7, H8. tauto. }
  assert (Hkey : forall d c, run_dashboard_try L csv = Ok (d, c) ->
            has_col NAME_COL d = false -> has_col ID_COL d = false ->
            run_dashboard L csv g = Raise (mkExc KeyError ID_COL)).
  { intros d c Ht Hn Hi. unfold run_dashboard, run_dashboard_load. rewrite Ht.
    cbn [rbind]. now rewrite (run_dashboard_backfill_Raise L d Hn Hi). }
  assert (Hfail : forall e0 e, run_dashboard_try L csv = Raise e0 ->
            train_cox_model L (generate_random_data g 120) = Raise e ->
            run_dashboard L csv g = Raise e).
  { intros e0 e Ht Hfit. unfold run_dashboard, run_dashboard_load.
    now rewrite Ht, Hfit. }
  split; [exact Hkey|]. split.
  { intros d c Ht Hcol. destruct (Hcsv d c Ht Hcol) as (s0 & H). exists s0. tauto. }
  split.
  { intros e0 c Ht Hfit. destruct (Hsyn e0 c Ht Hfit) as (s0 & H). exists s0. tauto. }
  split; [exact Hfail|].
  intros s0 Hrun. destruct (run_dashboard_try L csv) as [[d c]|e0] eqn:Ht.
  - destruct (has_col NAME_COL d) eqn:En.
    + destruct (Hcsv d c eq_refl (or_introl En)) as (s1 & E & H).
      rewrite Hrun in E. injection E as <-. tauto.
    + destruct (has_col ID_COL d) eqn:Ei.
      * destruct (Hcsv d c eq_refl (or_intror Ei)) as (s1 & E & H).
        rewrite Hrun in E. injection E as <-. tauto.
      * rewrite (Hkey d c eq_refl En Ei) in Hrun. discriminate.
  - destruct (train_cox_model L (generate_random_data g 120)) as [c|e] eqn:Hfit.
    + destruct (Hsyn e0 c eq_refl eq_refl) as (s1 & E & H).
      rewrite Hrun in E. injection E as <-. tauto.
    + rewrite (Hfail e0 e eq_refl eq_refl) in Hrun. discriminate.
Qed.

Lemma run_dashboard_outcome_witness :
  run_dashboard Demo.lib
    (Ok (mkDF 3 (skipn 1 (cols Demo.csv_frame)))) Demo.rng = Raise (mkExc KeyError ID_COL).
Proof.
  assert (Hwf : forall d, Ok (mkDF 3 (skipn 1 (cols Demo.csv_frame))) = Ok d -> wf_df d).
  { intros d H. injection H as <-.
    split; [repeat constructor | cbn; repeat constructor; cbn; intuition discriminate]. }
  exact (proj1 (run_dashboard_outcome Demo.lib _ Demo.rng demo_library_returns Hwf)
           _ Demo.cox_model eq_refl eq_refl eq_refl).
Defined.

(** ** Regenerating, when the fit returns *)

Lemma synthetic_row (g : Rng) (n : nat) (i : nat) :
  (i < n)%nat ->
  exists row,
    (r <- iloc_rows (generate_random_data g n) i ;; select_cols r FEATURE_COLUMNS)%res
    = Ok row.
Proof.
  intro Hi. destruct (iloc_rows (generate_random_data g n) i) as [r|e] eqn:Er.
  - cbn [rbind]. apply select_cols_total. intros c Hin.
    apply (has_col_iloc_rows _ _ _ _ Er). now apply synthetic_has_features.
  - unfold iloc_rows in Er. rewrite generate_random_data_nrows in Er.
    apply Nat.ltb_lt in Hi. rewrite Hi in Er. discriminate.
Qed.

(** X16. Regenerating when the fit returns.  The session is reset around
    the new table of 150 records: the new model, the label of synthetic data
    in the heading and the window title, the seven covariates as grouping
    variables with the first one chosen, the identifiers 1 to 150 in the menu
    with 1 chosen, record 0 selected, and 149 as the upper bound of the index
    control.  The details toggle is not touched and no dialog opens; when the
    libraries return, so does the callback. *)
Theorem regenerate_data_resets (L : Library) (g : Rng) (s : Session) (c : CoxPHFitter)
    (Hfit : train_cox_model L (generate_random_data g 150) = Ok c) :
  let s' := fst (regenerate_data L g s) in
  nrows (df s') = 150%nat /\ cph s' = c /\
  source_label s' = "випадкові дані" /\
  title (widgets s') = heading "випадкові дані" /\
  root_title (widgets s') = window_title "випадкові дані" /\
  groupable_vars s' = FEATURE_COLUMNS /\
  group_menu_values (widgets s') = FEATURE_COLUMNS /\
  group_var s' = "навантаження_мвт" /\
  id_menu_values (widgets s') = map (fun i => string_of_Z (Z.of_nat i)) (seq 1 150) /\
  id_var s' = "1" /\ obj_var s' = IntVal 0 /\
  spin_to (widgets s') = 149%Z /\
  show_details s' = show_details s /\
  details_frame_packed (widgets s') = details_frame_packed (widgets s) /\
  dialogs s' = dialogs s /\
  (library_returns L -> snd (regenerate_data L g s) = Ok tt /\ session_ready s').
Proof.
  cbv zeta.
  destruct (regenerate_data_run L g s c Hfit)
    as (s0 & -> & Hdf & Hc & Hl & Hgv & Ho & Hi & Hv & Hsd & _ & Hdl & Hw).
  pose proof (update_dashboard_frame L s0) as Hf. cbv zeta in Hf.
  rewrite Ho, Hdf, Hw, Hc, Hl, Hgv, Hsd, Hdl in Hf.
  destruct Hf as (F1 & F2 & F3 & F4 & F5 & F6 & F7 & F8 & F9 & F10 & _ & F12 & F13 & F14).
  split; [exact F5|]. split; [exact F1|]. split; [exact F2|]. split; [exact F6|].
  split; [exact F7|]. split; [exact F3|]. split; [exact F10|]. split.
  { rewrite update_dashboard_keeps_choice; [exact Hv|]. rewrite Hv, Hdf. reflexivity. }
  split; [exact F9|]. split.
  { rewrite update_dashboard_as_views, Ho.
    destruct (synthetic_row g 150 0) as [row Hrow]; [lia|].
    rewrite (update_views_id_var L 0 s0 row); rewrite Hdf; [reflexivity | cbn; lia | exact Hrow]. }
  split; [exact F13|]. split; [exact F8|]. split; [exact F4|]. split; [exact F12|].
  split; [exact F14|].
  intro HL.
  assert (Hready : session_ready s0).
  { split; [|split].
    - rewrite Hc. exact (train_cox_model_returns L _ c HL Hfit).
    - intros c0 Hin. rewrite Hdf. now apply synthetic_has_fit_columns.
    - intros v Hin. rewrite Hdf. rewrite Hgv in Hin. now apply synthetic_has_features. }
  split; [now apply (update_dashboard_returns L HL)|].
  split; [|split].
  - rewrite F1. exact (train_cox_model_returns L _ c HL Hfit).
  - intros c0 Hin. apply update_dashboard_keeps_column.
    exact (proj1 (proj2 Hready) c0 Hin).
  - intros v Hin. rewrite F3 in Hin. apply update_dashboard_keeps_column.
    rewrite Hdf. now apply synthetic_has_features.
Qed.

Lemma regenerate_data_resets_witness :
  let s' := fst (regenerate_data Demo.lib Demo.rng
                   (set_obj_var (IntVal 2) (set_group_var "свято" Demo.session))) in
  nrows (df s') = 150%nat /\ obj_var s' = IntVal 0 /\ id_var s' = "1" /\
  group_var s' = "навантаження_мвт" /\ spin_to (widgets s') = 149%Z.
Proof.
  pose proof (regenerate_data_resets Demo.lib Demo.rng
                (set_obj_var (IntVal 2) (set_group_var "свято" Demo.session))
                Demo.cox_model eq_refl) as H.
  cbv zeta in H. cbv zeta. tauto.
Defined.

(** ** The details panel *)

(** X17. The details button.  One press flips the flag, shows the panel
    exactly when the flag is now set, and labels the button with the opposite
    action; it touches nothing else and never raises.  Two presses restore
    the flag, and restore the whole session when panel and button agreed with
    the flag to begin with, as they do from start-up on. *)
Theorem toggle_details_flips (s : Session) :
  let s1 := fst (toggle_details s) in
  let s2 := fst (toggle_details s1) in
  snd (toggle_details s) = Ok tt /\
  show_details s1 = negb (show_details s) /\
  details_frame_packed (widgets s1) = show_details s1 /\
  details_btn (widgets s1) =
    (if show_details s1 then "Сховати деталі" else "Показати деталі") /\
  (exists b p t, s1 = set_widgets (set_details_btn t (set_details_frame_packed p (widgets s)))
                        (set_show_details b s)) /\
  show_details s2 = show_details s /\
  (details_frame_packed (widgets s) = show_details s ->
   details_btn (widgets s) =
     (if show_details s then "Сховати деталі" else "Показати деталі") ->
   s2 = s).
Proof.
  cbv zeta. rewrite !toggle_details_run. cbn [fst snd].
  split; [reflexivity|]. split; [reflexivity|]. split; [reflexivity|].
  split; [cbn; now destruct (show_details s)|].
  split; [eauto|].
  split; [cbn; now destruct (show_details s)|].
  intros Hp Hb. destruct s as [d c l gv o i v sd w p dl]. destruct w. cbn in *.
  subst. now destruct sd.
Qed.

(** ** The groups divide the records *)

Lemma list_sum_cons (a : nat) (l : list nat) : list_sum (a :: l) = (a + list_sum l)%nat.
Proof. reflexivity. Qed.

Lemma indicator_sum_one (x : Cell) (labels : list Cell) :
  NoDup labels -> In x labels ->
  (forall v, cell_eqb x v = true <-> x = v) ->
  list_sum (map (fun v => if cell_eqb x v then 1 else 0)%nat labels) = 1%nat.
Proof.
  intros Hnd Hin Heq. induction labels as [|v l IH]; [contradiction|].
  apply NoDup_cons_iff in Hnd. destruct Hnd as [Hv Hnd]. cbn [map]. rewrite list_sum_cons.
  destruct (cell_eqb x v) eqn:E.
  - apply Heq in E. subst v.
    assert (Hz : list_sum (map (fun v => if cell_eqb x v then 1 else 0)%nat l) = 0%nat).
    { clear IH Hin Hnd. induction l as [|w l IH]; [reflexivity|].
      cbn [map]. rewrite list_sum_cons.
      destruct (cell_eqb x w) eqn:Ew.
      - apply Heq in Ew. subst w. exfalso. apply Hv. now left.
      - rewrite IH; [reflexivity|]. intro H. apply Hv. now right. }
    rewrite Hz. reflexivity.
  - destruct Hin as [->|Hin]; [rewrite cell_eqb_refl in E; discriminate|].
    now rewrite IH.
Qed.

Lemma count_true_cons (b : bool) (l : list bool) :
  count_true (b :: l) = ((if b then 1 else 0) + count_true l)%nat.
Proof. unfold count_true. cbn. now destruct b. Qed.

Lemma list_sum_map_add {A} (f g : A -> nat) (l : list A) :
  list_sum (map (fun v => f v + g v)%nat l) = (list_sum (map f l) + list_sum (map g l))%nat.
Proof.
  induction l as [|x l IH]; [reflexivity|].
  cbn [map]. rewrite !list_sum_cons, IH. lia.
Qed.

Lemma counts_sum_length (cells labels : list Cell) :
  NoDup labels -> Forall is_str cells -> (forall x, In x cells -> In x labels) ->
  list_sum (map (fun v => count_true (map (fun x => cell_eqb x v) cells)) labels)
  = length cells.
Proof.
  intros Hnd Hstr Hin. induction cells as [|x t IH].
  - cbn [map length]. clear Hnd Hin. induction labels as [|v l IHl]; [reflexivity|].
    cbn [map]. rewrite list_sum_cons, IHl. reflexivity.
  - apply Forall_cons_iff in Hstr. destruct Hstr as [Hx Hstr].
    cbn [map length].
    rewrite (map_ext _ (fun v => (if cell_eqb x v then 1 else 0)
                                 + count_true (map (fun x0 => cell_eqb x0 v) t))%nat)
      by (intro v; apply count_true_cons).
    rewrite list_sum_map_add, IH; [|exact Hstr | intros y Hy; apply Hin; now right].
    rewrite indicator_sum_one; [reflexivity | exact Hnd | apply Hin; now left |].
    intro v. split; [now apply cell_eqb_str | intros <-; apply cell_eqb_refl].
Qed.

(** X18. The groups divide the records.  For a well-formed table and a
    [qcut] that answers with one label per value of the column it is given,
    the group column has one value per record of the table; every record
    falls in exactly one of the groups whose curves are drawn; and the sizes
    of the groups add up to the number of records of the table. *)
Theorem groups_partition_records (L : Library) (d : DataFrame) (var : string)
    (col g : Series)
    (Hwf : wf_df d)
    (Hcol : getitem d var = Ok col)
    (Hq : forall labels, qcut_drop L col 3 GROUP_LABELS = Ok labels ->
                         length labels = series_len col)
    (Hg : group_series L d var = Ok g) :
  series_len g = nrows d /\
  (forall i, (i < nrows d)%nat ->
     exists x, nth_error (series_cells g) i = Some x /\
       In x (group_labels g) /\
       forall v, In v (group_labels g) ->
         (nth_error (group_mask g v) i = Some true <-> v = x)) /\
  NoDup (group_labels g) /\
  list_sum (map (fun v => count_true (group_mask g v)) (group_labels g)) = nrows d.
Proof.
  pose proof (group_series_is_str L d var g Hg) as Hstr.
  assert (Hlen : series_len g = nrows d).
  { rewrite <- (wf_df_series_len d var col Hwf Hcol).
    unfold group_series in Hg. rewrite Hcol in Hg. cbn [rbind] in Hg.
    destruct (is_numeric_dtype col && Nat.ltb 3 (nunique col)).
    - destruct (qcut_drop L col 3 GROUP_LABELS) as [labels|e] eqn:Eq;
        cbn [rbind] in Hg; [|discriminate].
      injection Hg as <-. unfold series_len at 1. cbn [series_cells].
      rewrite length_map. now apply Hq.
    - injection Hg as <-. unfold astype_str, series_len. cbn [series_cells].
      now rewrite !length_map. }
  split; [exact Hlen|]. split; [|split].
  - intros i Hi.
    destruct (nth_error (series_cells g) i) as [x|] eqn:Hx.
    2:{ apply nth_error_None in Hx. unfold series_len in Hlen. lia. }
    exists x. split; [reflexivity|].
    assert (Hin : In x (series_cells g)) by (eapply nth_error_In; eauto).
    split; [now apply group_labels_In_str|].
    intros v Hv. unfold group_mask. rewrite nth_error_map, Hx. cbn [option_map].
    rewrite Forall_forall in Hstr. split.
    + intro H. injection H as H. symmetry. exact (cell_eqb_str x v (Hstr x Hin) H).
    + intros ->. now rewrite cell_eqb_refl.
  - apply group_labels_NoDup.
  - rewrite <- Hlen. unfold group_mask, series_len. apply counts_sum_length.
    + apply group_labels_NoDup.
    + exact Hstr.
    + intros x Hx. now apply group_labels_In_str.
Qed.

Lemma groups_partition_records_witness :
  group_series Pandas.lib Pandas.crowded_frame "вік_років" =
    Ok (SCat GROUP_LABELS
          ["Низьке"; "Низьке"; "Низьке"; "Низьке"; "Середнє"; "Середнє"; "Середнє";
           "Високе"; "Високе"; "Високе"]) /\
  list_sum (map (fun v => count_true
                   (group_mask (SCat GROUP_LABELS
                      ["Низьке"; "Низьке"; "Низьке"; "Низьке"; "Середнє"; "Середнє";
                       "Середнє"; "Високе"; "Високе"; "Високе"]) v))
                [VStr "Високе"; VStr "Низьке"; VStr "Середнє"]) = 10%nat.
Proof.
  split; [reflexivity|].
  refine (proj2 (proj2 (proj2
    (groups_partition_records Pandas.lib Pandas.crowded_frame "вік_років"
       (SInt [5; 12; 20; 27; 33; 38; 41; 44; 47; 49]%Z)
       (SCat GROUP_LABELS
          ["Низьке"; "Низьке"; "Низьке"; "Низьке"; "Середнє"; "Середнє"; "Середнє";
           "Високе"; "Високе"; "Високе"])
       _ eq_refl _ eq_refl)))).
  - split.
    + vm_compute. repeat constructor.
    + vm_compute. repeat constructor; cbn; intuition discriminate.
  - intros labels H. vm_compute in H. injection H as <-. reflexivity.
Defined.

(** ** Each view is a function of what it reads *)

Lemma set_plots_twice (p q : Plots) (s : Session) :
  set_plots p (set_plots q s) = set_plots p s.
Proof. reflexivity. Qed.

Lemma set_widgets_twice (w v : Widgets) (s : Session) :
  set_widgets w (set_widgets v s) = set_widgets w s.
Proof. reflexivity. Qed.

Lemma set_ax_surv_twice (a b : Axes) (p : Plots) :
  set_ax_surv a (set_ax_surv b p) = set_ax_surv a p.
Proof. reflexivity. Qed.

Lemma set_ax_hr_twice (a b : Axes) (p : Plots) :
  set_ax_hr a (set_ax_hr b p) = set_ax_hr a p.
Proof. reflexivity. Qed.

Lemma set_ax_ch_twice (a b : Axes) (p : Plots) :
  set_ax_ch a (set_ax_ch b p) = set_ax_ch a p.
Proof. reflexivity. Qed.

Lemma set_details_text_twice (a b : string) (w : Widgets) :
  set_details_text a (set_details_text b w) = set_details_text a w.
Proof. reflexivity. Qed.

Lemma set_report_text_twice (a b : string) (w : Widgets) :
  set_report_text a (set_report_text b w) = set_report_text a w.
Proof. reflexivity. Qed.

Lemma set_df_set_plots (d : DataFrame) (p : Plots) (s : Session) :
  set_df d (set_plots p s) = set_plots p (set_df d s).
Proof. reflexivity. Qed.

Lemma set_ax_groups_twice (a b : Axes) (p : Plots) :
  set_ax_groups a (set_ax_groups b p) = set_ax_groups a p.
Proof. reflexivity. Qed.

(** Projections of a session just written, and writes that overwrite one
    another. *)
Ltac collapse :=
  session_cbn;
  cbn [ax_surv ax_hr ax_ch ax_groups canvas_surv canvas_hr canvas_ch canvas_groups
       set_ax_surv set_ax_hr set_ax_ch set_ax_groups set_canvas_surv set_canvas_hr
       set_canvas_ch set_canvas_groups];
  rewrite ?set_df_set_plots, ?set_plots_twice, ?set_widgets_twice, ?set_ax_surv_twice,
          ?set_ax_hr_twice, ?set_ax_ch_twice, ?set_ax_groups_twice,
          ?set_details_text_twice, ?set_report_text_twice.

Ltac collapse_in H :=
  cbn [df cph source_label groupable_vars obj_var id_var group_var show_details widgets
       plots dialogs set_df set_cph set_source_label set_groupable_vars set_obj_var
       set_id_var set_group_var set_show_details set_widgets set_plots set_dialogs] in H;
  rewrite ?set_df_set_plots, ?set_plots_twice, ?set_widgets_twice in H.

(** Writes the session as one record, field by field. *)
Ltac session_norm :=
  unfold set_df, set_cph, set_source_label, set_groupable_vars, set_obj_var, set_id_var,
    set_group_var, set_show_details, set_widgets, set_plots, set_dialogs,
    set_title, set_root_title, set_spin_to, set_id_menu_values, set_group_menu_values,
    set_risk_label, set_load_bar, set_load_val_label, set_record_summary_label,
    set_details_text, set_report_text, set_details_btn, set_details_frame_packed,
    set_ax_surv, set_ax_hr, set_ax_ch, set_ax_groups, set_canvas_surv, set_canvas_hr,
    set_canvas_ch, set_canvas_groups;
  cbn [df cph source_label groupable_vars obj_var id_var group_var show_details widgets
       plots dialogs title root_title spin_to id_menu_values group_menu_values risk_label
       load_bar load_val_label record_summary_label details_text report_text details_btn
       details_frame_packed ax_surv ax_hr ax_ch ax_groups canvas_surv canvas_hr canvas_ch
       canvas_groups fst snd].

(** The steps of a redraw overwrite their part of the display with values
    that do not depend on what the display held before: the value is chosen
    here before the session is. *)

Lemma step_survival_run (L : Library) (idx : Z) (row : DataFrame) (surv : Curve) :
  exists A, forall s,
    predict_survival_function (cph s) row = Ok surv ->
    step_survival L idx row s =
    (set_plots (set_canvas_surv A (set_ax_surv A (plots s))) s, Ok tt).
Proof.
  destruct (median_survival_time surv) as [t50|] eqn:Em; eexists; intros s H;
    unfold step_survival, on_ax_surv; run; rewrite H; run;
    (erewrite bind_run by (unfold try_except; rewrite Em; reflexivity));
    run; unfold on_ax_surv, modify_plots, modify, ax_clear; collapse; reflexivity.
Qed.

Lemma step_hazard_ratios_run (summ : list SummaryRow) :
  exists A, forall s,
    summary (cph s) = summ ->
    step_hazard_ratios s =
    (set_plots (set_canvas_hr A (set_ax_hr A (plots s))) s, Ok summ).
Proof.
  destruct summ as [|r0 rs]; eexists; intros s H;
    unfold step_hazard_ratios, on_ax_hr; run; session_cbn; rewrite H; cbv zeta;
    rewrite ?bind_assoc; run; unfold ret, ax_clear; collapse; reflexivity.
Qed.

Lemma step_cumulative_hazard_run (idx : Z) (row : DataFrame) (ch : Curve) :
  exists A, forall s,
    predict_cumulative_hazard (cph s) row = Ok ch ->
    step_cumulative_hazard idx row s =
    (set_plots (set_canvas_ch A (set_ax_ch A (plots s))) s, Ok tt).
Proof.
  eexists; intros s H. unfold step_cumulative_hazard, on_ax_ch. run. rewrite H. run.
  unfold modify_plots, modify, ax_clear. collapse. reflexivity.
Qed.

Lemma step_risk_run (row : DataFrame) (risk_score : Q) (s : Session) :
  predict_partial_hazard (cph s) row = Ok risk_score ->
  step_risk row s =
  (set_widgets (set_risk_label (risk_text (risk_bucket risk_score)) (widgets s)) s, Ok tt).
Proof. intro H. unfold step_risk. run. rewrite H. run. reflexivity. Qed.

Lemma step_load_run (L : Library) (d row : DataFrame) :
  exists b l, forall s,
    df s = d ->
    step_load L row s =
    (set_widgets (set_load_val_label l (set_load_bar b (widgets s))) s, Ok tt).
Proof.
  destruct (load_gauge L d row) as [cp|e] eqn:Eg; eexists; eexists; intros s <-;
    unfold step_load, try_except; run; rewrite Eg; run;
    unfold modify_widgets, modify; collapse; reflexivity.
Qed.

Lemma step_details_run (L : Library) (d : DataFrame) (i : nat) :
  exists t, forall s,
    df s = d ->
    step_details L i s = (set_widgets (set_details_text t (widgets s)) s, Ok tt).
Proof.
  destruct (iloc_to_dict d i) as [full_row|e] eqn:Er.
  - destruct (negb (has_col TYPE_COL d) ||
              match dict_get TYPE_COL full_row with
              | Some v => py_blank L (py_str L v)
              | None => py_blank L "None"
              end) eqn:Ec; eexists; intros s <-;
      unfold step_details, try_except; run; session_cbn; rewrite Er; run;
      unfold details_insert at 1; run; unfold bind at 1; rewrite forM_details_insert;
      session_cbn; rewrite Ec; cbn [when]; unfold details_insert, modify_widgets, modify, ret;
      collapse; reflexivity.
  - eexists; intros s <-. unfold step_details, try_except. run. session_cbn.
    rewrite Er. run. unfold ret. reflexivity.
Qed.

Lemma step_report_run (L : Library) (idx : Z) (summ : list SummaryRow)
    (rl : string * string) :
  exists t, forall s,
    risk_label (widgets s) = rl ->
    step_report L idx summ s = (set_widgets (set_report_text t (widgets s)) s, Ok tt).
Proof.
  destruct summ as [|r rs]; eexists; intros s Hrl; unfold step_report; run.
  - unfold report_insert, modify_widgets, modify. collapse. reflexivity.
  - unfold report_insert at 1. run. cbv zeta. unfold bind at 1.
    rewrite forM_report_insert. unfold report_insert. run.
    unfold modify_widgets, modify. collapse. rewrite Hrl. reflexivity.
Qed.

(** ** A second redraw *)










Lemma step_groups_run_Ok (L : Library) (s : Session) (var : string) (g : Series)
    (lines : list (string * Curve)) :
  group_var s = var -> has_col var (df s) = true ->
  group_series L (df s) var = Ok g ->
  rmap (fit_group L (df s) g var) (group_labels g) = Ok lines ->
  step_groups L s =
  (set_plots
     (let a := ax_set_title ("Крива виживаності по групах (" ++ var ++ ")")
                 (ax_plots lines empty_axes) in
      set_canvas_groups a (set_ax_groups a (plots s)))
     (set_df (setitem (df s) GROUP_COL g) s),
   Ok true).
Proof.
  intros Hvar Hhas Hg Hl. pose proof (step_groups_run L s var Hvar Hhas) as H.
  now rewrite Hg, Hl in H.
Qed.

Lemma step_groups_run_Raise (L : Library) (s : Session) :
  has_col (group_var s) (df s) = true ->
  (forall g lines, group_series L (df s) (group_var s) = Ok g ->
     rmap (fit_group L (df s) g (group_var s)) (group_labels g) <> Ok lines) ->
  exists e, snd (step_groups L s) = Raise e.
Proof.
  intros Hhas Hno. pose proof (step_groups_run L s _ eq_refl Hhas) as H.
  destruct (group_series L (df s) (group_var s)) as [g|e]; [|eauto].
  destruct (rmap _ (group_labels g)) as [lines|e] eqn:El; [|eauto].
  exfalso. exact (Hno g lines eq_refl El).
Qed.

Lemma bind_Raise_snd {A B} (m : M A) (k : A -> M B) (s : Session) (e : PyExc) :
  snd (m s) = Raise e -> snd (bind m k s) = Raise e.
Proof.
  intro H. unfold bind. destruct (m s) as [s1 [a|e1]]; cbn in *; [discriminate | now injection H as ->].
Qed.


(** A complete redraw, as one record: every output is a value fixed by the
    table after grouping, the row, the model's answers and the index, and
    none depends on what the display held. *)
Lemma update_views_run (L : Library) (idx : Z) (row : DataFrame) (surv ch : Curve)
    (summ : list SummaryRow) (var : string) (g : Series) (lines : list (string * Curve))
    (risk_score : Q) (D : DataFrame) :
  exists Asurv Ahr Ach Agr rl lb lv card dt rt, forall s,
    (0 <= idx < Z.of_nat (nrows (df s)))%Z ->
    (r <- iloc_rows (df s) (Z.to_nat idx) ;; select_cols r FEATURE_COLUMNS)%res = Ok row ->
    predict_survival_function (cph s) row = Ok surv ->
    summary (cph s) = summ ->
    predict_cumulative_hazard (cph s) row = Ok ch ->
    group_var s = var -> has_col var (df s) = true ->
    group_series L (df s) var = Ok g ->
    rmap (fit_group L (df s) g var) (group_labels g) = Ok lines ->
    predict_partial_hazard (cph s) row = Ok risk_score ->
    setitem (df s) GROUP_COL g = D ->
    update_views L idx s =
    (mkSession D (cph s) (source_label s) (groupable_vars s) (obj_var s)
       (if has_col ID_COL (df s)
        then match iloc_cell (df s) (Z.to_nat idx) ID_COL with
             | Ok v => py_str L v
             | Raise _ => id_var s
             end
        else id_var s)
       var (show_details s)
       (mkWidgets (title (widgets s)) (root_title (widgets s)) (spin_to (widgets s))
          (id_menu_values (widgets s)) (group_menu_values (widgets s))
          rl lb lv card dt rt
          (details_btn (widgets s)) (details_frame_packed (widgets s)))
       (mkPlots Asurv Ahr Ach Agr Asurv Ahr Ach Agr)
       (dialogs s),
     Ok tt).
Proof.
  destruct (step_survival_run L idx row surv) as [Asurv Hsurv_run].
  destruct (step_hazard_ratios_run summ) as [Ahr Hhr_run].
  destruct (step_cumulative_hazard_run idx row ch) as [Ach Hch_run].
  destruct (step_load_run L D row) as (lb & lv & Hload_run).
  destruct (step_details_run L D (Z.to_nat idx)) as [dt Hdet_run].
  destruct (step_report_run L idx summ (risk_text (risk_bucket risk_score)))
    as [rt Hrep_run].
  exists Asurv, Ahr, Ach.
  exists (ax_set_title ("Крива виживаності по групах (" ++ var ++ ")")
            (ax_plots lines empty_axes)).
  exists (risk_text (risk_bucket risk_score)), lb, lv.
  exists (match card_parts L D row (Z.to_nat idx) with
          | Ok (p :: ps) => String.concat "  • " (p :: ps)
          | _ => "Елемент: —"
          end).
  exists dt, rt.
  intros s Hrange Hrow Hsurv Hsumm Hch Hvar Hhas Hg Hlines Hrisk HD.
  unfold update_views. rewrite bind_gets.
  assert (E : (idx <? 0)%Z || (Z.of_nat (nrows (df s)) <=? idx)%Z = false).
  { apply orb_false_iff. split; [apply Z.ltb_ge | apply Z.leb_gt]; lia. }
  rewrite E. cbv zeta. rewrite Hrow, bind_lift_Ok.
  erewrite bind_run by apply sync_id_var_run.
  erewrite bind_run by (apply Hsurv_run; exact Hsurv). collapse.
  erewrite bind_run by (apply Hhr_run; exact Hsumm). collapse.
  erewrite bind_run by (apply Hch_run; exact Hch). collapse.
  erewrite bind_run by (apply (step_groups_run_Ok L _ var g lines);
                        [exact Hvar | exact Hhas | exact Hg | exact Hlines]).
  cbv iota zeta. collapse. rewrite HD.
  erewrite bind_run by (apply (step_risk_run row risk_score); exact Hrisk). collapse.
  erewrite bind_run by (apply Hload_run; reflexivity). collapse.
  erewrite bind_run by apply step_card_run. collapse.
  erewrite bind_run by (apply Hdet_run; reflexivity). collapse.
  erewrite Hrep_run by reflexivity. collapse.
  apply f_equal2; [|reflexivity]. rewrite <- Hvar. reflexivity.
Qed.

(** How a redraw for a record of the table ends, the grouping variable
    being a column: with the first exception among the calls it does not
    guard, in the order it makes them, and normally when there is none. *)
Lemma update_views_outcome (L : Library) (idx : Z) (s : Session) :
  (0 <= idx < Z.of_nat (nrows (df s)))%Z ->
  has_col (group_var s) (df s) = true ->
  snd (update_views L idx s) =
  match (r <- iloc_rows (df s) (Z.to_nat idx) ;; select_cols r FEATURE_COLUMNS)%res with
  | Raise e => Raise e
  | Ok row =>
      match predict_survival_function (cph s) row with
      | Raise e => Raise e
      | Ok _ =>
          match predict_cumulative_hazard (cph s) row with
          | Raise e => Raise e
          | Ok _ =>
              match group_curves L (df s) (group_var s) with
              | Raise e => Raise e
              | Ok _ =>
                  match predict_partial_hazard (cph s) row with
                  | Raise e => Raise e
                  | Ok _ => Ok tt
                  end
              end
          end
      end
  end.
Proof.
  intros Hrange Hhas.
  assert (E : (idx <? 0)%Z || (Z.of_nat (nrows (df s)) <=? idx)%Z = false).
  { apply orb_false_iff. split; [apply Z.ltb_ge | apply Z.leb_gt]; lia. }
  destruct (r <- iloc_rows (df s) (Z.to_nat idx) ;; select_cols r FEATURE_COLUMNS)%res
    as [row|e] eqn:Hrow.
  2:{ unfold update_views. rewrite bind_gets, E. cbv zeta. now rewrite Hrow. }
  destruct (predict_survival_function (cph s) row) as [surv|e] eqn:Hsurv.
  2:{ unfold update_views. rewrite bind_gets, E. cbv zeta. rewrite Hrow, bind_lift_Ok.
      erewrite bind_run by apply sync_id_var_run.
      apply bind_Raise_snd. unfold step_survival. run.
      session_cbn. rewrite Hsurv. reflexivity. }
  destruct (step_survival_run L idx row surv) as [Asurv Hsurv_run].
  destruct (step_hazard_ratios_run (summary (cph s))) as [Ahr Hhr_run].
  destruct (predict_cumulative_hazard (cph s) row) as [ch|e] eqn:Hch.
  2:{ unfold update_views. rewrite bind_gets, E. cbv zeta. rewrite Hrow, bind_lift_Ok.
      erewrite bind_run by apply sync_id_var_run.
      erewrite bind_run by (apply Hsurv_run; exact Hsurv).
      erewrite bind_run by (apply Hhr_run; reflexivity).
      apply bind_Raise_snd. unfold step_cumulative_hazard. run.
      session_cbn. rewrite Hch. reflexivity. }
  destruct (step_cumulative_hazard_run idx row ch) as [Ach Hch_run].
  assert (Hgroups : forall e,
            (forall st, df st = df s -> group_var st = group_var s ->
                        snd (step_groups L st) = Raise e) ->
            snd (update_views L idx s) = Raise e).
  { intros e He. unfold update_views. rewrite bind_gets, E. cbv zeta.
    rewrite Hrow, bind_lift_Ok.
    erewrite bind_run by apply sync_id_var_run.
    erewrite bind_run by (apply Hsurv_run; exact Hsurv).
    erewrite bind_run by (apply Hhr_run; reflexivity).
    erewrite bind_run by (apply Hch_run; exact Hch).
    apply bind_Raise_snd. apply He; reflexivity. }
  unfold group_curves.
  destruct (group_series L (df s) (group_var s)) as [g|e] eqn:Hg; cbn [rbind].
  2:{ apply Hgroups. intros st Hdf Hgv.
      pose proof (step_groups_run L st (group_var s) Hgv) as H.
      rewrite Hdf, Hg in H. now apply H. }
  destruct (rmap (fit_group L (df s) g (group_var s)) (group_labels g)) as [lines|e] eqn:Hl;
    cbn [rbind].
  2:{ apply Hgroups. intros st Hdf Hgv.
      pose proof (step_groups_run L st (group_var s) Hgv) as H.
      rewrite Hdf, Hg, Hl in H. now apply H. }
  destruct (predict_partial_hazard (cph s) row) as [risk_score|e] eqn:Hrisk.
  2:{ unfold update_views. rewrite bind_gets, E. cbv zeta. rewrite Hrow, bind_lift_Ok.
      erewrite bind_run by apply sync_id_var_run.
      erewrite bind_run by (apply Hsurv_run; exact Hsurv).
      erewrite bind_run by (apply Hhr_run; reflexivity).
      erewrite bind_run by (apply Hch_run; exact Hch).
      erewrite bind_run by (apply (step_groups_run_Ok L _ (group_var s) g lines);
                            [reflexivity | exact Hhas | exact Hg | exact Hl]).
      cbv iota. apply bind_Raise_snd. unfold step_risk. run.
      session_cbn. rewrite Hrisk. reflexivity. }
  destruct (update_views_run L idx row surv ch (summary (cph s)) (group_var s) g lines
              risk_score (setitem (df s) GROUP_COL g))
    as (A1 & A2 & A3 & A4 & rl & lb & lv & card & dt & rt & Hall).
  now rewrite (Hall s Hrange Hrow Hsurv eq_refl Hch eq_refl Hhas Hg Hl Hrisk eq_refl).
Qed.






(** X20. Which exception leaves a recompute.  For a record of the table
    and a grouping variable that is a column, the recompute ends with the
    first exception raised, in this order, by the selection of the row, the
    survival prediction, the cumulative-hazard prediction, the grouping with
    its Kaplan-Meier fits, and the risk prediction; when none of them raises
    it returns normally.  The synchronisation of the menu, the load gauge,
    the card, the details panel and the report never make it fail. *)
Theorem update_dashboard_first_exception (L : Library) (s : Session) (idx : Z)
    (Hidx : idx = match obj_var s with IntVal z => z | IntText _ => 0%Z end)
    (Hrange : (0 <= idx < Z.of_nat (nrows (df s)))%Z)
    (Hhas : has_col (group_var s) (df s) = true) :
  snd (update_dashboard L s) =
  match (r <- iloc_rows (df s) (Z.to_nat idx) ;; select_cols r FEATURE_COLUMNS)%res with
  | Raise e => Raise e
  | Ok row =>
      match predict_survival_function (cph s) row with
      | Raise e => Raise e
      | Ok _ =>
          match predict_cumulative_hazard (cph s) row with
          | Raise e => Raise e
          | Ok _ =>
              match group_curves L (df s) (group_var s) with
              | Raise e => Raise e
              | Ok _ =>
                  match predict_partial_hazard (cph s) row with
                  | Raise e => Raise e
                  | Ok _ => Ok tt
                  end
              end
          end
      end
  end.
Proof.
  rewrite update_dashboard_as_views.
  destruct (obj_var s) as [z|t] eqn:Eo; subst idx.
  - now apply update_views_outcome.
  - now apply (update_views_outcome L 0 (set_obj_var (IntVal 0) s)).
Qed.

Lemma update_dashboard_first_exception_witness :
  snd (update_dashboard Demo.lib
         (set_cph (mkCox (predict_survival_function Demo.cox_model)
                         (fun _ => Raise (mkExc ValueError "no baseline"))
                         (fun _ => Raise (mkExc ValueError "no score"))
                         Demo.cox_summary)
                  Demo.session))
  = Raise (mkExc ValueError "no baseline").
Proof.
  rewrite (update_dashboard_first_exception Demo.lib _ 0).
  - reflexivity.
  - reflexivity.
  - cbn. lia.
  - reflexivity.
Defined.

(** ** The guarded steps *)

(** X21. The four guarded steps never raise: what goes wrong inside them
    is swallowed and the display shows a placeholder instead.  A load that
    cannot be computed empties the gauge and shows a dash; a card that cannot
    be built shows the empty-record text; a row that cannot be read leaves
    the details panel empty, the old text having been deleted first; an
    identifier that cannot be read leaves the menu as it was.  Nothing else
    in the session changes. *)
Theorem guarded_steps_degrade (L : Library) (i : nat) (row : DataFrame) (s : Session) :
  (snd (sync_id_var L i s) = Ok tt /\ snd (step_load L row s) = Ok tt /\
   snd (step_card L i row s) = Ok tt /\ snd (step_details L i s) = Ok tt) /\
  (forall e, load_gauge L (df s) row = Raise e ->
     fst (step_load L row s) =
     set_widgets (set_load_val_label "— МВт" (set_load_bar 0 (widgets s))) s) /\
  (forall e, card_parts L (df s) row i = Raise e ->
     fst (step_card L i row s) =
     set_widgets (set_record_summary_label "Елемент: —" (widgets s)) s) /\
  (forall e, iloc_to_dict (df s) i = Raise e ->
     fst (step_details L i s) = set_widgets (set_details_text EmptyString (widgets s)) s) /\
  (forall e, iloc_cell (df s) i ID_COL = Raise e -> fst (sync_id_var L i s) = s).
Proof.
  split; [split; [|split; [|split]]|split; [|split; [|split]]].
  - now rewrite sync_id_var_run.
  - unfold step_load. now apply try_except_returns.
  - now rewrite step_card_run.
  - destruct (step_details_spec L i s) as (s' & -> & _). reflexivity.
  - intros e He. unfold step_load, try_except. run. rewrite He. run. reflexivity.
  - intros e He. rewrite step_card_run, He. reflexivity.
  - intros e He. unfold step_details, try_except. run. session_cbn. rewrite He. run.
    reflexivity.
  - intros e He. rewrite sync_id_var_run, He. cbn [fst].
    destruct (has_col ID_COL (df s)); apply set_id_var_same.
Qed.

(** ** The identifier menu and the rows *)

Lemma NoDup_nth_error_eq {A} (l : list A) (i j : nat) (x : A) :
  NoDup l -> nth_error l i = Some x -> nth_error l j = Some x -> i = j.
Proof.
  intros Hnd Hi Hj. apply (proj1 (NoDup_nth_error l) Hnd); [|congruence].
  apply nth_error_Some. congruence.
Qed.

(** X22. The menu and the rows.  The identifier menu lists, row by row,
    the identifiers as text (the positions 0, 1, ... for a table without
    identifiers).  When the texts are all different, picking the entry at
    position [k] sets the index control to [k]: the menu and the index
    control then name the same record.  For a table without identifiers the
    menu is inert: picking an entry changes nothing. *)
Theorem id_menu_selects_row (L : Library) (s : Session) (ids : list string)
    (Hlist : id_list L (df s) = Ok ids) :
  (has_col ID_COL (df s) = true ->
     (exists col, getitem (df s) ID_COL = Ok col /\
                  ids = map (py_str L) (series_cells col)) /\
     (NoDup ids -> forall k sel, nth_error ids k = Some sel ->
        fst (on_id_change L (set_id_var sel s)) =
        set_obj_var (IntVal (Z.of_nat k)) (set_id_var sel s))) /\
  (has_col ID_COL (df s) = false ->
     ids = map (fun i => string_of_Z (Z.of_nat i)) (seq 0 (nrows (df s))) /\
     forall sel, fst (on_id_change L (set_id_var sel s)) = set_id_var sel s).
Proof.
  unfold id_list in Hlist. split; intro Hc; rewrite Hc in Hlist.
  - destruct (getitem (df s) ID_COL) as [col|e] eqn:Hcol; cbn [rbind] in Hlist;
      [|discriminate].
    injection Hlist as <-. split; [eauto|].
    intros Hnd k sel Hk. rewrite on_id_change_run. cbn [fst df id_var set_id_var].
    rewrite Hc, Hcol.
    set (mask := map (fun v => String.eqb (py_str L v) sel) (series_cells col)).
    assert (Hm : nth_error mask k = Some true).
    { subst mask. rewrite nth_error_map in Hk |- *.
      destruct (nth_error (series_cells col) k) as [v|]; [|discriminate].
      cbn in *. injection Hk as <-. now rewrite String.eqb_refl. }
    destruct (positions_from_first 0 mask k Hm) as (j & rest & _ & Hj & _ & ->).
    cbn [Nat.add].
    assert (Hjsel : nth_error (map (py_str L) (series_cells col)) j = Some sel).
    { subst mask. rewrite nth_error_map in Hj |- *.
      destruct (nth_error (series_cells col) j) as [v|]; [|discriminate].
      cbn in *. injection Hj as Hj. apply String.eqb_eq in Hj. now rewrite Hj. }
    now rewrite (NoDup_nth_error_eq _ j k sel Hnd Hjsel Hk).
  - injection Hlist as <-. split; [reflexivity|].
    intro sel. rewrite on_id_change_run. cbn [fst df set_id_var]. now rewrite Hc.
Qed.

Lemma id_menu_selects_row_witness :
  fst (on_id_change Demo.lib (set_id_var "2" Demo.session)) =
  set_obj_var (IntVal 1) (set_id_var "2" Demo.session).
Proof.
  assert (Hnd : NoDup ["1"; "2"; "3"]).
  { repeat constructor; cbn; intuition discriminate. }
  exact (proj2 (proj1 (id_menu_selects_row Demo.lib Demo.session ["1"; "2"; "3"] eq_refl)
                  eq_refl) Hnd 1%nat "2" eq_refl).
Defined.

(** ** Start-up after a load that failed *)






(** ** The quantile cut on repeated edges *)

Lemma edges_length (xs : list Q) (q : nat) : length (Pandas.edges xs q) = S q.
Proof. unfold Pandas.edges. now rewrite length_map, length_seq. Qed.

Lemma qcut_labels_length (s : Series) (q : nat) (labels out : list string) :
  Pandas.qcut s q labels = Ok out -> length out = series_len s.
Proof.
  unfold Pandas.qcut.
  destruct (Nat.eqb (length labels) _); [|discriminate].
  intro H. injection H as <-. unfold series_len. now rewrite !length_map.
Qed.

(** C3. The quantile branch when quantile edges coincide.  The source
    passes [duplicates="drop"] together with three labels; pandas drops the
    repeated edges first and then checks the labels against the bins that
    are left, so the cut raises instead of yielding fewer buckets.  For every
    table and numeric covariate with more than three distinct values: when
    the four edges are pairwise different every record gets a label; when two edges coincide the grouping raises [ValueError].
    On the table [Pandas.crowded_csv], where seven of ten elements carry the
    same load, the edges of the load are 3000, 3000, 3000 and 6000; the
    grouping raises, and so do the recompute and start-up as a whole, outside
    any handler; the grouped chart is left cleared and the risk label, the
    gauge, the card, the details and the report are not refreshed. *)
Theorem group_survival_repeated_edges :
  (forall (d : DataFrame) (var : string) (col : Series),
     getitem d var = Ok col -> is_numeric_dtype col = true -> (3 < nunique col)%nat ->
     ((length (uniq Qeq_bool (Pandas.edges (map cell_num (series_cells col)) 3)) = 4)%nat ->
      exists labels,
        group_series Pandas.lib d var = Ok (SCat ["Низьке"; "Середнє"; "Високе"] labels) /\
        length labels = series_len col) /\
     ((length (uniq Qeq_bool (Pandas.edges (map cell_num (series_cells col)) 3)) < 4)%nat ->
      group_series Pandas.lib d var =
        Raise (mkExc ValueError
                 "Bin labels must be one fewer than the number of bin edges"))) /\
  getitem Pandas.crowded_frame "навантаження_мвт" =
    Ok (SInt [3000; 3000; 3000; 3000; 3000; 3000; 3000; 4000; 5000; 6000]%Z) /\
  nunique (SInt [3000; 3000; 3000; 3000; 3000; 3000; 3000; 4000; 5000; 6000]%Z) = 4%nat /\
  map Qred (Pandas.edges
              (map inject_Z [3000; 3000; 3000; 3000; 3000; 3000; 3000; 4000; 5000; 6000]%Z)
              3)
    = [3000; 3000; 3000; 6000] /\
  group_var Pandas.crowded_session = "навантаження_мвт" /\
  group_series Pandas.lib Pandas.crowded_frame "навантаження_мвт" =
    Raise (mkExc ValueError "Bin labels must be one fewer than the number of bin edges") /\
  snd (step_groups Pandas.lib Pandas.crowded_session) =
    Raise (mkExc ValueError "Bin labels must be one fewer than the number of bin edges") /\
  snd (update_dashboard Pandas.lib Pandas.crowded_session) =
    Raise (mkExc ValueError "Bin labels must be one fewer than the number of bin edges") /\
  run_dashboard Pandas.lib (Ok Pandas.crowded_csv) Demo.rng =
    Raise (mkExc ValueError "Bin labels must be one fewer than the number of bin edges") /\
  (let s := fst (update_dashboard Pandas.lib Pandas.crowded_session) in
   ax_lines (ax_groups (plots s)) = [] /\
   has_col GROUP_COL (df s) = false /\
   risk_label (widgets s) = risk_label (widgets Pandas.crowded_session) /\
   load_val_label (widgets s) = "— МВт" /\
   record_summary_label (widgets s) = "Елемент: —" /\
   details_text (widgets s) = EmptyString /\
   report_text (widgets s) = EmptyString).
Proof.
  split.
  { intros d var col Hcol Hnum Huniq.
    assert (Hgs : group_series Pandas.lib d var =
                  (labels <- Pandas.qcut col 3 GROUP_LABELS ;;
                   Ok (SCat GROUP_LABELS labels))%res).
    { unfold group_series. rewrite Hcol. cbn [rbind].
      apply Nat.ltb_lt in Huniq. now rewrite Hnum, Huniq. }
    rewrite Hgs. unfold Pandas.qcut, Pandas.drop_duplicates.
    rewrite edges_length.
    set (bins := Pandas.edges (map cell_num (series_cells col)) 3).
    split.
    - intro H4. rewrite H4. cbn [Nat.ltb Nat.leb Nat.eqb negb andb length GROUP_LABELS
                                 Nat.sub rbind].
      eexists. split; [reflexivity|].
      unfold series_len. now rewrite !length_map.
    - intro Hlt.
      assert (E : Nat.ltb (length (uniq Qeq_bool bins)) 4 = true)
        by now apply Nat.ltb_lt.
      rewrite E. cbn [Nat.eqb negb andb].
      assert (E2 : Nat.eqb (length GROUP_LABELS) (length (uniq Qeq_bool bins) - 1) = false).
      { apply Nat.eqb_neq. cbn [length GROUP_LABELS]. lia. }
      rewrite E2. reflexivity. }
  split; [reflexivity|]. split; [reflexivity|]. split; [reflexivity|].
  split; [reflexivity|]. split; [reflexivity|].
  split; [vm_compute; reflexivity|]. split; [vm_compute; reflexivity|].
  split; [vm_compute; reflexivity|].
  cbv zeta. vm_compute. repeat split.
Qed.
